(** * HPD: hotplug detect state machine (hpd.h / hpd.c)

    A shallow embedding of the hotplug-detect driver core and the proofs of
    the properties its specification states.

    Conventions of the embedding.
    - A C [int] is a [Z]; the one arithmetic operation of the driver,
      [edid_reads++], has its 32-bit wrap-around written out ([int_incr]).
    - [struct hpd_data] is the record [hpd_data].  The mutex is not a field:
      each function is written as it runs on its own, and the ways a
      notification can fall into a run of the worker, and a shutdown into a
      notification, are spelled out in the step relation.  The delayed work item [dwork] is the pending timer,
      [None] when nothing is queued and [Some ms] when the worker is queued
      to run after [ms] milliseconds ([msecs_to_jiffies] is kept in
      milliseconds).
    - The client driver's private data [drv_data] is a value of an arbitrary
      type [D]; a client operation is a function on it, and a function
      pointer that may be NULL is an [option].
    - The field [trace] is ghost state: the history, oldest first, of the
      client operations called, the timer primitives invoked and the
      messages printed.
    - Calling a NULL function pointer, reading [state_names] outside its
      bounds and [BUG_ON] end the execution with a [fault]. *)

From Stdlib Require Import ZArith String List Bool Lia.
Import ListNotations.
Local Open Scope Z_scope.

Set Implicit Arguments.

(** ** Constants *)

Definition MAX_EDID_READ_ATTEMPTS : Z := 5.

Definition HPD_STABILIZE_MS : Z := 40.
Definition HPD_DROP_TIMEOUT_MS : Z := 1500.
Definition CHECK_PLUG_STATE_DELAY_MS : Z := 10.
Definition CHECK_EDID_DELAY_MS : Z := 60.

(** The anonymous [enum] of hpd.h. *)
Definition STATE_HPD_RESET : Z := 0.
Definition STATE_PLUG : Z := 1.
Definition STATE_CHECK_EDID : Z := 2.
Definition STATE_DONE_DISABLED : Z := 3.
Definition STATE_DONE_ENABLED : Z := 4.
Definition STATE_WAIT_FOR_HPD_REASSERT : Z := 5.
Definition STATE_RECHECK_EDID : Z := 6.
Definition STATE_INIT_FROM_BOOTLOADER : Z := 7.
Definition HPD_STATE_COUNT : Z := 8.

Definition state_names : list string :=
  [ "Reset"; "Check Plug"; "Check EDID"; "Disabled"; "Enabled";
    "Wait for HPD reassert"; "Recheck EDID"; "Takeover from bootloader" ]%string.

(** ** Machine integers *)

Definition INT_MIN : Z := - 2 ^ 31.
Definition INT_MAX : Z := 2 ^ 31 - 1.

(** Reduction of a mathematical integer to the [int] it is stored as. *)
Definition wrap_int (z : Z) : Z := (z + 2 ^ 31) mod 2 ^ 32 - 2 ^ 31.

(** [x++] on an [int]. *)
Definition int_incr (x : Z) : Z := wrap_int (x + 1).

(** Conversion of an [int] to [size_t], as the comparison with
    [ARRAY_SIZE] performs it. *)
Definition to_size_t (z : Z) : Z := z mod 2 ^ 64.

(** ** Events, faults and outcomes *)

(** The operations of [struct hpd_ops]. *)
Inductive collab : Type :=
| OpInit | OpGetHpdState | OpDisable | OpEdidRead | OpEdidReady
| OpEdidRecheck | OpShutdown.

(** The messages of [pr_info] and [pr_warn], with their arguments. *)
Inductive message : Type :=
| MsgWorker (st : Z) (name : string) (hpd : Z) (pending : Z)
| MsgSwitch (from : Z) (from_name : string) (to : Z) (to_name : string)
| MsgDropped
| MsgReadGiveUp (n : Z)
| MsgRetryGiveUp (n : Z)
| MsgNoChange
| MsgBounce
| MsgNullHandler (st : Z)
| MsgUnexpected (st : Z).

Inductive event : Type :=
| Call (c : collab)
| Info (m : message)
| Warn (m : message)
| CancelWork
| CancelWorkSync
| ScheduleWork (ms : Z).

Inductive fault : Type :=
| NullCall (c : collab)
| BadIndex (i : Z)
| BugOn.

Inductive outcome (A : Type) : Type :=
| Done (a : A)
| Fault (f : fault).

Arguments Fault {A} f.

Definition bind {A B : Type} (m : outcome A) (k : A -> outcome B) : outcome B :=
  match m with
  | Done a => k a
  | Fault f => Fault f
  end.

Notation "x <- m ;; k" := (bind m (fun x => k))
  (at level 61, m at next level, right associativity).
Notation "' p <- m ;; k" := (bind m (fun x => let p := x in k))
  (at level 61, p pattern, m at next level, right associativity).

(** [state_names[i]]: defined inside the table only. *)
Definition state_name (i : Z) : outcome string :=
  if i <? 0 then Fault (BadIndex i)
  else match nth_error state_names (Z.to_nat i) with
       | Some s => Done s
       | None => Fault (BadIndex i)
       end.

Definition is_call (e : event) : bool :=
  match e with Call _ => true | _ => false end.

Definition is_call_of (c : collab) (e : event) : bool :=
  match e, c with
  | Call OpInit, OpInit | Call OpGetHpdState, OpGetHpdState
  | Call OpDisable, OpDisable | Call OpEdidRead, OpEdidRead
  | Call OpEdidReady, OpEdidReady | Call OpEdidRecheck, OpEdidRecheck
  | Call OpShutdown, OpShutdown => true
  | _, _ => false
  end.

Definition is_schedule (e : event) : bool :=
  match e with ScheduleWork _ => true | _ => false end.

(** The client operations called in a trace, in order. *)
Definition calls (t : list event) : list event := filter is_call t.

(** How many times operation [c] was called. *)
Definition count_calls (c : collab) (t : list event) : nat :=
  length (filter (is_call_of c) t).

(** How many times [schedule_delayed_work] queued the worker. *)
Definition scheduled (t : list event) : nat := length (filter is_schedule t).

Definition is_sync (e : event) : bool :=
  match e with CancelWorkSync => true | _ => false end.

(** What a history holds after its first [cancel_delayed_work_sync], which
    is recorded when the cancel has returned: what happened once a shutdown
    had cancelled the queue. *)
Fixpoint after_sync (t : list event) : list event :=
  match t with
  | [] => []
  | CancelWorkSync :: rest => rest
  | _ :: rest => after_sync rest
  end.

Section Hpd.

Variable D : Type.

(** ** Data model *)

Record hpd_ops : Type := {
  init : option (D -> D);
  get_hpd_state : option (D -> bool * D);
  disable : option (D -> D);
  edid_read : option (D -> bool * D);
  edid_ready : option (D -> D);
  edid_recheck : option (D -> Z * D);
  shutdown_op : option (D -> D)
}.

Record hpd_data : Type := {
  dwork : option Z;
  shutdown : Z;
  state : Z;
  pending_hpd_evt : Z;
  drv_data : D;
  ops : hpd_ops;
  edid_reads : Z;
  trace : list event
}.

(** Field assignments. *)
Definition set_dwork (v : option Z) (data : hpd_data) : hpd_data :=
  {| dwork := v; shutdown := shutdown data; state := state data;
     pending_hpd_evt := pending_hpd_evt data; drv_data := drv_data data;
     ops := ops data; edid_reads := edid_reads data; trace := trace data |}.

Definition set_shutdown (v : Z) (data : hpd_data) : hpd_data :=
  {| dwork := dwork data; shutdown := v; state := state data;
     pending_hpd_evt := pending_hpd_evt data; drv_data := drv_data data;
     ops := ops data; edid_reads := edid_reads data; trace := trace data |}.

Definition set_state (v : Z) (data : hpd_data) : hpd_data :=
  {| dwork := dwork data; shutdown := shutdown data; state := v;
     pending_hpd_evt := pending_hpd_evt data; drv_data := drv_data data;
     ops := ops data; edid_reads := edid_reads data; trace := trace data |}.

Definition set_pending_hpd_evt (v : Z) (data : hpd_data) : hpd_data :=
  {| dwork := dwork data; shutdown := shutdown data; state := state data;
     pending_hpd_evt := v; drv_data := drv_data data;
     ops := ops data; edid_reads := edid_reads data; trace := trace data |}.

Definition set_drv_data (v : D) (data : hpd_data) : hpd_data :=
  {| dwork := dwork data; shutdown := shutdown data; state := state data;
     pending_hpd_evt := pending_hpd_evt data; drv_data := v;
     ops := ops data; edid_reads := edid_reads data; trace := trace data |}.

Definition set_edid_reads (v : Z) (data : hpd_data) : hpd_data :=
  {| dwork := dwork data; shutdown := shutdown data; state := state data;
     pending_hpd_evt := pending_hpd_evt data; drv_data := drv_data data;
     ops := ops data; edid_reads := v; trace := trace data |}.

(** Ghost: append one event to the history. *)
Definition emit (e : event) (data : hpd_data) : hpd_data :=
  {| dwork := dwork data; shutdown := shutdown data; state := state data;
     pending_hpd_evt := pending_hpd_evt data; drv_data := drv_data data;
     ops := ops data; edid_reads := edid_reads data;
     trace := trace data ++ [e] |}.

(** ** Calls through [data->ops] *)

(** A call the source guards with [if (data->ops->f)]. *)
Definition call_if_present (c : collab) (f : option (D -> D))
    (data : hpd_data) : hpd_data :=
  match f with
  | Some g => emit (Call c) (set_drv_data (g (drv_data data)) data)
  | None => data
  end.

(** A call the source makes without a guard. *)
Definition call_result {R : Type} (c : collab) (f : option (D -> R * D))
    (data : hpd_data) : outcome (R * hpd_data) :=
  match f with
  | Some g =>
      let (r, x) := g (drv_data data) in
      Done (r, emit (Call c) (set_drv_data x data))
  | None => Fault (NullCall c)
  end.

(** ** The timer primitives *)

(** Modelled from the spec: the delayed work of the kernel
    ([cancel_delayed_work], [cancel_delayed_work_sync],
    [schedule_delayed_work]) is not part of the driver.  The specification
    assumes of it that it schedules a callback after a number of
    milliseconds and cancels a pending callback, one callback at most being
    pending. *)
Definition cancel_delayed_work (data : hpd_data) : hpd_data :=
  emit CancelWork (set_dwork None data).

(** Modelled from the spec: as [cancel_delayed_work]; the wait for a running
    worker is a matter of the step relation. *)
Definition cancel_delayed_work_sync (data : hpd_data) : hpd_data :=
  emit CancelWorkSync (set_dwork None data).

(** Modelled from the spec: queues the work unless it is already queued. *)
Definition schedule_delayed_work (data : hpd_data) (ms : Z) : hpd_data :=
  match dwork data with
  | Some _ => data
  | None => emit (ScheduleWork ms) (set_dwork (Some ms) data)
  end.

(** ** hpd.c *)

Definition sched_hpd_work (data : hpd_data) (resched_time : Z) : hpd_data :=
  let data := cancel_delayed_work data in
  if (resched_time >=? 0) && (shutdown data =? 0)
  then schedule_delayed_work data resched_time
  else data.

Definition set_hpd_state (data : hpd_data) (target_state resched_time : Z)
    : outcome hpd_data :=
  from <- state_name (state data) ;;
  to <- state_name target_state ;;
  let data := emit (Info (MsgSwitch (state data) from target_state to)) data in
  let data := set_state target_state data in
  Done (if pending_hpd_evt data =? 0
        then sched_hpd_work data resched_time
        else data).

Definition hpd_disable (data : hpd_data) : hpd_data :=
  call_if_present OpDisable (disable (ops data)) data.

Definition hpd_reset_state (data : hpd_data) : outcome hpd_data :=
  let data := hpd_disable data in
  set_hpd_state data STATE_PLUG CHECK_PLUG_STATE_DELAY_MS.

Definition hpd_plug_state (data : hpd_data) : outcome hpd_data :=
  ' (hpd, data) <- call_result OpGetHpdState (get_hpd_state (ops data)) data ;;
  if (hpd : bool) then
    let data := set_edid_reads 0 data in
    set_hpd_state data STATE_CHECK_EDID CHECK_EDID_DELAY_MS
  else
    let data := hpd_disable data in
    set_hpd_state data STATE_DONE_DISABLED (-1).

(** The code after the label [end_disabled] of [edid_check_state]. *)
Definition end_disabled (data : hpd_data) : outcome hpd_data :=
  let data := hpd_disable data in
  set_hpd_state data STATE_DONE_DISABLED (-1).

Definition edid_check_state (data : hpd_data) : outcome hpd_data :=
  ' (hpd, data) <- call_result OpGetHpdState (get_hpd_state (ops data)) data ;;
  if negb hpd then
    end_disabled (emit (Info MsgDropped) data)
  else
    ' (ok, data) <- call_result OpEdidRead (edid_read (ops data)) data ;;
    if negb ok then
      let data := set_edid_reads (int_incr (edid_reads data)) data in
      if edid_reads data >=? MAX_EDID_READ_ATTEMPTS then
        end_disabled (emit (Info (MsgReadGiveUp (edid_reads data))) data)
      else
        set_hpd_state data STATE_CHECK_EDID CHECK_EDID_DELAY_MS
    else
      let data := call_if_present OpEdidReady (edid_ready (ops data)) data in
      set_hpd_state data STATE_DONE_ENABLED (-1).

Definition wait_for_hpd_reassert_state (data : hpd_data) : outcome hpd_data :=
  set_hpd_state data STATE_HPD_RESET 0.

Definition edid_recheck_state (data : hpd_data) : outcome hpd_data :=
  let tgt_state := STATE_HPD_RESET in
  let timeout := 0 in
  ' (status, data) <-
      call_result OpEdidRecheck (edid_recheck (ops data)) data ;;
  if status =? -1 then
    let data := set_edid_reads (int_incr (edid_reads data)) data in
    if edid_reads data >=? MAX_EDID_READ_ATTEMPTS then
      let data := emit (Info (MsgRetryGiveUp (edid_reads data))) data in
      set_hpd_state data tgt_state timeout
    else
      set_hpd_state data STATE_RECHECK_EDID CHECK_EDID_DELAY_MS
  else if status =? 0 then
    let data := emit (Info MsgNoChange) data in
    set_hpd_state data STATE_DONE_ENABLED (-1)
  else
    set_hpd_state data tgt_state timeout.

Definition dispatch_func_t : Type := hpd_data -> outcome hpd_data.

Definition state_machine_dispatch : list (option dispatch_func_t) :=
  [ Some hpd_reset_state;              (* STATE_HPD_RESET *)
    Some hpd_plug_state;               (* STATE_PLUG *)
    Some edid_check_state;             (* STATE_CHECK_EDID *)
    None;                              (* STATE_DONE_DISABLED *)
    None;                              (* STATE_DONE_ENABLED *)
    Some wait_for_hpd_reassert_state;  (* STATE_WAIT_FOR_HPD_REASSERT *)
    Some edid_recheck_state;           (* STATE_RECHECK_EDID *)
    None ].                            (* STATE_INIT_FROM_BOOTLOADER *)

Definition handle_hpd_evt (data : hpd_data) (cur_hpd : Z) : outcome hpd_data :=
  if (STATE_DONE_ENABLED =? state data) && (cur_hpd =? 0) then
    set_hpd_state data STATE_WAIT_FOR_HPD_REASSERT HPD_DROP_TIMEOUT_MS
  else if (STATE_WAIT_FOR_HPD_REASSERT =? state data) && negb (cur_hpd =? 0) then
    let data := set_edid_reads 0 data in
    set_hpd_state data STATE_RECHECK_EDID CHECK_EDID_DELAY_MS
  else if (STATE_DONE_ENABLED =? state data) && negb (cur_hpd =? 0) then
    Done (emit (Info MsgBounce) data)
  else if (STATE_INIT_FROM_BOOTLOADER =? state data) && negb (cur_hpd =? 0) then
    set_hpd_state data STATE_PLUG HPD_STABILIZE_MS
  else
    set_hpd_state data STATE_HPD_RESET HPD_STABILIZE_MS.

(** [hpd_worker] from the point where it has released the mutex, with the
    value [pending_hpd_evt] it has observed. *)
Definition hpd_worker_body (pending_hpd_evt : Z) (data : hpd_data)
    : outcome hpd_data :=
  ' (hpd, data) <- call_result OpGetHpdState (get_hpd_state (ops data)) data ;;
  let cur_hpd := Z.b2z hpd in
  name <- state_name (state data) ;;
  let data :=
    emit (Info (MsgWorker (state data) name cur_hpd pending_hpd_evt)) data in
  if negb (pending_hpd_evt =? 0) then
    handle_hpd_evt data cur_hpd
  else if to_size_t (state data) <? Z.of_nat (length state_machine_dispatch) then
    match nth (Z.to_nat (state data)) state_machine_dispatch None with
    | None => Done (emit (Warn (MsgNullHandler (state data))) data)
    | Some func => func data
    end
  else
    Done (emit (Warn (MsgUnexpected (state data))) data).

(** The locked region observes and clears the pending flag; the rest runs
    without the mutex. *)
Definition hpd_worker (data : hpd_data) : outcome hpd_data :=
  let pending := pending_hpd_evt data in
  let data := set_pending_hpd_evt 0 data in
  hpd_worker_body pending data.

Definition hpd_shutdown (data : hpd_data) : hpd_data :=
  let data := set_shutdown 1 data in
  let data := cancel_delayed_work_sync data in
  call_if_present OpShutdown (shutdown_op (ops data)) data.

Definition hpd_set_pending_evt (data : hpd_data) : hpd_data :=
  let data := set_pending_hpd_evt 1 data in
  sched_hpd_work data 0.

(** [hpd_shutdown] takes no lock, so all of it can run while
    [hpd_set_pending_evt] stands between the test of the shutdown flag in
    [sched_hpd_work] and [schedule_delayed_work].  The notification has set
    the pending flag, cancelled the queued item and found the shutdown flag
    clear; the shutdown then sets the flag and cancels the (empty) queue;
    the notification queues the worker.  The client's shutdown operation is
    called before the worker is queued ([hook_first]) or after. *)
Definition hpd_set_pending_evt_across_shutdown (hook_first : bool)
    (data : hpd_data) : hpd_data :=
  let data := set_pending_hpd_evt 1 data in
  let data := cancel_delayed_work data in
  let data := set_shutdown 1 data in
  let data := cancel_delayed_work_sync data in
  if hook_first then
    schedule_delayed_work
      (call_if_present OpShutdown (shutdown_op (ops data)) data) 0
  else
    call_if_present OpShutdown (shutdown_op (ops data))
      (schedule_delayed_work data 0).

(** The operand of [BUG_ON] in [hpd_init], the two null-pointer tests apart. *)
Definition missing_mandatory (o : hpd_ops) : bool :=
  match get_hpd_state o, edid_read o, edid_ready o, edid_recheck o with
  | Some _, Some _, Some _, Some _ => false
  | _, _, _, _ => true
  end.

(** [data] and [ops] are pointers: [None] is NULL.  The storage [data]
    points to is not read; every field of the structure is written. *)
Definition hpd_init (data : option hpd_data) (drv : D) (o : option hpd_ops)
    : outcome hpd_data :=
  match data, o with
  | Some mem, Some o =>
      if missing_mandatory o then Fault BugOn
      else
        Done {| dwork := None;
                shutdown := 0;
                state := STATE_INIT_FROM_BOOTLOADER;
                pending_hpd_evt := 0;
                drv_data := match init o with Some g => g drv | None => drv end;
                ops := o;
                edid_reads := 0;
                trace := trace mem ++
                         match init o with Some _ => [Call OpInit] | None => [] end |}
  | _, _ => Fault BugOn
  end.

(** ** The work queue

    The kernel runs the worker when the queued item comes due; the item is
    no longer queued once the worker has started. *)

(** The queue serves the item once, if one is queued. *)
Definition run_queued_work (data : hpd_data) : outcome hpd_data :=
  match dwork data with
  | None => Done data
  | Some _ => hpd_worker (set_dwork None data)
  end.

(** The queue serves the item up to [n] times, nothing else happening in
    between. *)
Fixpoint run (n : nat) (data : hpd_data) : outcome hpd_data :=
  match n with
  | O => Done data
  | S k => data' <- run_queued_work data ;; run k data'
  end.

(** [n] notifications in a row. *)
Fixpoint notified (n : nat) (data : hpd_data) : hpd_data :=
  match n with
  | O => data
  | S k => hpd_set_pending_evt (notified k data)
  end.

(** One step of a context's life.
    - A client notifies a hotplug event.
    - The queued worker runs.  Notifications may land while it runs:
      [early] of them after the item has left the queue and before the
      worker takes the mutex, [late] of them after the worker has released
      the mutex and before its handler commits a transition (the handlers
      read the pending flag and the queue in [set_hpd_state] only).  A
      notification that lands after the commit is a step of its own.
    - The client shuts the context down: [hpd_shutdown] first sets the flag
      and then, once no worker is running, cancels the queued item and calls
      the client's shutdown operation; the two are separate steps, so that
      notifications and a worker run can fall between them.
    - A notification finds the shutdown flag clear and the whole of
      [hpd_shutdown] runs before it queues the worker.

    The shutdown flag is read in [sched_hpd_work] only.  A write of the flag
    that falls inside a worker run or a notification leaves the fields and
    the client calls that the write before the run or after it leaves, and
    [cancel_delayed_work_sync] does not return while a worker runs; the last
    step is the one interleaving of [hpd_shutdown] with the holders of the
    mutex that no order of the other steps gives. *)
Inductive step : hpd_data -> hpd_data -> Prop :=
| step_notify (data : hpd_data) :
    step data (hpd_set_pending_evt data)
| step_worker (data data' : hpd_data) (ms : Z) (early late : nat) :
    dwork data = Some ms ->
    hpd_worker_body
      (pending_hpd_evt (notified early (set_dwork None data)))
      (notified late
         (set_pending_hpd_evt 0 (notified early (set_dwork None data))))
    = Done data' ->
    step data data'
| step_shutdown_flag (data : hpd_data) :
    step data (set_shutdown 1 data)
| step_shutdown_quiesce (data : hpd_data) :
    shutdown data <> 0 ->
    step data
      (call_if_present OpShutdown (shutdown_op (ops data))
         (cancel_delayed_work_sync data))
| step_notify_across_shutdown (data : hpd_data) (hook_first : bool) :
    shutdown data = 0 ->
    step data (hpd_set_pending_evt_across_shutdown hook_first data).

Inductive steps : hpd_data -> hpd_data -> Prop :=
| steps_refl (data : hpd_data) : steps data data
| steps_snoc (data mid data' : hpd_data) :
    steps data mid -> step mid data' -> steps data data'.

(** The steps as actions that can be played on a context. *)
Inductive action : Type :=
| Notify
| Work (early late : nat)
| SetShutdown
| Quiesce
| NotifyAcrossShutdown (hook_first : bool).

Definition act (a : action) (data : hpd_data) : option hpd_data :=
  match a with
  | Notify => Some (hpd_set_pending_evt data)
  | Work early late =>
      match dwork data with
      | None => None
      | Some _ =>
          let started := notified early (set_dwork None data) in
          match hpd_worker_body (pending_hpd_evt started)
                  (notified late (set_pending_hpd_evt 0 started)) with
          | Done data' => Some data'
          | Fault _ => None
          end
      end
  | SetShutdown => Some (set_shutdown 1 data)
  | Quiesce =>
      if shutdown data =? 0 then None
      else Some (call_if_present OpShutdown (shutdown_op (ops data))
                   (cancel_delayed_work_sync data))
  | NotifyAcrossShutdown hook_first =>
      if shutdown data =? 0
      then Some (hpd_set_pending_evt_across_shutdown hook_first data)
      else None
  end.

Fixpoint play (script : list action) (data : hpd_data) : option hpd_data :=
  match script with
  | [] => Some data
  | a :: rest =>
      match act a data with
      | Some data' => play rest data'
      | None => None
      end
  end.

(** The contexts a client can bring about: initialised by [hpd_init] on
    fresh storage, then any number of steps. *)
Definition reachable (data : hpd_data) : Prop :=
  exists (mem : hpd_data) (drv : D) (o : hpd_ops) (data0 : hpd_data),
    trace mem = [] /\
    hpd_init (Some mem) drv (Some o) = Done data0 /\
    steps data0 data.

(** ** Predicates of the statements *)

(** One of the eight states of the [enum]. *)
Definition valid_state (s : Z) : Prop := 0 <= s < HPD_STATE_COUNT.

(** The operations [hpd_init] insists on are there. *)
Definition mandatory_present (o : hpd_ops) : Prop :=
  get_hpd_state o <> None /\ edid_read o <> None /\
  edid_ready o <> None /\ edid_recheck o <> None.

(** The name the log lines print for a state of the [enum]. *)
Definition name_of (s : Z) : string := nth (Z.to_nat s) state_names ""%string.

(** The timer primitives invoked in a trace, in order. *)
Definition is_timer (e : event) : bool :=
  match e with
  | CancelWork | CancelWorkSync | ScheduleWork _ => true
  | _ => false
  end.

Definition timer_events (t : list event) : list event := filter is_timer t.

(** What [set_hpd_state] leaves when its log line can be printed. *)
Definition committed (data : hpd_data) (target_state resched_time : Z) : hpd_data :=
  let data1 :=
    set_state target_state
      (emit (Info (MsgSwitch (state data) (name_of (state data))
                     target_state (name_of target_state))) data) in
  if pending_hpd_evt data =? 0 then sched_hpd_work data1 resched_time else data1.

(** The context after the first lines of [hpd_worker]: the pending flag is
    cleared, the signal is sampled (the client answers [hpd] and leaves its
    data as [x]) and the log line is printed. *)
Definition sampled (data : hpd_data) (hpd : bool) (x : D) : hpd_data :=
  emit (Info (MsgWorker (state data) (name_of (state data)) (Z.b2z hpd)
                (pending_hpd_evt data)))
    (emit (Call OpGetHpdState)
       (set_drv_data x (set_pending_hpd_evt 0 data))).

(** The same from the body's point of view: [data] is the context when the
    mutex is released and [pending] the value observed. *)
Definition sampled_at (pending : Z) (data : hpd_data) (hpd : bool) (x : D)
    : hpd_data :=
  emit (Info (MsgWorker (state data) (name_of (state data)) (Z.b2z hpd) pending))
    (emit (Call OpGetHpdState) (set_drv_data x data)).

(** What the scheduling step leaves in [dwork]. *)
Definition queued_after (data : hpd_data) (resched_time : Z) : option Z :=
  if resched_time >=? 0
  then if shutdown data =? 0 then Some resched_time else None
  else None.

(** [data'] is [data] after a transition to [target] was committed with the
    delay [delay]: the state is recorded and, unless the pending flag was
    set, the scheduling step has run. *)
Definition transitioned (data data' : hpd_data) (target delay : Z) : Prop :=
  state data' = target /\
  shutdown data' = shutdown data /\
  pending_hpd_evt data' = pending_hpd_evt data /\
  dwork data'
  = (if pending_hpd_evt data =? 0 then queued_after data delay else dwork data) /\
  timer_events (trace data')
  = timer_events (trace data) ++
      (if pending_hpd_evt data =? 0
       then CancelWork ::
            match queued_after data delay with
            | Some ms => [ScheduleWork ms]
            | None => []
            end
       else []).

(** [data1] has the flags, the queue and the timer history of [data]. *)
Definition same_control (data data1 : hpd_data) : Prop :=
  state data1 = state data /\
  shutdown data1 = shutdown data /\
  pending_hpd_evt data1 = pending_hpd_evt data /\
  dwork data1 = dwork data /\
  timer_events (trace data1) = timer_events (trace data).

(** The calls [hpd_disable] makes: one if the client has the operation. *)
Definition disable_calls (o : hpd_ops) : list event :=
  match disable o with
  | Some _ => [Call OpDisable]
  | None => []
  end.

(** ** The transitions of the machine *)

(** Events that are neither a timer primitive nor a warning. *)
Definition is_quiet (e : event) : bool :=
  match e with
  | Call _ | Info _ => true
  | _ => false
  end.

(** [data1] is [data] after client calls, log lines and assignments to the
    retry counter only. *)
Definition progressed (data data1 : hpd_data) : Prop :=
  state data1 = state data /\
  shutdown data1 = shutdown data /\
  pending_hpd_evt data1 = pending_hpd_evt data /\
  dwork data1 = dwork data /\
  ops data1 = ops data /\
  exists l, trace data1 = trace data ++ l /\ forallb is_quiet l = true.

(** The operation [c] is one the handlers call without a guard, and the
    client does not have it. *)
Definition absent (c : collab) (o : hpd_ops) : Prop :=
  match c with
  | OpGetHpdState => get_hpd_state o = None
  | OpEdidRead => edid_read o = None
  | OpEdidRecheck => edid_recheck o = None
  | _ => False
  end.

(** ** The event table of the specification *)

Inductive evt_action : Type :=
| Ignore
| Goto (target delay : Z) (zero_retry : bool).

(** The interpretation rules of an admitted event, row by row, on the
    current state and the sampled signal. *)
Definition spec_evt_table (st : Z) (asserted : bool) : evt_action :=
  if st =? STATE_DONE_ENABLED then
    if asserted then Ignore
    else Goto STATE_WAIT_FOR_HPD_REASSERT 1500 false
  else if st =? STATE_WAIT_FOR_HPD_REASSERT then
    if asserted then Goto STATE_RECHECK_EDID 60 true
    else Goto STATE_HPD_RESET 40 false
  else if st =? STATE_INIT_FROM_BOOTLOADER then
    if asserted then Goto STATE_PLUG 40 false
    else Goto STATE_HPD_RESET 40 false
  else Goto STATE_HPD_RESET 40 false.

(** The arcs of the state machine, read off the handlers: from the state
    and retry counter before, the target, the delay asked of the scheduling
    step and the retry counter after.  The first index tells whether the arc
    is taken on an admitted event or by the handler of the state. *)
Inductive arc : bool -> Z -> Z -> Z -> Z -> Z -> Prop :=
| arc_event (st reads : Z) (asserted : bool) (target delay : Z) (zero : bool) :
    spec_evt_table st asserted = Goto target delay zero ->
    arc true st reads target delay (if zero then 0 else reads)
| arc_reset (reads : Z) :
    arc false STATE_HPD_RESET reads STATE_PLUG CHECK_PLUG_STATE_DELAY_MS reads
| arc_plug_asserted (reads : Z) :
    arc false STATE_PLUG reads STATE_CHECK_EDID CHECK_EDID_DELAY_MS 0
| arc_plug_empty (reads : Z) :
    arc false STATE_PLUG reads STATE_DONE_DISABLED (-1) reads
| arc_check_dropped (reads : Z) :
    arc false STATE_CHECK_EDID reads STATE_DONE_DISABLED (-1) reads
| arc_check_retry (reads : Z) :
    int_incr reads < MAX_EDID_READ_ATTEMPTS ->
    arc false STATE_CHECK_EDID reads STATE_CHECK_EDID CHECK_EDID_DELAY_MS
      (int_incr reads)
| arc_check_give_up (reads : Z) :
    MAX_EDID_READ_ATTEMPTS <= int_incr reads ->
    arc false STATE_CHECK_EDID reads STATE_DONE_DISABLED (-1) (int_incr reads)
| arc_check_ready (reads : Z) :
    arc false STATE_CHECK_EDID reads STATE_DONE_ENABLED (-1) reads
| arc_wait_expired (reads : Z) :
    arc false STATE_WAIT_FOR_HPD_REASSERT reads STATE_HPD_RESET 0 reads
| arc_recheck_retry (reads : Z) :
    int_incr reads < MAX_EDID_READ_ATTEMPTS ->
    arc false STATE_RECHECK_EDID reads STATE_RECHECK_EDID CHECK_EDID_DELAY_MS
      (int_incr reads)
| arc_recheck_give_up (reads : Z) :
    MAX_EDID_READ_ATTEMPTS <= int_incr reads ->
    arc false STATE_RECHECK_EDID reads STATE_HPD_RESET 0 (int_incr reads)
| arc_recheck_unchanged (reads : Z) :
    arc false STATE_RECHECK_EDID reads STATE_DONE_ENABLED (-1) reads
| arc_recheck_changed (reads : Z) :
    arc false STATE_RECHECK_EDID reads STATE_HPD_RESET 0 reads.

(** A handler takes an arc out of the state [st], or stops at an operation
    the client lacks. *)
Definition handler_sound (f : dispatch_func_t) (st : Z) : Prop :=
  forall data : hpd_data,
    state data = st ->
    match f data with
    | Done data' =>
        exists data1 target delay,
          data' = committed data1 target delay /\
          progressed data data1 /\
          arc false st (edid_reads data) target delay (edid_reads data1)
    | Fault f => exists c, f = NullCall c /\ absent c (ops data)
    end.

(** What the body of the worker leaves when it returns, run on [data] with
    the observed flag [pending]: a committed arc, an ignored bounce, or the
    warning for a state without a handler. *)
Inductive body_result (pending : Z) (data : hpd_data) : hpd_data -> Prop :=
| br_arc (data1 : hpd_data) (target delay : Z) :
    progressed data data1 ->
    arc (negb (pending =? 0)) (state data) (edid_reads data)
      target delay (edid_reads data1) ->
    body_result pending data (committed data1 target delay)
| br_bounce (data1 : hpd_data) :
    progressed data data1 ->
    pending <> 0 ->
    state data = STATE_DONE_ENABLED ->
    edid_reads data1 = edid_reads data ->
    body_result pending data data1
| br_no_handler (data1 : hpd_data) :
    progressed data data1 ->
    pending = 0 ->
    nth (Z.to_nat (state data)) state_machine_dispatch None = None ->
    edid_reads data1 = edid_reads data ->
    body_result pending data (emit (Warn (MsgNullHandler (state data))) data1).

(** The two steady states, which the worker leaves on an event only. *)
Definition terminal_state (st : Z) : bool :=
  (st =? STATE_DONE_DISABLED) || (st =? STATE_DONE_ENABLED).

(** Every event but two: the warning of an unexpected state, and the
    warning of a NULL handler in a state that is not terminal. *)
Definition is_benign (e : event) : bool :=
  match e with
  | Warn (MsgNullHandler st) => terminal_state st
  | Warn _ => false
  | _ => true
  end.

(** The invariant of the reachable contexts: the state is one of the eight,
    the client has the operations the handlers call without a guard, the
    retry counter is between 0 and the ceiling and below it in the two
    retrying states, the only warning printed so far, if any, is that of a
    NULL handler in a terminal state, and in INIT_FROM_BOOTLOADER the worker
    is queued only with an event pending. *)
Definition invariant (data : hpd_data) : Prop :=
  valid_state (state data) /\
  missing_mandatory (ops data) = false /\
  0 <= edid_reads data <= MAX_EDID_READ_ATTEMPTS /\
  (state data = STATE_CHECK_EDID \/ state data = STATE_RECHECK_EDID ->
   edid_reads data < MAX_EDID_READ_ATTEMPTS) /\
  forallb is_benign (trace data) = true /\
  (state data = STATE_INIT_FROM_BOOTLOADER ->
   dwork data <> None -> pending_hpd_evt data <> 0).

(** The recheck results of the specification. *)
Inductive recheck_result : Type := Failure | Unchanged | Changed.

Definition status_of (r : recheck_result) : Z :=
  match r with Failure => -1 | Unchanged => 0 | Changed => 1 end.

(** [n] times in a row, a worker run in CHECK_EDID finds the signal asserted
    when its handler samples it and the read of the EDID fails.  [x] is the
    client's data when the run starts; the worker samples the signal once on
    its own before the handler does. *)
Fixpoint read_fails (g r : D -> bool * D) (n : nat) (x : D) : Prop :=
  match n with
  | O => True
  | S k =>
      let x1 := snd (g x) in
      let x2 := snd (g x1) in
      fst (g x1) = true /\ fst (r x2) = false /\ read_fails g r k (snd (r x2))
  end.

(** ** Runs of the queued worker, one at a time *)

(** The client's data after [hpd_disable]. *)
Definition disabled (o : hpd_ops) (x : D) : D :=
  match disable o with
  | Some f => f x
  | None => x
  end.

(** The call [edid_check_state] makes of [edid_ready], if the client has
    the operation, and the client's data after it. *)
Definition ready_calls (o : hpd_ops) : list event :=
  match edid_ready o with
  | Some _ => [Call OpEdidReady]
  | None => []
  end.

Definition readied (o : hpd_ops) (x : D) : D :=
  match edid_ready o with
  | Some f => f x
  | None => x
  end.

(** [data'] is what a run of the queued worker that commits a transition
    leaves of [data]: the state [st], the pending flag clear, the worker
    queued after [delay] (not at all if the delay is negative or the
    context is shutting down), the retry counter [reads], the client's data
    [x], and the client calls [new_calls] made on the way. *)
Definition ran (data data' : hpd_data) (st delay reads : Z) (x : D)
    (new_calls : list event) : Prop :=
  state data' = st /\
  pending_hpd_evt data' = 0 /\
  shutdown data' = shutdown data /\
  dwork data' = queued_after data delay /\
  edid_reads data' = reads /\
  ops data' = ops data /\
  drv_data data' = x /\
  calls (trace data') = calls (trace data) ++ new_calls.

(** The edges of the state diagram: the pairs of distinct states a step can
    lead from and to. *)
Definition edge (from to : Z) : bool :=
  if to =? STATE_HPD_RESET then true
  else if to =? STATE_PLUG then
    (from =? STATE_HPD_RESET) || (from =? STATE_INIT_FROM_BOOTLOADER)
  else if to =? STATE_CHECK_EDID then
    (from =? STATE_PLUG) || (from =? STATE_CHECK_EDID)
  else if to =? STATE_DONE_DISABLED then
    (from =? STATE_PLUG) || (from =? STATE_CHECK_EDID)
  else if to =? STATE_DONE_ENABLED then
    (from =? STATE_CHECK_EDID) || (from =? STATE_RECHECK_EDID)
  else if to =? STATE_WAIT_FOR_HPD_REASSERT then
    from =? STATE_DONE_ENABLED
  else if to =? STATE_RECHECK_EDID then
    (from =? STATE_WAIT_FOR_HPD_REASSERT) || (from =? STATE_RECHECK_EDID)
  else false.

(** A bound on the runs of the worker a state still has before it, when no
    event comes: the retries left in CHECK_EDID; one more for PLUG, two more
    for RESET, three more for WAIT_FOR_HPD_REASSERT; in RECHECK_EDID the
    retries left and then the way through RESET. *)
Definition rank (st reads : Z) : Z :=
  if st =? STATE_CHECK_EDID then MAX_EDID_READ_ATTEMPTS - reads
  else if st =? STATE_PLUG then 6
  else if st =? STATE_HPD_RESET then 7
  else if st =? STATE_WAIT_FOR_HPD_REASSERT then 8
  else if st =? STATE_RECHECK_EDID then 8 + (MAX_EDID_READ_ATTEMPTS - reads)
  else 0.

(** The same for a context: nothing if nothing is queued, one run and the
    rank of the state if no event is pending, and one run more than any rank
    if one is. *)
Definition runs_left (data : hpd_data) : Z :=
  match dwork data with
  | None => 0
  | Some _ =>
      if pending_hpd_evt data =? 0
      then 1 + rank (state data) (edid_reads data)
      else 15
  end.

(** The operations a step may call, by the state it starts in: the sample
    of the signal and the shutdown hook in every state; disable in RESET,
    PLUG and CHECK_EDID; the read and edid_ready in CHECK_EDID; the recheck
    in RECHECK_EDID; init in none. *)
Definition may_call (c : collab) (st : Z) : bool :=
  match c with
  | OpInit => false
  | OpGetHpdState => true
  | OpDisable =>
      (st =? STATE_HPD_RESET) || (st =? STATE_PLUG) || (st =? STATE_CHECK_EDID)
  | OpEdidRead => st =? STATE_CHECK_EDID
  | OpEdidReady => st =? STATE_CHECK_EDID
  | OpEdidRecheck => st =? STATE_RECHECK_EDID
  | OpShutdown => true
  end.

Definition called_in (st : Z) (e : event) : bool :=
  match e with
  | Call c => may_call c st
  | _ => true
  end.

End Hpd.

Unset Implicit Arguments.

Arguments name_of : simpl never.

(** ** A sample client

    Its private data counts the calls made to it.  The signal is always
    asserted, every read of the EDID fails and every recheck fails. *)

Definition counting_ops : hpd_ops nat :=
  {| init := Some S;
     get_hpd_state := Some (fun n => (true, S n));
     disable := Some S;
     edid_read := Some (fun n => (false, S n));
     edid_ready := Some S;
     edid_recheck := Some (fun n => (-1, S n));
     shutdown_op := Some S |}.

(** A context of the sample client with the given flags, state, retry
    counter and queue, and an empty history. *)
Definition sample_data (sh st pending reads : Z) (queued : option Z)
    : hpd_data nat :=
  {| dwork := queued; shutdown := sh; state := st;
     pending_hpd_evt := pending; drv_data := 0%nat; ops := counting_ops;
     edid_reads := reads; trace := [] |}.

(** The sample client's context as [hpd_init] leaves it. *)
Definition booted : hpd_data nat :=
  {| dwork := None; shutdown := 0; state := STATE_INIT_FROM_BOOTLOADER;
     pending_hpd_evt := 0; drv_data := 1%nat; ops := counting_ops;
     edid_reads := 0; trace := [Call OpInit] |}.

(** A second sample client: the signal is always asserted, every read of
    the EDID succeeds and every recheck finds it unchanged. *)
Definition steady_ops : hpd_ops nat :=
  {| init := None;
     get_hpd_state := Some (fun n => (true, n));
     disable := Some S;
     edid_read := Some (fun n => (true, n));
     edid_ready := Some (fun n => n);
     edid_recheck := Some (fun n => (0, n));
     shutdown_op := None |}.

(** Its context as [hpd_init] leaves it. *)
Definition steady_booted : hpd_data nat :=
  {| dwork := None; shutdown := 0; state := STATE_INIT_FROM_BOOTLOADER;
     pending_hpd_evt := 0; drv_data := 0%nat; ops := steady_ops;
     edid_reads := 0; trace := [] |}.

(** The display comes up (an event, then the handlers of PLUG and
    CHECK_EDID); a second event is notified, and a third lands when the
    worker has left the queue for it but has not yet taken the mutex; the
    worker ignores the bounce, and the item the third notification queued
    runs with no event pending. *)
Definition bounce_script : list action :=
  [Notify; Work 0 0; Work 0 0; Work 0 0; Notify; Work 1 0; Work 0 0].

Definition after_bounce : hpd_data nat :=
  Eval vm_compute in
  match play bounce_script steady_booted with
  | Some data => data
  | None => steady_booted
  end.

(** A third sample client: nothing is plugged in. *)
Definition unplugged_ops : hpd_ops nat :=
  {| init := None;
     get_hpd_state := Some (fun n => (false, S n));
     disable := Some S;
     edid_read := Some (fun n => (true, S n));
     edid_ready := Some S;
     edid_recheck := Some (fun n => (1, S n));
     shutdown_op := None |}.

(** A fourth: the signal is low at the first sample and high from then on;
    reads succeed and rechecks find the EDID unchanged. *)
Definition flapping_ops : hpd_ops nat :=
  {| init := None;
     get_hpd_state := Some (fun n => ((0 <? n)%nat, S n));
     disable := Some S;
     edid_read := Some (fun n => (true, S n));
     edid_ready := Some S;
     edid_recheck := Some (fun n => (0, S n));
     shutdown_op := None |}.

(** A context of a given client, not shutting down, with an empty
    history. *)
Definition client_data (o : hpd_ops nat) (st pending reads : Z)
    (queued : option Z) : hpd_data nat :=
  {| dwork := queued; shutdown := 0; state := st;
     pending_hpd_evt := pending; drv_data := 0%nat; ops := o;
     edid_reads := reads; trace := [] |}.

(** The same context once a first hotplug event was notified and the worker
    has run on it. *)
Definition first_event_handled : hpd_data nat :=
  Eval vm_compute in
  match hpd_worker (set_dwork None (hpd_set_pending_evt booted)) with
  | Done data => data
  | Fault _ => booted
  end.

(** Reduces the field read from a context built by assignments. *)
Ltac fields :=
  cbn [dwork shutdown state pending_hpd_evt drv_data ops edid_reads trace
       set_dwork set_shutdown set_state set_pending_hpd_evt set_drv_data
       set_edid_reads emit].

Tactic Notation "fields" "in" hyp(H) :=
  cbn [dwork shutdown state pending_hpd_evt drv_data ops edid_reads trace
       set_dwork set_shutdown set_state set_pending_hpd_evt set_drv_data
       set_edid_reads emit] in H.

(** Pushes the filters of the statements through a trace written as
    appended pieces. *)
Ltac filter_trace :=
  unfold timer_events, calls, count_calls, scheduled in *;
  rewrite <- ?app_assoc;
  rewrite ?filter_app;
  cbn [filter is_timer is_call is_call_of is_schedule app];
  rewrite ?app_nil_r, ?length_app;
  cbn [List.length].

(** ** Basic facts *)

Section Facts.

Variable D : Type.
Implicit Types (data : hpd_data D) (o : hpd_ops D).

Lemma valid_state_cases (s : Z) :
  valid_state s ->
  s = 0 \/ s = 1 \/ s = 2 \/ s = 3 \/ s = 4 \/ s = 5 \/ s = 6 \/ s = 7.
Proof. unfold valid_state, HPD_STATE_COUNT. lia. Qed.

Lemma state_name_valid (s : Z) :
  valid_state s -> state_name s = Done (name_of s).
Proof.
  intros H. apply valid_state_cases in H.
  repeat (destruct H as [H | H]; [subst s; reflexivity | ]).
  subst s. reflexivity.
Qed.

Lemma state_name_invalid (s : Z) :
  ~ valid_state s -> state_name s = Fault (BadIndex s).
Proof.
  intros H. unfold state_name.
  destruct (s <? 0) eqn:Hneg; [reflexivity | ].
  apply Z.ltb_ge in Hneg.
  assert (Hlen : (List.length state_names <= Z.to_nat s)%nat).
  { unfold valid_state, HPD_STATE_COUNT in H. simpl. lia. }
  apply nth_error_None in Hlen. rewrite Hlen. reflexivity.
Qed.

Lemma set_hpd_state_valid data (target_state resched_time : Z) :
  valid_state (state data) -> valid_state target_state ->
  set_hpd_state data target_state resched_time
  = Done (committed data target_state resched_time).
Proof.
  intros Hs Ht. unfold set_hpd_state.
  rewrite (state_name_valid _ Hs), (state_name_valid _ Ht). reflexivity.
Qed.


Lemma sched_hpd_work_dwork data (r : Z) :
  dwork (sched_hpd_work data r) = queued_after data r.
Proof.
  unfold sched_hpd_work, queued_after, schedule_delayed_work, cancel_delayed_work.
  cbn. destruct (r >=? 0), (shutdown data =? 0); reflexivity.
Qed.

Lemma sched_hpd_work_trace data (r : Z) :
  trace (sched_hpd_work data r)
  = trace data ++ CancelWork ::
      match queued_after data r with
      | Some ms => [ScheduleWork ms]
      | None => []
      end.
Proof.
  unfold sched_hpd_work, queued_after, schedule_delayed_work, cancel_delayed_work.
  cbn. destruct (r >=? 0), (shutdown data =? 0); cbn;
    rewrite <- ?app_assoc; reflexivity.
Qed.

Lemma sched_hpd_work_frame data (r : Z) :
  shutdown (sched_hpd_work data r) = shutdown data /\
  state (sched_hpd_work data r) = state data /\
  pending_hpd_evt (sched_hpd_work data r) = pending_hpd_evt data /\
  drv_data (sched_hpd_work data r) = drv_data data /\
  ops (sched_hpd_work data r) = ops data /\
  edid_reads (sched_hpd_work data r) = edid_reads data.
Proof.
  unfold sched_hpd_work, schedule_delayed_work, cancel_delayed_work.
  cbn. destruct (r >=? 0), (shutdown data =? 0); cbn; repeat split.
Qed.

Lemma committed_frame data (t r : Z) :
  state (committed data t r) = t /\
  shutdown (committed data t r) = shutdown data /\
  pending_hpd_evt (committed data t r) = pending_hpd_evt data /\
  drv_data (committed data t r) = drv_data data /\
  ops (committed data t r) = ops data /\
  edid_reads (committed data t r) = edid_reads data.
Proof.
  unfold committed. destruct (pending_hpd_evt data =? 0).
  - match goal with |- context [sched_hpd_work ?d r] =>
      destruct (sched_hpd_work_frame d r) as (H1 & H2 & H3 & H4 & H5 & H6) end.
    rewrite H1, H2, H3, H4, H5, H6. cbn. repeat split.
  - cbn. repeat split.
Qed.

Lemma committed_dwork data (t r : Z) :
  dwork (committed data t r)
  = if pending_hpd_evt data =? 0 then queued_after data r else dwork data.
Proof.
  unfold committed. destruct (pending_hpd_evt data =? 0).
  - rewrite sched_hpd_work_dwork. reflexivity.
  - reflexivity.
Qed.

Lemma committed_trace data (t r : Z) :
  trace (committed data t r)
  = trace data
    ++ Info (MsgSwitch (state data) (name_of (state data)) t (name_of t))
    :: (if pending_hpd_evt data =? 0
        then CancelWork ::
             match queued_after data r with
             | Some ms => [ScheduleWork ms]
             | None => []
             end
        else []).
Proof.
  unfold committed. destruct (pending_hpd_evt data =? 0).
  - rewrite sched_hpd_work_trace. cbn. rewrite <- app_assoc. reflexivity.
  - reflexivity.
Qed.

(** ** The scheduling step and the commit of a transition *)

(** C2. A transition committed by [set_hpd_state] records the target state;
    when the pending-event flag is set at that moment it neither cancels nor
    schedules, so the zero-delay item queued by [hpd_set_pending_evt] stays
    queued; when the flag is clear it runs the scheduling step: the queued
    item is cancelled, and the worker is queued after the given delay unless
    the delay is negative (or the context is shutting down). *)
Theorem set_hpd_state_pending_rule data (target_state resched_time : Z) :
  valid_state (state data) -> valid_state target_state ->
  (exists data',
     set_hpd_state data target_state resched_time = Done data' /\
     state data' = target_state /\
     (pending_hpd_evt data <> 0 ->
        dwork data' = dwork data /\
        timer_events (trace data') = timer_events (trace data)) /\
     (pending_hpd_evt data = 0 ->
        data' = sched_hpd_work
                  (set_state target_state
                     (emit (Info (MsgSwitch (state data) (name_of (state data))
                                    target_state (name_of target_state))) data))
                  resched_time /\
        (resched_time < 0 ->
           dwork data' = None /\
           timer_events (trace data')
           = timer_events (trace data) ++ [CancelWork]) /\
        (0 <= resched_time -> shutdown data = 0 ->
           dwork data' = Some resched_time /\
           timer_events (trace data')
           = timer_events (trace data) ++ [CancelWork; ScheduleWork resched_time]) /\
        (shutdown data <> 0 ->
           dwork data' = None /\
           timer_events (trace data')
           = timer_events (trace data) ++ [CancelWork]))) /\
  (shutdown data = 0 ->
   exists data'',
     set_hpd_state (hpd_set_pending_evt data) target_state resched_time
     = Done data'' /\
     state data'' = target_state /\
     pending_hpd_evt data'' = 1 /\
     dwork (hpd_set_pending_evt data) = Some 0 /\
     dwork data'' = Some 0).
Proof.
  intros Hs Ht. split.
  - exists (committed data target_state resched_time).
    split; [apply set_hpd_state_valid; assumption | ].
    split; [apply committed_frame | ].
    split.
    + intros Hp. apply Z.eqb_neq in Hp.
      rewrite committed_dwork, committed_trace, Hp.
      split; [reflexivity | ].
      unfold timer_events. rewrite filter_app. cbn. apply app_nil_r.
    + intros Hp.
      assert (Hp' : (pending_hpd_evt data =? 0) = true) by (apply Z.eqb_eq; exact Hp).
      rewrite committed_dwork, committed_trace, Hp'.
      split; [unfold committed; rewrite Hp'; reflexivity | ].
      unfold timer_events, queued_after. rewrite filter_app.
      split; [ | split].
      * intros Hneg. destruct (resched_time >=? 0) eqn:E; [lia | ].
        split; reflexivity.
      * intros Hpos Hsh. destruct (resched_time >=? 0) eqn:E; [ | lia].
        rewrite Hsh. split; reflexivity.
      * intros Hsh. apply Z.eqb_neq in Hsh. rewrite Hsh.
        destruct (resched_time >=? 0); split; reflexivity.
  - intros Hsh.
    assert (Hq : dwork (hpd_set_pending_evt data) = Some 0).
    { unfold hpd_set_pending_evt. rewrite sched_hpd_work_dwork.
      unfold queued_after. cbn. rewrite Hsh. reflexivity. }
    destruct (sched_hpd_work_frame (set_pending_hpd_evt 1 data) 0)
      as (_ & Hst & Hpe & _).
    exists (committed (hpd_set_pending_evt data) target_state resched_time).
    split.
    { apply set_hpd_state_valid; [ | assumption].
      unfold hpd_set_pending_evt. rewrite Hst. exact Hs. }
    split; [apply committed_frame | ].
    split.
    { destruct (committed_frame (hpd_set_pending_evt data) target_state resched_time)
        as (_ & _ & H & _).
      rewrite H. unfold hpd_set_pending_evt. rewrite Hpe. reflexivity. }
    split; [exact Hq | ].
    rewrite committed_dwork. unfold hpd_set_pending_evt at 1. rewrite Hpe. cbn.
    exact Hq.
Qed.

(** ** The worker and the event route *)

Lemma hpd_worker_body_pending (pending : Z) data (g : D -> bool * D) :
  get_hpd_state (ops data) = Some g ->
  valid_state (state data) ->
  pending <> 0 ->
  hpd_worker_body pending data
  = handle_hpd_evt
      (sampled_at pending data (fst (g (drv_data data))) (snd (g (drv_data data))))
      (Z.b2z (fst (g (drv_data data)))).
Proof.
  intros Hg Hs Hp. unfold hpd_worker_body, call_result, sampled_at. rewrite Hg.
  destruct (g (drv_data data)) as [b x]. cbn [bind fst snd]. fields.
  rewrite (state_name_valid _ Hs). cbn [bind].
  apply Z.eqb_neq in Hp. rewrite Hp. reflexivity.
Qed.

Lemma hpd_worker_body_dispatch data (g : D -> bool * D) :
  get_hpd_state (ops data) = Some g ->
  valid_state (state data) ->
  hpd_worker_body 0 data
  = let data1 :=
      sampled_at 0 data (fst (g (drv_data data))) (snd (g (drv_data data))) in
    match nth (Z.to_nat (state data)) (state_machine_dispatch D) None with
    | None => Done (emit (Warn (MsgNullHandler (state data))) data1)
    | Some func => func data1
    end.
Proof.
  intros Hg Hs. unfold hpd_worker_body, call_result, sampled_at. rewrite Hg.
  destruct (g (drv_data data)) as [b x]. cbn [bind fst snd]. fields.
  rewrite (state_name_valid _ Hs). cbn [bind Z.eqb negb].
  assert (Hlt : (to_size_t (state data)
                 <? Z.of_nat (List.length (state_machine_dispatch D))) = true).
  { apply Z.ltb_lt. unfold to_size_t.
    unfold valid_state, HPD_STATE_COUNT in Hs.
    rewrite Z.mod_small by lia. cbn. lia. }
  rewrite Hlt. reflexivity.
Qed.

Lemma hpd_worker_body_invalid (pending : Z) data (g : D -> bool * D) :
  get_hpd_state (ops data) = Some g ->
  ~ valid_state (state data) ->
  hpd_worker_body pending data = Fault (BadIndex (state data)).
Proof.
  intros Hg Hs. unfold hpd_worker_body, call_result. rewrite Hg.
  destruct (g (drv_data data)) as [b x]. cbn [bind]. fields.
  rewrite (state_name_invalid _ Hs). reflexivity.
Qed.

Lemma valid_state_dec (s : Z) : {valid_state s} + {~ valid_state s}.
Proof.
  unfold valid_state.
  destruct (Z_le_dec 0 s); destruct (Z_lt_dec s HPD_STATE_COUNT);
    (left; lia) || (right; lia).
Qed.

Lemma hpd_worker_body_done_valid (pending : Z) data data' :
  hpd_worker_body pending data = Done data' ->
  valid_state (state data) /\ get_hpd_state (ops data) <> None.
Proof.
  intros H.
  destruct (get_hpd_state (ops data)) as [g | ] eqn:Hg.
  - split; [ | discriminate].
    destruct (valid_state_dec (state data)) as [Hv | Hn]; [exact Hv | ].
    rewrite (hpd_worker_body_invalid pending data g Hg Hn) in H. discriminate.
  - unfold hpd_worker_body, call_result in H. rewrite Hg in H. discriminate.
Qed.

Lemma hpd_worker_pending data (g : D -> bool * D) :
  get_hpd_state (ops data) = Some g ->
  valid_state (state data) ->
  pending_hpd_evt data <> 0 ->
  hpd_worker data
  = handle_hpd_evt (sampled data (fst (g (drv_data data))) (snd (g (drv_data data))))
      (Z.b2z (fst (g (drv_data data)))).
Proof.
  intros Hg Hs Hp.
  exact (hpd_worker_body_pending (pending_hpd_evt data)
           (set_pending_hpd_evt 0 data) g Hg Hs Hp).
Qed.

Lemma hpd_worker_dispatch data (g : D -> bool * D) :
  get_hpd_state (ops data) = Some g ->
  valid_state (state data) ->
  pending_hpd_evt data = 0 ->
  hpd_worker data
  = let data1 := sampled data (fst (g (drv_data data))) (snd (g (drv_data data))) in
    match nth (Z.to_nat (state data)) (state_machine_dispatch D) None with
    | None => Done (emit (Warn (MsgNullHandler (state data))) data1)
    | Some func => func data1
    end.
Proof.
  intros Hg Hs Hp. unfold hpd_worker, sampled. rewrite Hp.
  exact (hpd_worker_body_dispatch (set_pending_hpd_evt 0 data) g Hg Hs).
Qed.


Lemma sampled_trace data (hpd : bool) (x : D) :
  trace (sampled data hpd x)
  = trace data ++
      [Call OpGetHpdState;
       Info (MsgWorker (state data) (name_of (state data)) (Z.b2z hpd)
               (pending_hpd_evt data))].
Proof. unfold sampled. cbn. rewrite <- app_assoc. reflexivity. Qed.

(** The chain of tests of [handle_hpd_evt] is the table of the
    specification. *)
Lemma handle_hpd_evt_table data (cur_hpd : Z) :
  handle_hpd_evt data cur_hpd
  = match spec_evt_table (state data) (negb (cur_hpd =? 0)) with
    | Ignore => Done (emit (Info MsgBounce) data)
    | Goto target delay zero_retry =>
        set_hpd_state (if zero_retry then set_edid_reads 0 data else data)
          target delay
    end.
Proof.
  unfold handle_hpd_evt, spec_evt_table.
  unfold STATE_DONE_ENABLED, STATE_WAIT_FOR_HPD_REASSERT,
    STATE_INIT_FROM_BOOTLOADER, STATE_RECHECK_EDID, STATE_PLUG,
    STATE_HPD_RESET, HPD_DROP_TIMEOUT_MS, CHECK_EDID_DELAY_MS, HPD_STABILIZE_MS.
  rewrite (Z.eqb_sym 4 (state data)), (Z.eqb_sym 5 (state data)),
    (Z.eqb_sym 7 (state data)).
  destruct (Z.eqb_spec (state data) 4) as [E4 | E4];
    destruct (Z.eqb_spec (state data) 5) as [E5 | E5]; try lia;
    destruct (Z.eqb_spec (state data) 7) as [E7 | E7]; try lia;
    destruct (cur_hpd =? 0); reflexivity.
Qed.

Lemma sampled_frame data (hpd : bool) (x : D) :
  state (sampled data hpd x) = state data /\
  pending_hpd_evt (sampled data hpd x) = 0 /\
  dwork (sampled data hpd x) = dwork data /\
  shutdown (sampled data hpd x) = shutdown data /\
  edid_reads (sampled data hpd x) = edid_reads data /\
  ops (sampled data hpd x) = ops data /\
  drv_data (sampled data hpd x) = x.
Proof. unfold sampled. cbn. repeat split. Qed.

Lemma b2z_asserted (b : bool) : negb (Z.b2z b =? 0) = b.
Proof. destruct b; reflexivity. Qed.

(** The five rows of the table. *)
Lemma spec_evt_table_rows :
  spec_evt_table STATE_DONE_ENABLED false
  = Goto STATE_WAIT_FOR_HPD_REASSERT 1500 false /\
  spec_evt_table STATE_WAIT_FOR_HPD_REASSERT true
  = Goto STATE_RECHECK_EDID 60 true /\
  spec_evt_table STATE_DONE_ENABLED true = Ignore /\
  spec_evt_table STATE_INIT_FROM_BOOTLOADER true = Goto STATE_PLUG 40 false /\
  (forall (st : Z) (asserted : bool),
     st <> STATE_DONE_ENABLED ->
     ~ (st = STATE_WAIT_FOR_HPD_REASSERT /\ asserted = true) ->
     ~ (st = STATE_INIT_FROM_BOOTLOADER /\ asserted = true) ->
     spec_evt_table st asserted = Goto STATE_HPD_RESET 40 false).
Proof.
  repeat (split; [reflexivity | ]).
  intros st asserted H4 H5 H7. unfold spec_evt_table.
  destruct (Z.eqb_spec st STATE_DONE_ENABLED) as [E | _]; [contradiction | ].
  destruct (Z.eqb_spec st STATE_WAIT_FOR_HPD_REASSERT) as [E | _].
  - destruct asserted; [exfalso; apply H5; split; [exact E | reflexivity] | reflexivity].
  - destruct (Z.eqb_spec st STATE_INIT_FROM_BOOTLOADER) as [E | _]; [ | reflexivity].
    destruct asserted; [exfalso; apply H7; split; [exact E | reflexivity] | reflexivity].
Qed.

Lemma spec_evt_table_target (st : Z) (asserted : bool)
    (target delay : Z) (zero_retry : bool) :
  spec_evt_table st asserted = Goto target delay zero_retry ->
  valid_state target /\ 0 <= delay.
Proof.
  unfold spec_evt_table, valid_state, HPD_STATE_COUNT.
  destruct (st =? STATE_DONE_ENABLED), (st =? STATE_WAIT_FOR_HPD_REASSERT),
    (st =? STATE_INIT_FROM_BOOTLOADER), asserted;
    intros H; inversion H; subst; cbv; repeat split; congruence.
Qed.

(** C1. A worker run that finds the pending flag set interprets the event
    by the table of the specification, on the state it finds and the signal
    it has just sampled: DONE_ENABLED and dropped goes to
    WAIT_FOR_HPD_REASSERT with 1500 ms; WAIT_FOR_HPD_REASSERT and asserted
    zeroes the retry counter and goes to RECHECK_EDID with 60 ms;
    DONE_ENABLED and asserted changes neither the state nor the queue;
    INIT_FROM_BOOTLOADER and asserted goes to PLUG with 40 ms; anything else
    goes to RESET with 40 ms.  The delay is what the scheduling step is
    asked for: the worker is queued with it unless the context is shutting
    down. *)
Theorem hpd_worker_event_table data (g : D -> bool * D) :
  get_hpd_state (ops data) = Some g ->
  valid_state (state data) ->
  pending_hpd_evt data <> 0 ->
  exists data',
    hpd_worker data = Done data' /\
    pending_hpd_evt data' = 0 /\
    match spec_evt_table (state data) (fst (g (drv_data data))) with
    | Ignore =>
        state data' = state data /\
        edid_reads data' = edid_reads data /\
        dwork data' = dwork data /\
        timer_events (trace data') = timer_events (trace data)
    | Goto target delay zero_retry =>
        hpd_worker data
        = set_hpd_state
            (let data1 := sampled data (fst (g (drv_data data)))
                            (snd (g (drv_data data))) in
             if zero_retry then set_edid_reads 0 data1 else data1)
            target delay /\
        state data' = target /\
        edid_reads data' = (if zero_retry then 0 else edid_reads data) /\
        dwork data' = (if shutdown data =? 0 then Some delay else None) /\
        timer_events (trace data')
        = timer_events (trace data) ++
            CancelWork ::
            (if shutdown data =? 0 then [ScheduleWork delay] else [])
    end.
Proof.
  intros Hg Hs Hp.
  rewrite (hpd_worker_pending _ _ Hg Hs Hp), handle_hpd_evt_table, b2z_asserted.
  destruct (g (drv_data data)) as [b x]. cbn [fst snd].
  destruct (sampled_frame data b x) as (Fst & Fpe & Fdw & Fsh & Fer & _ & _).
  rewrite Fst.
  destruct (spec_evt_table (state data) b) as [ | target delay zero_retry] eqn:Etab.
  - eexists. split; [reflexivity | ]. cbn. filter_trace.
    repeat split.
  - destruct (spec_evt_table_target _ _ _ _ _ Etab) as [Ht Hd].
    set (data1 := if zero_retry then set_edid_reads 0 (sampled data b x)
                  else sampled data b x).
    assert (F1 : state data1 = state data /\ pending_hpd_evt data1 = 0 /\
                 shutdown data1 = shutdown data /\
                 edid_reads data1 = (if zero_retry then 0 else edid_reads data) /\
                 timer_events (trace data1) = timer_events (trace data)).
    { unfold data1. destruct zero_retry; cbn; filter_trace; repeat split. }
    destruct F1 as (G1 & G2 & G3 & G4 & G5).
    assert (Hs1 : valid_state (state data1)) by (rewrite G1; exact Hs).
    rewrite (set_hpd_state_valid data1 target delay Hs1 Ht).
    exists (committed data1 target delay).
    destruct (committed_frame data1 target delay) as (C1 & C2 & C3 & _ & _ & C6).
    split; [reflexivity | ].
    split; [rewrite C3; exact G2 | ].
    split; [reflexivity | ].
    split; [exact C1 | ].
    split; [rewrite C6; exact G4 | ].
    rewrite committed_dwork, committed_trace, G2. cbn [Z.eqb].
    unfold queued_after. rewrite G3.
    assert (Hge : (delay >=? 0) = true) by (apply Z.geb_le; lia).
    rewrite Hge. unfold timer_events in *. rewrite filter_app, G5.
    destruct (shutdown data =? 0); split; reflexivity.
Qed.

(** C7. A worker run in DONE_ENABLED that finds the pending flag set and
    samples the signal as asserted leaves the state at DONE_ENABLED, touches
    the queue neither by a cancel nor by a schedule, and calls no client
    operation besides the one sample of the signal. *)
Theorem hpd_worker_bounce_ignored data (g : D -> bool * D) :
  get_hpd_state (ops data) = Some g ->
  state data = STATE_DONE_ENABLED ->
  pending_hpd_evt data <> 0 ->
  fst (g (drv_data data)) = true ->
  exists data',
    hpd_worker data = Done data' /\
    state data' = STATE_DONE_ENABLED /\
    dwork data' = dwork data /\
    timer_events (trace data') = timer_events (trace data) /\
    calls (trace data') = calls (trace data) ++ [Call OpGetHpdState] /\
    drv_data data' = snd (g (drv_data data)) /\
    edid_reads data' = edid_reads data /\
    shutdown data' = shutdown data /\
    pending_hpd_evt data' = 0 /\
    ops data' = ops data.
Proof.
  intros Hg Hst Hp Hhpd.
  assert (Hs : valid_state (state data)) by (rewrite Hst; cbv; split; congruence).
  rewrite (hpd_worker_pending _ _ Hg Hs Hp), handle_hpd_evt_table, b2z_asserted.
  destruct (g (drv_data data)) as [b x]. cbn [fst snd] in *. subst b.
  destruct (sampled_frame data true x) as (Fst & _).
  rewrite Fst, Hst. cbn [spec_evt_table STATE_DONE_ENABLED Z.eqb Pos.eqb].
  eexists. split; [reflexivity | ]. cbn. filter_trace.
  repeat split. exact Hst.
Qed.

(** ** The state handlers *)

Lemma transitioned_committed data data1 (t r : Z) :
  same_control data data1 -> transitioned data (committed data1 t r) t r.
Proof.
  intros (_ & Hsh & Hpe & Hdw & Htm).
  destruct (committed_frame data1 t r) as (C1 & C2 & C3 & _).
  unfold transitioned.
  rewrite C1, C2, C3, committed_dwork, committed_trace, Hpe, Hsh, Hdw.
  unfold queued_after. rewrite Hsh.
  unfold timer_events in *. rewrite filter_app, Htm.
  repeat split. destruct (pending_hpd_evt data =? 0); [ | reflexivity].
  cbn. destruct (r >=? 0), (shutdown data =? 0); reflexivity.
Qed.

Lemma committed_calls data (t r : Z) :
  calls (trace (committed data t r)) = calls (trace data).
Proof.
  rewrite committed_trace. unfold calls. rewrite filter_app. cbn.
  destruct (pending_hpd_evt data =? 0); cbn;
    [destruct (queued_after data r); cbn | ]; apply app_nil_r.
Qed.

Lemma committed_count_calls (c : collab) data (t r : Z) :
  count_calls c (trace (committed data t r)) = count_calls c (trace data).
Proof.
  rewrite committed_trace. unfold count_calls. rewrite filter_app. cbn.
  destruct (pending_hpd_evt data =? 0); cbn;
    [destruct (queued_after data r); cbn | ]; rewrite app_nil_r; reflexivity.
Qed.

Lemma int_incr_small (c : Z) : INT_MIN <= c < INT_MAX -> int_incr c = c + 1.
Proof.
  unfold int_incr, wrap_int, INT_MIN, INT_MAX. intros H.
  rewrite Z.mod_small; lia.
Qed.

(** The cases of [edid_recheck_state], the counter after a failure told by
    [int_incr]. *)
Lemma edid_recheck_state_cases data (k : D -> Z * D) :
  edid_recheck (ops data) = Some k ->
  valid_state (state data) ->
  let status := fst (k (drv_data data)) in
  (exists data',
     edid_recheck_state data = Done data' /\
     calls (trace data') = calls (trace data) ++ [Call OpEdidRecheck] /\
     drv_data data' = snd (k (drv_data data)) /\
     (status = status_of Unchanged ->
        transitioned data data' STATE_DONE_ENABLED (-1) /\
        (pending_hpd_evt data = 0 -> dwork data' = None) /\
        edid_reads data' = edid_reads data) /\
     (status = status_of Failure ->
        edid_reads data' = int_incr (edid_reads data) /\
        (int_incr (edid_reads data) < 5 ->
           transitioned data data' STATE_RECHECK_EDID 60) /\
        (5 <= int_incr (edid_reads data) ->
           transitioned data data' STATE_HPD_RESET 0)) /\
     (status = status_of Changed ->
        transitioned data data' STATE_HPD_RESET 0 /\
        edid_reads data' = edid_reads data) /\
     (status <> status_of Unchanged ->
      ~ (status = status_of Failure /\ int_incr (edid_reads data) < 5) ->
        transitioned data data' STATE_HPD_RESET 0)) /\
  (forall g : D -> bool * D,
     get_hpd_state (ops data) = Some g ->
     state data = STATE_RECHECK_EDID ->
     pending_hpd_evt data = 0 ->
     hpd_worker data
     = edid_recheck_state
         (sampled data (fst (g (drv_data data))) (snd (g (drv_data data))))).
Proof.
  intros Hk Hs status. split.
  - unfold edid_recheck_state, call_result. rewrite Hk. subst status.
    destruct (k (drv_data data)) as [st x]. cbn [fst snd bind].
    set (data1 := emit (Call OpEdidRecheck) (set_drv_data x data)).
    assert (Hc1 : calls (trace data1) = calls (trace data) ++ [Call OpEdidRecheck]).
    { unfold data1. cbn. filter_trace. reflexivity. }
    assert (Hsc : forall m v, same_control data (emit (Info m) (set_edid_reads v data1))).
    { intros m v. unfold same_control, data1. cbn. filter_trace. repeat split. }
    assert (Hsc' : forall v, same_control data (set_edid_reads v data1)).
    { intros v. unfold same_control, data1. cbn. filter_trace. repeat split. }
    assert (Hsc0 : same_control data data1).
    { unfold same_control, data1. cbn. filter_trace. repeat split. }
    assert (Hsc1 : forall m, same_control data (emit (Info m) data1)).
    { intros m. unfold same_control, data1. cbn. filter_trace. repeat split. }
    assert (Hv : valid_state STATE_DONE_ENABLED /\ valid_state STATE_RECHECK_EDID
                 /\ valid_state STATE_HPD_RESET)
      by (cbv; repeat split; congruence).
    destruct Hv as (Hv1 & Hv2 & Hv3).
    unfold status_of, MAX_EDID_READ_ATTEMPTS, CHECK_EDID_DELAY_MS.
    destruct (Z.eqb_spec st (-1)) as [E1 | E1].
    + cbn [edid_reads set_edid_reads].
      destruct (int_incr (edid_reads data1) >=? 5) eqn:Ege.
      * rewrite set_hpd_state_valid; [ | exact Hs | exact Hv3].
        eexists. split; [reflexivity | ].
        rewrite committed_calls.
        destruct (committed_frame
                    (emit (Info (MsgRetryGiveUp (int_incr (edid_reads data1))))
                       (set_edid_reads (int_incr (edid_reads data1)) data1))
                    STATE_HPD_RESET 0) as (_ & _ & _ & C4 & _ & C6).
        rewrite C4, C6.
        apply Z.geb_le in Ege.
        split; [cbn; filter_trace; reflexivity | ].
        split; [reflexivity | ].
        change (edid_reads data1) with (edid_reads data) in *.
        split; [intros; lia | ].
        split.
        { intros _. split; [reflexivity | ]. split; [intros; lia | ].
          intros _. apply transitioned_committed, Hsc. }
        split; [intros; lia | ].
        intros _ _. apply transitioned_committed, Hsc.
      * rewrite set_hpd_state_valid; [ | exact Hs | exact Hv2].
        eexists. split; [reflexivity | ].
        rewrite committed_calls.
        destruct (committed_frame
                    (set_edid_reads (int_incr (edid_reads data1)) data1)
                    STATE_RECHECK_EDID 60) as (_ & _ & _ & C4 & _ & C6).
        rewrite C4, C6.
        assert (Hlt : int_incr (edid_reads data) < 5).
        { change (edid_reads data1) with (edid_reads data) in Ege.
          destruct (Z.geb_spec (int_incr (edid_reads data)) 5); [discriminate | lia]. }
        split; [exact Hc1 | ].
        split; [reflexivity | ].
        split; [intros; lia | ].
        split.
        { intros _. split; [reflexivity | ].
          split; [intros _; apply transitioned_committed, Hsc' | intros; lia]. }
        split; [intros; lia | ].
        intros _ Hn. exfalso. apply Hn. split; [exact E1 | exact Hlt].
    + destruct (Z.eqb_spec st 0) as [E0 | E0].
      * rewrite set_hpd_state_valid; [ | exact Hs | exact Hv1].
        eexists. split; [reflexivity | ].
        rewrite committed_calls, committed_dwork.
        destruct (committed_frame (emit (Info MsgNoChange) data1)
                    STATE_DONE_ENABLED (-1)) as (_ & _ & _ & C4 & _ & C6).
        rewrite C4, C6.
        split; [cbn; filter_trace; reflexivity | ].
        split; [reflexivity | ].
        split.
        { intros _. split; [apply transitioned_committed, Hsc1 | ].
          split; [ | reflexivity].
          intros Hp. cbn [pending_hpd_evt emit]. unfold data1.
          cbn [pending_hpd_evt emit set_drv_data]. rewrite Hp. reflexivity. }
        split; [intros; lia | ].
        split; [intros; lia | ].
        intros Hn _. exfalso. apply Hn. exact E0.
      * rewrite set_hpd_state_valid; [ | exact Hs | exact Hv3].
        eexists. split; [reflexivity | ].
        rewrite committed_calls.
        destruct (committed_frame data1 STATE_HPD_RESET 0)
          as (_ & _ & _ & C4 & _ & C6).
        rewrite C4, C6.
        split; [exact Hc1 | ].
        split; [reflexivity | ].
        split; [intros; lia | ].
        split; [intros; lia | ].
        split.
        { intros _. split; [apply transitioned_committed, Hsc0 | reflexivity]. }
        intros _ _. apply transitioned_committed, Hsc0.
  - intros g Hg Hst Hp.
    rewrite (hpd_worker_dispatch _ _ Hg Hs Hp), Hst. reflexivity.
Qed.

(** C4. [edid_recheck_state] calls the recheck once and maps its answer:
    unchanged (0) goes back to DONE_ENABLED with no delay to queue; failure
    (-1) adds one to the retry counter and goes to RECHECK_EDID again with
    60 ms while the new counter is below 5 (the counter was below 4), and
    to RESET with delay 0 once it is 5 (the counter was 4) or more; changed
    (1) goes to RESET with delay 0.  RESET with delay 0 is the pair the
    handler starts from: every answer that is neither unchanged nor a
    failure below the ceiling ends there.  The worker runs this handler
    when it finds RECHECK_EDID with the pending flag clear. *)
Theorem edid_recheck_state_table data (k : D -> Z * D) :
  edid_recheck (ops data) = Some k ->
  valid_state (state data) ->
  let status := fst (k (drv_data data)) in
  (exists data',
     edid_recheck_state data = Done data' /\
     calls (trace data') = calls (trace data) ++ [Call OpEdidRecheck] /\
     drv_data data' = snd (k (drv_data data)) /\
     (status = status_of Unchanged ->
        transitioned data data' STATE_DONE_ENABLED (-1) /\
        (pending_hpd_evt data = 0 -> dwork data' = None) /\
        edid_reads data' = edid_reads data) /\
     (status = status_of Failure ->
        (INT_MIN <= edid_reads data < INT_MAX ->
           edid_reads data' = edid_reads data + 1) /\
        (INT_MIN <= edid_reads data < 4 ->
           transitioned data data' STATE_RECHECK_EDID 60 /\
           (pending_hpd_evt data = 0 -> shutdown data = 0 ->
            dwork data' = Some 60)) /\
        (4 <= edid_reads data < INT_MAX ->
           transitioned data data' STATE_HPD_RESET 0 /\
           (pending_hpd_evt data = 0 -> shutdown data = 0 ->
            dwork data' = Some 0)) /\
        edid_reads data' = int_incr (edid_reads data) /\
        (int_incr (edid_reads data) < 5 ->
           transitioned data data' STATE_RECHECK_EDID 60) /\
        (5 <= int_incr (edid_reads data) ->
           transitioned data data' STATE_HPD_RESET 0)) /\
     (status = status_of Changed ->
        transitioned data data' STATE_HPD_RESET 0 /\
        edid_reads data' = edid_reads data) /\
     (status <> status_of Unchanged ->
      ~ (status = status_of Failure /\ int_incr (edid_reads data) < 5) ->
        transitioned data data' STATE_HPD_RESET 0)) /\
  (forall g : D -> bool * D,
     get_hpd_state (ops data) = Some g ->
     state data = STATE_RECHECK_EDID ->
     pending_hpd_evt data = 0 ->
     hpd_worker data
     = edid_recheck_state
         (sampled data (fst (g (drv_data data))) (snd (g (drv_data data))))).
Proof.
  intros Hk Hs status.
  destruct (edid_recheck_state_cases data k Hk Hs)
    as ((data' & Hrun & Hcalls & Hdrv & Hun & Hfail & Hch & Hdef) & Hworker).
  split; [ | exact Hworker].
  exists data'. split; [exact Hrun | ]. split; [exact Hcalls | ].
  split; [exact Hdrv | ]. split; [exact Hun | ].
  split; [ | split; [exact Hch | exact Hdef]].
  intros Hstatus. destruct (Hfail Hstatus) as (F1 & F2 & F3).
  assert (Hq : forall target delay,
             0 <= delay ->
             transitioned data data' target delay ->
             pending_hpd_evt data = 0 -> shutdown data = 0 ->
             dwork data' = Some delay).
  { intros target delay Hd (_ & _ & _ & T4 & _) Hp Hsh.
    rewrite T4, Hp. unfold queued_after. rewrite Hsh.
    destruct (Z.geb_spec delay 0); [reflexivity | lia]. }
  split; [intros Hr; rewrite F1; apply int_incr_small; exact Hr | ].
  split.
  { intros Hr.
    assert (Hlt : int_incr (edid_reads data) < 5)
      by (rewrite int_incr_small; unfold INT_MAX; lia).
    split; [exact (F2 Hlt) | apply (Hq STATE_RECHECK_EDID 60); [lia | exact (F2 Hlt)]]. }
  split.
  { intros Hr.
    assert (Hge : 5 <= int_incr (edid_reads data))
      by (rewrite int_incr_small; unfold INT_MIN; lia).
    split; [exact (F3 Hge) | apply (Hq STATE_HPD_RESET 0); [lia | exact (F3 Hge)]]. }
  split; [exact F1 | ]. split; [exact F2 | exact F3].
Qed.

Lemma hpd_disable_trace data :
  trace (hpd_disable data) = trace data ++ disable_calls (ops data).
Proof.
  unfold hpd_disable, disable_calls, call_if_present.
  destruct (disable (ops data)); cbn; [reflexivity | symmetry; apply app_nil_r].
Qed.

Lemma hpd_disable_frame data :
  state (hpd_disable data) = state data /\
  shutdown (hpd_disable data) = shutdown data /\
  pending_hpd_evt (hpd_disable data) = pending_hpd_evt data /\
  dwork (hpd_disable data) = dwork data /\
  ops (hpd_disable data) = ops data /\
  edid_reads (hpd_disable data) = edid_reads data.
Proof.
  unfold hpd_disable, call_if_present.
  destruct (disable (ops data)); cbn; repeat split.
Qed.

Lemma hpd_disable_same_control data data1 :
  same_control data data1 -> same_control data (hpd_disable data1).
Proof.
  intros (H1 & H2 & H3 & H4 & H5).
  destruct (hpd_disable_frame data1) as (F1 & F2 & F3 & F4 & _).
  unfold same_control. rewrite F1, F2, F3, F4, hpd_disable_trace.
  unfold timer_events in *. rewrite filter_app, H5.
  repeat split; try assumption.
  unfold disable_calls. destruct (disable (ops data1)); cbn; apply app_nil_r.
Qed.

(** The three ways through [edid_check_state] that do not end in
    DONE_ENABLED, with what each leaves. *)
Lemma edid_check_state_dropped data (g : D -> bool * D) :
  get_hpd_state (ops data) = Some g ->
  valid_state (state data) ->
  fst (g (drv_data data)) = false ->
  edid_check_state data
  = Done (committed
            (hpd_disable
               (emit (Info MsgDropped)
                  (emit (Call OpGetHpdState)
                     (set_drv_data (snd (g (drv_data data))) data))))
            STATE_DONE_DISABLED (-1)).
Proof.
  intros Hg Hs Hb. unfold edid_check_state, call_result, end_disabled.
  rewrite Hg. destruct (g (drv_data data)) as [b x].
  cbn [fst snd] in *. subst b. cbn [bind negb].
  apply set_hpd_state_valid.
  - destruct (hpd_disable_frame
                (emit (Info MsgDropped)
                   (emit (Call OpGetHpdState) (set_drv_data x data)))) as (F & _).
    rewrite F. exact Hs.
  - cbv. split; congruence.
Qed.

Lemma edid_check_state_retry data (g r : D -> bool * D) :
  get_hpd_state (ops data) = Some g ->
  edid_read (ops data) = Some r ->
  valid_state (state data) ->
  fst (g (drv_data data)) = true ->
  fst (r (snd (g (drv_data data)))) = false ->
  int_incr (edid_reads data) < 5 ->
  edid_check_state data
  = Done (committed
            (set_edid_reads (int_incr (edid_reads data))
               (emit (Call OpEdidRead)
                  (set_drv_data (snd (r (snd (g (drv_data data)))))
                     (emit (Call OpGetHpdState)
                        (set_drv_data (snd (g (drv_data data))) data)))))
            STATE_CHECK_EDID CHECK_EDID_DELAY_MS).
Proof.
  intros Hg Hr Hs Hb Hf Hlt. unfold edid_check_state, call_result.
  rewrite Hg. destruct (g (drv_data data)) as [b x].
  cbn [fst snd] in *. subst b.
  cbn [bind negb ops emit set_drv_data drv_data]. rewrite Hr.
  destruct (r x) as [ok x2]. cbn [fst snd] in *. subst ok.
  cbn [bind negb edid_reads emit set_drv_data set_edid_reads].
  unfold MAX_EDID_READ_ATTEMPTS.
  destruct (Z.geb_spec (int_incr (edid_reads data)) 5) as [Hge | _]; [lia | ].
  apply set_hpd_state_valid; [exact Hs | cbv; split; congruence].
Qed.

Lemma edid_check_state_give_up data (g r : D -> bool * D) :
  get_hpd_state (ops data) = Some g ->
  edid_read (ops data) = Some r ->
  valid_state (state data) ->
  fst (g (drv_data data)) = true ->
  fst (r (snd (g (drv_data data)))) = false ->
  5 <= int_incr (edid_reads data) ->
  edid_check_state data
  = Done (committed
            (hpd_disable
               (emit (Info (MsgReadGiveUp (int_incr (edid_reads data))))
                  (set_edid_reads (int_incr (edid_reads data))
                     (emit (Call OpEdidRead)
                        (set_drv_data (snd (r (snd (g (drv_data data)))))
                           (emit (Call OpGetHpdState)
                              (set_drv_data (snd (g (drv_data data))) data)))))))
            STATE_DONE_DISABLED (-1)).
Proof.
  intros Hg Hr Hs Hb Hf Hlt. unfold edid_check_state, call_result, end_disabled.
  rewrite Hg. destruct (g (drv_data data)) as [b x].
  cbn [fst snd] in *. subst b.
  cbn [bind negb ops emit set_drv_data drv_data]. rewrite Hr.
  destruct (r x) as [ok x2]. cbn [fst snd] in *. subst ok.
  cbn [bind negb edid_reads emit set_drv_data set_edid_reads].
  unfold MAX_EDID_READ_ATTEMPTS.
  destruct (Z.geb_spec (int_incr (edid_reads data)) 5) as [_ | Hge]; [ | lia].
  apply set_hpd_state_valid; [ | cbv; split; congruence].
  match goal with |- valid_state (state (hpd_disable ?d)) =>
    destruct (hpd_disable_frame d) as (F & _); rewrite F end.
  exact Hs.
Qed.

(** ** Runs of the queued worker *)


Lemma run_rest (n : nat) data : dwork data = None -> run n data = Done data.
Proof.
  induction n as [ | n IH]; intros Hq; [reflexivity | ].
  cbn [run]. unfold run_queued_work. rewrite Hq. cbn [bind]. apply IH, Hq.
Qed.

Lemma committed_scheduled data (t r : Z) :
  scheduled (trace (committed data t r))
  = (scheduled (trace data)
     + (if (pending_hpd_evt data =? 0)%Z
        then match queued_after data r with Some _ => 1 | None => 0 end
        else 0))%nat.
Proof.
  rewrite committed_trace. unfold scheduled. rewrite filter_app, length_app.
  destruct (pending_hpd_evt data =? 0); cbn;
    [destruct (queued_after data r); cbn | ]; reflexivity.
Qed.

(** One run of the queued worker in CHECK_EDID whose read fails below the
    ceiling. *)
Lemma run_queued_check_retry data (g r : D -> bool * D) :
  get_hpd_state (ops data) = Some g ->
  edid_read (ops data) = Some r ->
  state data = STATE_CHECK_EDID ->
  pending_hpd_evt data = 0 ->
  shutdown data = 0 ->
  dwork data <> None ->
  read_fails g r 1 (drv_data data) ->
  int_incr (edid_reads data) < 5 ->
  exists data',
    run_queued_work data = Done data' /\
    state data' = STATE_CHECK_EDID /\
    pending_hpd_evt data' = 0 /\
    shutdown data' = 0 /\
    dwork data' = Some 60 /\
    edid_reads data' = int_incr (edid_reads data) /\
    ops data' = ops data /\
    drv_data data' = snd (r (snd (g (snd (g (drv_data data)))))) /\
    count_calls OpEdidRead (trace data') = S (count_calls OpEdidRead (trace data)) /\
    count_calls OpDisable (trace data') = count_calls OpDisable (trace data) /\
    scheduled (trace data') = S (scheduled (trace data)).
Proof.
  intros Hg Hr Hst Hp Hsh Hq (Hb & Hf & _) Hlt.
  unfold run_queued_work. destruct (dwork data) as [ms | ] eqn:Edw; [ | congruence].
  assert (Hs : valid_state (state (set_dwork None data)))
    by (fields; rewrite Hst; cbv; split; congruence).
  rewrite (hpd_worker_dispatch (set_dwork None data) g Hg Hs Hp).
  fields. rewrite Hst.
  change (nth (Z.to_nat STATE_CHECK_EDID) (state_machine_dispatch D) None)
    with (Some (@edid_check_state D)).
  cbv beta zeta iota.
  destruct (sampled_frame (set_dwork None data) (fst (g (drv_data data)))
              (snd (g (drv_data data)))) as (F1 & F2 & F3 & F4 & F5 & F6 & F7).
  fields in F1. fields in F3. fields in F4. fields in F5. fields in F6.
  set (data1 := sampled _ _ _) in *.
  assert (Hs1 : valid_state (state data1)) by (rewrite F1, Hst; cbv; split; congruence).
  assert (Hg1 : get_hpd_state (ops data1) = Some g) by (rewrite F6; exact Hg).
  assert (Hr1 : edid_read (ops data1) = Some r) by (rewrite F6; exact Hr).
  rewrite (edid_check_state_retry data1 g r Hg1 Hr1 Hs1);
    rewrite ?F7, ?F5; try assumption.
  eexists. split; [reflexivity | ].
  match goal with |- context [committed ?d ?t ?dl] =>
    destruct (committed_frame d t dl) as (C1 & C2 & C3 & C4 & C5 & C6);
    rewrite C1, C2, C3, C4, C5, C6, committed_dwork,
      !committed_count_calls, committed_scheduled
  end.
  fields. rewrite F2, F4, F6, Hsh. unfold queued_after. fields.
  rewrite F4, Hsh. cbn [CHECK_EDID_DELAY_MS Z.geb Z.compare Z.eqb].
  unfold data1. rewrite sampled_trace. fields. filter_trace.
  repeat split; lia.
Qed.

(** One run of the queued worker in CHECK_EDID whose read fails at the
    ceiling. *)
Lemma run_queued_check_give_up data (g r : D -> bool * D) :
  get_hpd_state (ops data) = Some g ->
  edid_read (ops data) = Some r ->
  state data = STATE_CHECK_EDID ->
  pending_hpd_evt data = 0 ->
  dwork data <> None ->
  read_fails g r 1 (drv_data data) ->
  5 <= int_incr (edid_reads data) ->
  exists data',
    run_queued_work data = Done data' /\
    state data' = STATE_DONE_DISABLED /\
    dwork data' = None /\
    edid_reads data' = int_incr (edid_reads data) /\
    count_calls OpEdidRead (trace data') = S (count_calls OpEdidRead (trace data)) /\
    count_calls OpDisable (trace data')
    = (count_calls OpDisable (trace data)
       + List.length (disable_calls (ops data)))%nat /\
    scheduled (trace data') = scheduled (trace data).
Proof.
  intros Hg Hr Hst Hp Hq (Hb & Hf & _) Hge.
  unfold run_queued_work. destruct (dwork data) as [ms | ] eqn:Edw; [ | congruence].
  assert (Hs : valid_state (state (set_dwork None data)))
    by (fields; rewrite Hst; cbv; split; congruence).
  rewrite (hpd_worker_dispatch (set_dwork None data) g Hg Hs Hp).
  fields. rewrite Hst.
  change (nth (Z.to_nat STATE_CHECK_EDID) (state_machine_dispatch D) None)
    with (Some (@edid_check_state D)).
  cbv beta zeta iota.
  destruct (sampled_frame (set_dwork None data) (fst (g (drv_data data)))
              (snd (g (drv_data data)))) as (F1 & F2 & F3 & F4 & F5 & F6 & F7).
  fields in F1. fields in F3. fields in F4. fields in F5. fields in F6.
  set (data1 := sampled _ _ _) in *.
  assert (Hs1 : valid_state (state data1)) by (rewrite F1, Hst; cbv; split; congruence).
  assert (Hg1 : get_hpd_state (ops data1) = Some g) by (rewrite F6; exact Hg).
  assert (Hr1 : edid_read (ops data1) = Some r) by (rewrite F6; exact Hr).
  rewrite (edid_check_state_give_up data1 g r Hg1 Hr1 Hs1);
    rewrite ?F7, ?F5; try assumption.
  eexists. split; [reflexivity | ].
  match goal with |- context [committed ?d ?t ?dl] =>
    destruct (committed_frame d t dl) as (C1 & C2 & C3 & C4 & C5 & C6);
    rewrite C1, C6, committed_dwork, !committed_count_calls, committed_scheduled
  end.
  match goal with |- context [hpd_disable ?d] =>
    destruct (hpd_disable_frame d) as (E1 & E2 & E3 & E4 & E5 & E6);
    rewrite ?E3, ?E6, ?hpd_disable_trace
  end.
  fields. rewrite F2, F6. unfold queued_after.
  cbn [Z.geb Z.compare Z.eqb].
  unfold data1. rewrite sampled_trace. fields.
  unfold disable_calls. destruct (disable (ops data)); filter_trace;
    repeat split; lia.
Qed.

(** [S k] failures in a row from a counter that is [S k] short of the
    ceiling: by induction on [k], a retry for each but the last. *)
Lemma run_check_failures (k : nat) :
  forall data (g r : D -> bool * D),
    get_hpd_state (ops data) = Some g ->
    edid_read (ops data) = Some r ->
    state data = STATE_CHECK_EDID ->
    pending_hpd_evt data = 0 ->
    shutdown data = 0 ->
    dwork data <> None ->
    0 <= edid_reads data ->
    edid_reads data + Z.of_nat (S k) = 5 ->
    read_fails g r (S k) (drv_data data) ->
    exists data',
      (forall n, (S k <= n)%nat -> run n data = Done data') /\
      state data' = STATE_DONE_DISABLED /\
      dwork data' = None /\
      edid_reads data' = 5 /\
      count_calls OpEdidRead (trace data')
      = (count_calls OpEdidRead (trace data) + S k)%nat /\
      count_calls OpDisable (trace data')
      = (count_calls OpDisable (trace data)
         + List.length (disable_calls (ops data)))%nat /\
      scheduled (trace data') = (scheduled (trace data) + k)%nat.
Proof.
  induction k as [ | k IH]; intros data g r Hg Hr Hst Hp Hsh Hq H0 Hsum Hfail.
  - assert (Hinc : int_incr (edid_reads data) = 5).
    { rewrite int_incr_small; unfold INT_MIN, INT_MAX; lia. }
    destruct (run_queued_check_give_up data g r Hg Hr Hst Hp Hq) as
      (data' & Hrun & Hst' & Hq' & Hrd' & Hc1 & Hc2 & Hc3).
    { destruct Hfail as (Hb & Hf & _). repeat split; assumption. }
    { lia. }
    exists data'. repeat split; try assumption; try lia.
    intros n Hn. destruct n as [ | m]; [lia | ].
    cbn [run]. rewrite Hrun. cbn [bind]. apply run_rest, Hq'.
  - assert (Hinc : int_incr (edid_reads data) = edid_reads data + 1).
    { apply int_incr_small. unfold INT_MIN, INT_MAX. lia. }
    destruct Hfail as (Hb & Hf & Hrest).
    destruct (run_queued_check_retry data g r Hg Hr Hst Hp Hsh Hq) as
      (data1 & Hrun & Hst1 & Hp1 & Hsh1 & Hq1 & Hrd1 & Hops1 & Hdrv1
       & Hc1 & Hc2 & Hc3).
    { repeat split; assumption. }
    { lia. }
    destruct (IH data1 g r) as (data' & Hrun' & Hst' & Hq' & Hrd' & Hd1 & Hd2 & Hd3).
    { rewrite Hops1; exact Hg. }
    { rewrite Hops1; exact Hr. }
    { exact Hst1. }
    { exact Hp1. }
    { exact Hsh1. }
    { rewrite Hq1; discriminate. }
    { lia. }
    { lia. }
    { rewrite Hdrv1. exact Hrest. }
    exists data'. repeat split; try assumption; try lia.
    + intros n Hn. destruct n as [ | m]; [lia | ].
      cbn [run]. rewrite Hrun. cbn [bind]. apply Hrun'. lia.
    + rewrite Hd2, Hc2, Hops1. reflexivity.
Qed.

(** C3. [edid_check_state] samples the signal first and, if it has
    dropped, disables and goes to DONE_DISABLED without reading; otherwise
    it reads once, and a failed read increments the retry counter, goes to
    CHECK_EDID again with 60 ms while the counter is below 5, and disables
    and goes to DONE_DISABLED with nothing to queue once it is 5.  The
    worker runs this handler when it finds CHECK_EDID with the pending flag
    clear.  So from CHECK_EDID with the counter at 0, five failed reads in a
    row end in DONE_DISABLED after five reads and one call of disable (if
    the client has one), with four retries queued and nothing queued after
    the fifth read. *)
Theorem edid_check_state_retries data (g r : D -> bool * D) :
  get_hpd_state (ops data) = Some g ->
  edid_read (ops data) = Some r ->
  valid_state (state data) ->
  (exists data',
     edid_check_state data = Done data' /\
     (fst (g (drv_data data)) = false ->
        transitioned data data' STATE_DONE_DISABLED (-1) /\
        calls (trace data')
        = calls (trace data) ++ Call OpGetHpdState :: disable_calls (ops data) /\
        edid_reads data' = edid_reads data) /\
     (fst (g (drv_data data)) = true ->
      fst (r (snd (g (drv_data data)))) = false ->
        edid_reads data' = int_incr (edid_reads data) /\
        (int_incr (edid_reads data) < 5 ->
           transitioned data data' STATE_CHECK_EDID 60 /\
           calls (trace data')
           = calls (trace data) ++ [Call OpGetHpdState; Call OpEdidRead]) /\
        (5 <= int_incr (edid_reads data) ->
           transitioned data data' STATE_DONE_DISABLED (-1) /\
           (pending_hpd_evt data = 0 -> dwork data' = None) /\
           calls (trace data')
           = calls (trace data) ++
               Call OpGetHpdState :: Call OpEdidRead :: disable_calls (ops data)))) /\
  (state data = STATE_CHECK_EDID ->
   pending_hpd_evt data = 0 ->
   hpd_worker data
   = edid_check_state
       (sampled data (fst (g (drv_data data))) (snd (g (drv_data data))))) /\
  (state data = STATE_CHECK_EDID ->
   edid_reads data = 0 ->
   pending_hpd_evt data = 0 ->
   shutdown data = 0 ->
   dwork data <> None ->
   read_fails g r 5 (drv_data data) ->
   exists data5,
     run 5 data = Done data5 /\
     (forall n, (5 <= n)%nat -> run n data = Done data5) /\
     state data5 = STATE_DONE_DISABLED /\
     dwork data5 = None /\
     edid_reads data5 = 5 /\
     count_calls OpEdidRead (trace data5)
     = (count_calls OpEdidRead (trace data) + 5)%nat /\
     count_calls OpDisable (trace data5)
     = (count_calls OpDisable (trace data)
        + match disable (ops data) with Some _ => 1 | None => 0 end)%nat /\
     scheduled (trace data5) = (scheduled (trace data) + 4)%nat).
Proof.
  intros Hg Hr Hs. split; [ | split].
  - destruct (g (drv_data data)) as [b x1] eqn:Eg.
    destruct b.
    + destruct (r x1) as [ok x2] eqn:Er. destruct ok.
      * (* the read succeeds: a case the statement leaves open *)
        unfold edid_check_state, call_result. rewrite Hg, Eg.
        cbn [bind negb]. fields. rewrite Hr, Er. cbn [bind negb].
        rewrite set_hpd_state_valid.
        -- eexists. split; [reflexivity | ].
           cbn [fst snd]. rewrite Er. cbn [fst snd].
           split; intros; discriminate.
        -- unfold call_if_present. fields.
           destruct (edid_ready (ops data)); exact Hs.
        -- cbv. split; congruence.
      * destruct (Z_lt_le_dec (int_incr (edid_reads data)) 5) as [Hlt | Hge].
        -- rewrite (edid_check_state_retry data g r Hg Hr Hs);
             rewrite ?Eg; cbn [fst snd]; rewrite ?Er; try reflexivity; try exact Hlt.
           eexists. split; [reflexivity | ].
           split; [intros; discriminate | ]. intros _ _.
           match goal with |- context [committed ?d ?t ?dl] =>
             destruct (committed_frame d t dl) as (_ & _ & _ & _ & _ & C6);
             rewrite C6, committed_calls end.
           fields. split; [reflexivity | ].
           split; [ | intros; lia]. intros _.
           split; [ | filter_trace; reflexivity].
           apply transitioned_committed. unfold same_control. fields.
           filter_trace. repeat split.
        -- rewrite (edid_check_state_give_up data g r Hg Hr Hs);
             rewrite ?Eg; cbn [fst snd]; rewrite ?Er; try reflexivity; try exact Hge.
           eexists. split; [reflexivity | ].
           split; [intros; discriminate | ]. intros _ _.
           match goal with |- context [committed (hpd_disable ?d) ?t ?dl] =>
             destruct (committed_frame (hpd_disable d) t dl)
               as (_ & _ & _ & _ & _ & C6);
             destruct (hpd_disable_frame d) as (_ & _ & E3 & _ & E5 & E6);
             assert (Hsc : same_control data d)
               by (unfold same_control; fields; filter_trace; repeat split);
             rewrite C6, E6, committed_calls, committed_dwork, E3,
               hpd_disable_trace
           end.
           fields. split; [reflexivity | ].
           split; [intros; lia | ]. intros _.
           split; [apply transitioned_committed, hpd_disable_same_control, Hsc | ].
           split; [intros Hp; rewrite Hp; reflexivity | ].
           unfold disable_calls. destruct (disable (ops data)); filter_trace;
             reflexivity.
    + rewrite (edid_check_state_dropped data g Hg Hs);
        rewrite ?Eg; try reflexivity.
      eexists. split; [reflexivity | ]. cbn [fst snd].
      split; [ | intros; discriminate]. intros _.
      match goal with |- context [committed (hpd_disable ?d) ?t ?dl] =>
        destruct (committed_frame (hpd_disable d) t dl)
          as (_ & _ & _ & _ & _ & C6);
        destruct (hpd_disable_frame d) as (_ & _ & E3 & _ & E5 & E6);
        assert (Hsc : same_control data d)
          by (unfold same_control; fields; filter_trace; repeat split);
        rewrite C6, E6, committed_calls, hpd_disable_trace
      end.
      fields.
      split; [apply transitioned_committed, hpd_disable_same_control, Hsc | ].
      split; [ | reflexivity].
      unfold disable_calls. destruct (disable (ops data)); filter_trace;
        reflexivity.
  - intros Hst Hp. rewrite (hpd_worker_dispatch _ _ Hg Hs Hp), Hst. reflexivity.
  - intros Hst Hrd Hp Hsh Hq Hfail.
    destruct (run_check_failures 4 data g r Hg Hr Hst Hp Hsh Hq) as
      (data5 & Hrun & Hst5 & Hq5 & Hrd5 & Hc1 & Hc2 & Hc3);
      [lia | rewrite Hrd; reflexivity | exact Hfail | ].
    exists data5.
    split; [apply Hrun; lia | ].
    split; [exact Hrun | ].
    repeat split; try assumption.
    rewrite Hc2. unfold disable_calls. destruct (disable (ops data)); reflexivity.
Qed.

(** ** The handlers take the arcs of the machine *)

Lemma progressed_refl data : progressed data data.
Proof.
  unfold progressed. repeat split. exists []. split; [ | reflexivity].
  symmetry. apply app_nil_r.
Qed.

Lemma progressed_emit data data1 (e : event) :
  is_quiet e = true -> progressed data data1 -> progressed data (emit e data1).
Proof.
  intros He (H1 & H2 & H3 & H4 & H5 & l & Hl & Hq).
  unfold progressed. fields. repeat split; try assumption.
  exists (l ++ [e]). rewrite Hl, app_assoc, forallb_app, Hq. cbn. rewrite He.
  split; reflexivity.
Qed.

Lemma progressed_call data data1 (c : collab) (x : D) :
  progressed data data1 -> progressed data (emit (Call c) (set_drv_data x data1)).
Proof.
  intros H. apply progressed_emit; [reflexivity | ].
  destruct H as (H1 & H2 & H3 & H4 & H5 & H6). unfold progressed. fields.
  repeat split; assumption.
Qed.

Lemma progressed_info data data1 (m : message) :
  progressed data data1 -> progressed data (emit (Info m) data1).
Proof. apply progressed_emit. reflexivity. Qed.

Lemma progressed_reads data data1 (v : Z) :
  progressed data data1 -> progressed data (set_edid_reads v data1).
Proof.
  intros (H1 & H2 & H3 & H4 & H5 & H6). unfold progressed. fields.
  repeat split; assumption.
Qed.

Lemma progressed_call_if_present data data1 (c : collab) (f : option (D -> D)) :
  progressed data data1 -> progressed data (call_if_present c f data1).
Proof.
  intros H. unfold call_if_present. destruct f; [apply progressed_call | ]; exact H.
Qed.

Lemma progressed_disable data data1 :
  progressed data data1 -> progressed data (hpd_disable data1).
Proof. apply progressed_call_if_present. Qed.

Lemma call_if_present_edid_reads (c : collab) (f : option (D -> D)) data :
  edid_reads (call_if_present c f data) = edid_reads data.
Proof. unfold call_if_present. destruct f; reflexivity. Qed.

Lemma hpd_disable_edid_reads data :
  edid_reads (hpd_disable data) = edid_reads data.
Proof. apply call_if_present_edid_reads. Qed.

Create HintDb hpd.
#[local] Hint Resolve progressed_refl progressed_call progressed_info
  progressed_reads progressed_disable progressed_call_if_present : hpd.
#[local] Hint Constructors arc : hpd.

Lemma commit_sound data data1 (st target delay : Z) :
  state data = st -> valid_state st -> valid_state target ->
  progressed data data1 ->
  arc false st (edid_reads data) target delay (edid_reads data1) ->
  match set_hpd_state data1 target delay with
  | Done data' =>
      exists data2 target' delay',
        data' = committed data2 target' delay' /\
        progressed data data2 /\
        arc false st (edid_reads data) target' delay' (edid_reads data2)
  | Fault f => exists c, f = NullCall c /\ absent c (ops data)
  end.
Proof.
  intros Hst Hv Ht Hp Ha.
  rewrite set_hpd_state_valid; [ | | exact Ht].
  - exists data1, target, delay.
    split; [reflexivity | split; assumption].
  - destruct Hp as (H1 & _). rewrite H1, Hst. exact Hv.
Qed.

Ltac valid_const := cbv; split; congruence.

Ltac take_arc :=
  eapply commit_sound;
  [ eassumption | valid_const | valid_const | auto 10 with hpd
  | fields; rewrite ?hpd_disable_edid_reads, ?call_if_present_edid_reads;
    fields; auto with hpd ].

Lemma hpd_reset_state_sound : handler_sound (@hpd_reset_state D) STATE_HPD_RESET.
Proof. intros data Hst. unfold hpd_reset_state. take_arc. Qed.

Lemma hpd_plug_state_sound : handler_sound (@hpd_plug_state D) STATE_PLUG.
Proof.
  intros data Hst. unfold hpd_plug_state, call_result.
  destruct (get_hpd_state (ops data)) as [g | ] eqn:Hg;
    [ | exists OpGetHpdState; split; [reflexivity | exact Hg]].
  destruct (g (drv_data data)) as [b x]. cbn [bind].
  destruct b; take_arc.
Qed.

Lemma edid_check_state_sound : handler_sound (@edid_check_state D) STATE_CHECK_EDID.
Proof.
  intros data Hst. unfold edid_check_state, call_result, end_disabled.
  destruct (get_hpd_state (ops data)) as [g | ] eqn:Hg;
    [ | exists OpGetHpdState; split; [reflexivity | exact Hg]].
  destruct (g (drv_data data)) as [b x]. cbn [bind].
  destruct b; cbn [negb]; [ | take_arc].
  fields.
  destruct (edid_read (ops data)) as [r | ] eqn:Hr;
    [ | exists OpEdidRead; split; [reflexivity | exact Hr]].
  destruct (r x) as [ok x2]. cbn [bind].
  destruct ok; cbn [negb]; [take_arc | ].
  fields.
  destruct (Z.geb_spec (int_incr (edid_reads data)) MAX_EDID_READ_ATTEMPTS);
    take_arc.
Qed.

Lemma wait_for_hpd_reassert_state_sound :
  handler_sound (@wait_for_hpd_reassert_state D) STATE_WAIT_FOR_HPD_REASSERT.
Proof. intros data Hst. unfold wait_for_hpd_reassert_state. take_arc. Qed.

Lemma edid_recheck_state_sound :
  handler_sound (@edid_recheck_state D) STATE_RECHECK_EDID.
Proof.
  intros data Hst. unfold edid_recheck_state, call_result.
  destruct (edid_recheck (ops data)) as [k | ] eqn:Hk;
    [ | exists OpEdidRecheck; split; [reflexivity | exact Hk]].
  destruct (k (drv_data data)) as [status x]. cbn [bind].
  destruct (status =? -1).
  - fields.
    destruct (Z.geb_spec (int_incr (edid_reads data)) MAX_EDID_READ_ATTEMPTS);
      take_arc.
  - destruct (status =? 0); take_arc.
Qed.

Lemma progressed_trans data data1 data2 :
  progressed data data1 -> progressed data1 data2 -> progressed data data2.
Proof.
  intros (A1 & A2 & A3 & A4 & A5 & l1 & Hl1 & Hq1)
         (B1 & B2 & B3 & B4 & B5 & l2 & Hl2 & Hq2).
  unfold progressed.
  rewrite B1, B2, B3, B4, B5, A1, A2, A3, A4, A5. repeat split.
  exists (l1 ++ l2). rewrite Hl2, Hl1, app_assoc, forallb_app, Hq1, Hq2.
  split; reflexivity.
Qed.

Lemma progressed_sampled_at (pending : Z) data (hpd : bool) (x : D) :
  progressed data (sampled_at pending data hpd x).
Proof.
  unfold sampled_at. apply progressed_info, progressed_call, progressed_refl.
Qed.

Lemma sampled_at_frame (pending : Z) data (hpd : bool) (x : D) :
  state (sampled_at pending data hpd x) = state data /\
  edid_reads (sampled_at pending data hpd x) = edid_reads data /\
  ops (sampled_at pending data hpd x) = ops data.
Proof. unfold sampled_at. fields. repeat split. Qed.

Lemma spec_evt_table_ignore (st : Z) (asserted : bool) :
  spec_evt_table st asserted = Ignore -> st = STATE_DONE_ENABLED.
Proof.
  unfold spec_evt_table.
  destruct (Z.eqb_spec st STATE_DONE_ENABLED) as [E | E]; [intros _; exact E | ].
  destruct (st =? STATE_WAIT_FOR_HPD_REASSERT), (st =? STATE_INIT_FROM_BOOTLOADER),
    asserted; discriminate.
Qed.

(** The body of the worker, run in one of the eight states, takes an arc,
    ignores a bounce or warns of a missing handler; it stops only at an
    operation the client lacks. *)
Lemma hpd_worker_body_sound (pending : Z) data :
  valid_state (state data) ->
  match hpd_worker_body pending data with
  | Done data' => body_result pending data data'
  | Fault f => exists c, f = NullCall c /\ absent c (ops data)
  end.
Proof.
  intros Hs.
  destruct (get_hpd_state (ops data)) as [g | ] eqn:Hg.
  2:{ unfold hpd_worker_body, call_result. rewrite Hg. cbn [bind].
      exists OpGetHpdState. split; [reflexivity | exact Hg]. }
  pose proof (progressed_sampled_at pending data (fst (g (drv_data data)))
                (snd (g (drv_data data)))) as Hps.
  destruct (sampled_at_frame pending data (fst (g (drv_data data)))
              (snd (g (drv_data data)))) as (F1 & F5 & F6).
  destruct (Z.eq_dec pending 0) as [Hp | Hp].
  - subst pending. rewrite (hpd_worker_body_dispatch data g Hg Hs). cbv zeta.
    set (data1 := sampled_at _ _ _ _) in *.
    assert (Hsound : forall f st,
               handler_sound f st -> state data = st ->
               nth (Z.to_nat (state data)) (state_machine_dispatch D) None = Some f ->
               match f data1 with
               | Done data' => body_result 0 data data'
               | Fault f => exists c, f = NullCall c /\ absent c (ops data)
               end).
    { intros f st Hf Hst _. specialize (Hf data1). rewrite F1 in Hf.
      specialize (Hf Hst). destruct (f data1) as [data' | flt].
      - destruct Hf as (data2 & target & delay & -> & Hpr & Harc).
        apply br_arc.
        + eapply progressed_trans; eassumption.
        + cbn [Z.eqb negb]. rewrite Hst, <- F5. exact Harc.
      - rewrite <- F6. exact Hf. }
    assert (Hnone : nth (Z.to_nat (state data)) (state_machine_dispatch D) None = None ->
                    body_result 0 data
                      (emit (Warn (MsgNullHandler (state data))) data1)).
    { intros Hn. apply br_no_handler; [exact Hps | reflexivity | exact Hn | exact F5]. }
    destruct (valid_state_cases _ Hs) as [E | [E | [E | [E | [E | [E | [E | E]]]]]]];
      rewrite E in Hnone, Hsound |- *.
    + apply (Hsound _ _ hpd_reset_state_sound); reflexivity.
    + apply (Hsound _ _ hpd_plug_state_sound); reflexivity.
    + apply (Hsound _ _ edid_check_state_sound); reflexivity.
    + apply Hnone. reflexivity.
    + apply Hnone. reflexivity.
    + apply (Hsound _ _ wait_for_hpd_reassert_state_sound); reflexivity.
    + apply (Hsound _ _ edid_recheck_state_sound); reflexivity.
    + apply Hnone. reflexivity.
  - rewrite (hpd_worker_body_pending pending data g Hg Hs Hp),
      handle_hpd_evt_table, b2z_asserted.
    set (data1 := sampled_at _ _ _ _) in *. rewrite F1.
    destruct (spec_evt_table (state data) (fst (g (drv_data data))))
      as [ | target delay zero] eqn:Etab.
    + apply br_bounce.
      * apply progressed_info. exact Hps.
      * exact Hp.
      * eapply spec_evt_table_ignore. exact Etab.
      * fields. exact F5.
    + destruct (spec_evt_table_target _ _ _ _ _ Etab) as [Ht _].
      rewrite set_hpd_state_valid; [ | destruct zero; fields; rewrite F1; exact Hs
                                     | exact Ht].
      apply br_arc.
      * destruct zero; [apply progressed_reads | ]; exact Hps.
      * apply Z.eqb_neq in Hp. rewrite Hp. cbn [negb].
        replace (edid_reads (if zero then set_edid_reads 0 data1 else data1))
          with (if zero then 0 else edid_reads data)
          by (destruct zero; fields; [reflexivity | symmetry; exact F5]).
        eapply arc_event. exact Etab.
Qed.

(** ** The invariant of the reachable contexts *)

Lemma quiet_filters (l : list event) :
  forallb is_quiet l = true ->
  filter is_schedule l = [] /\ filter is_timer l = [] /\
  forallb is_benign l = true.
Proof.
  induction l as [ | e l IH]; [repeat split | ].
  cbn [forallb]. intros H. apply andb_prop in H. destruct H as [He Hl].
  destruct (IH Hl) as (I1 & I2 & I3).
  destruct e; try discriminate He; cbn; repeat split; assumption.
Qed.

Lemma progressed_counts data data1 :
  progressed data data1 ->
  scheduled (trace data1) = scheduled (trace data) /\
  timer_events (trace data1) = timer_events (trace data) /\
  forallb is_benign (trace data1) = forallb is_benign (trace data).
Proof.
  intros (_ & _ & _ & _ & _ & l & Hl & Hq).
  destruct (quiet_filters l Hq) as (Q1 & Q3 & Q4).
  unfold scheduled, timer_events.
  rewrite Hl, !filter_app, forallb_app, Q1, Q3, Q4, !app_nil_r, andb_true_r.
  repeat split.
Qed.

Lemma committed_benign data (t r : Z) :
  forallb is_benign (trace (committed data t r)) = forallb is_benign (trace data).
Proof.
  rewrite committed_trace, forallb_app.
  destruct (pending_hpd_evt data =? 0); cbn;
    [destruct (queued_after data r); cbn | ]; apply andb_true_r.
Qed.

(** What notifications leave alone, and what they leave in the flag. *)
Lemma notified_frame (n : nat) data :
  state (notified n data) = state data /\
  shutdown (notified n data) = shutdown data /\
  ops (notified n data) = ops data /\
  edid_reads (notified n data) = edid_reads data /\
  forallb is_benign (trace (notified n data)) = forallb is_benign (trace data) /\
  pending_hpd_evt (notified n data)
  = match n with O => pending_hpd_evt data | S _ => 1 end.
Proof.
  induction n as [ | n (I1 & I2 & I3 & I4 & I5 & _)]; [repeat split | ].
  cbn [notified]. unfold hpd_set_pending_evt.
  destruct (sched_hpd_work_frame (set_pending_hpd_evt 1 (notified n data)) 0)
    as (F1 & F2 & F3 & _ & F5 & F6).
  rewrite F1, F2, F3, F5, F6, sched_hpd_work_trace, forallb_app. fields.
  rewrite I1, I2, I3, I4, I5.
  destruct (queued_after (set_pending_hpd_evt 1 (notified n data)) 0); cbn;
    rewrite andb_true_r; repeat split.
Qed.

Lemma notified_shutdown (n : nat) data :
  shutdown data <> 0 ->
  scheduled (trace (notified n data)) = scheduled (trace data) /\
  (dwork data = None -> dwork (notified n data) = None).
Proof.
  intros Hsh. induction n as [ | n (I1 & I2)]; [split; [reflexivity | intros H; exact H] | ].
  destruct (notified_frame n data) as (_ & N2 & _).
  cbn [notified]. unfold hpd_set_pending_evt.
  rewrite sched_hpd_work_trace, sched_hpd_work_dwork. unfold queued_after. fields.
  rewrite N2. apply Z.eqb_neq in Hsh. rewrite Hsh. cbn [Z.geb Z.compare].
  unfold scheduled in *. rewrite filter_app. cbn. rewrite app_nil_r.
  split; [exact I1 | reflexivity].
Qed.

(** What every returning run of the body keeps. *)
Lemma body_result_frame (pending : Z) data data' :
  body_result pending data data' ->
  shutdown data' = shutdown data /\
  ops data' = ops data /\
  (shutdown data <> 0 -> scheduled (trace data') = scheduled (trace data)) /\
  (shutdown data <> 0 -> dwork data' = None \/ dwork data' = dwork data).
Proof.
  intros [data1 target delay Hp _ | data1 Hp _ _ _ | data1 Hp _ _ _];
    pose proof (progressed_counts _ _ Hp) as (Hc & _);
    destruct Hp as (P1 & P2 & P3 & P4 & P5 & _).
  - destruct (committed_frame data1 target delay) as (_ & C2 & _ & _ & C5 & _).
    rewrite C2, C5, committed_scheduled, committed_dwork, P2, P4, P5, Hc.
    unfold queued_after. rewrite P2.
    repeat split.
    + intros Hsh. apply Z.eqb_neq in Hsh. rewrite Hsh.
      destruct (pending_hpd_evt data1 =? 0), (delay >=? 0); lia.
    + intros Hsh. apply Z.eqb_neq in Hsh. rewrite Hsh.
      destruct (pending_hpd_evt data1 =? 0); [left | right; reflexivity].
      destruct (delay >=? 0); reflexivity.
  - repeat split; try assumption; intros _; [exact Hc | right; exact P4].
  - fields. unfold scheduled in *. rewrite filter_app. cbn. rewrite app_nil_r.
    repeat split; try assumption; intros _; [exact Hc | right; exact P4].
Qed.

Lemma int_incr_counter (c : Z) :
  0 <= c <= MAX_EDID_READ_ATTEMPTS -> int_incr c = c + 1.
Proof.
  unfold MAX_EDID_READ_ATTEMPTS. intros H. apply int_incr_small.
  unfold INT_MIN, INT_MAX. lia.
Qed.

(** An arc leads to one of the eight states other than
    INIT_FROM_BOOTLOADER and keeps the retry counter within its bounds. *)
Lemma arc_invariant (evt : bool) (st reads target delay reads' : Z) :
  arc evt st reads target delay reads' ->
  0 <= reads <= MAX_EDID_READ_ATTEMPTS ->
  (st = STATE_CHECK_EDID \/ st = STATE_RECHECK_EDID ->
   reads < MAX_EDID_READ_ATTEMPTS) ->
  valid_state target /\
  target <> STATE_INIT_FROM_BOOTLOADER /\
  0 <= reads' <= MAX_EDID_READ_ATTEMPTS /\
  (target = STATE_CHECK_EDID \/ target = STATE_RECHECK_EDID ->
   reads' < MAX_EDID_READ_ATTEMPTS).
Proof.
  intros Harc Hb Hr.
  assert (Hi : int_incr reads = reads + 1) by (apply int_incr_counter; exact Hb).
  destruct Harc as [st reads asserted target delay zero Etab | | | | | | | | | | | | ];
    try rewrite Hi in *;
    try (specialize (Hr (or_introl eq_refl)));
    try (specialize (Hr (or_intror eq_refl)));
    unfold valid_state, MAX_EDID_READ_ATTEMPTS, HPD_STATE_COUNT, STATE_HPD_RESET,
      STATE_PLUG, STATE_CHECK_EDID, STATE_DONE_DISABLED, STATE_DONE_ENABLED,
      STATE_WAIT_FOR_HPD_REASSERT, STATE_RECHECK_EDID,
      STATE_INIT_FROM_BOOTLOADER in *;
    try (repeat split; try lia; intros [? | ?]; lia).
  unfold spec_evt_table, STATE_DONE_ENABLED, STATE_WAIT_FOR_HPD_REASSERT,
    STATE_INIT_FROM_BOOTLOADER, STATE_RECHECK_EDID, STATE_PLUG, STATE_HPD_RESET
    in Etab.
  destruct (st =? 4), (st =? 5), (st =? 7), asserted;
    inversion Etab; subst;
    repeat split; try lia; intros [? | ?]; lia.
Qed.

Ltac split_invariant :=
  unfold invariant; split; [ | split; [ | split; [ | split; [ | split]]]].

Lemma invariant_init (mem : hpd_data D) (drv : D) o data :
  trace mem = [] ->
  hpd_init (Some mem) drv (Some o) = Done data ->
  invariant data.
Proof.
  intros Ht H. unfold hpd_init in H.
  destruct (missing_mandatory o) eqn:Hm; [discriminate | ].
  inversion H; subst data; clear H.
  split_invariant; fields.
  - valid_const.
  - exact Hm.
  - unfold MAX_EDID_READ_ATTEMPTS. lia.
  - intros _. reflexivity.
  - rewrite Ht. destruct (init o); reflexivity.
  - intros _ Hq. exfalso. apply Hq. reflexivity.
Qed.

Lemma invariant_notify data :
  invariant data -> invariant (hpd_set_pending_evt data).
Proof.
  intros (I1 & I2 & I3 & I4 & I5 & I6).
  destruct (notified_frame 1 data) as (N1 & _ & N3 & N4 & N5 & N6).
  cbn [notified] in N1, N3, N4, N5, N6.
  split_invariant; rewrite ?N1, ?N3, ?N4, ?N5, ?N6; try assumption.
  intros _ _. discriminate.
Qed.

Lemma invariant_shutdown_flag data :
  invariant data -> invariant (set_shutdown 1 data).
Proof.
  intros (I1 & I2 & I3 & I4 & I5 & I6). split_invariant; fields; assumption.
Qed.

Lemma invariant_shutdown_quiesce data :
  invariant data ->
  invariant (call_if_present OpShutdown (shutdown_op (ops data))
               (cancel_delayed_work_sync data)).
Proof.
  intros (I1 & I2 & I3 & I4 & I5 & I6).
  unfold call_if_present, cancel_delayed_work_sync.
  destruct (shutdown_op (ops data)); split_invariant; fields; try assumption.
  - rewrite <- app_assoc, forallb_app, I5. reflexivity.
  - intros _ Hq. exfalso. apply Hq. reflexivity.
  - rewrite forallb_app, I5. reflexivity.
  - intros _ Hq. exfalso. apply Hq. reflexivity.
Qed.

(** The context the body of the worker starts from, and the flag it has
    observed, when [early] and [late] notifications land during the run. *)
Lemma worker_start (early late : nat) data (ms : Z) :
  dwork data = Some ms ->
  let started := notified early (set_dwork None data) in
  let data2 := notified late (set_pending_hpd_evt 0 started) in
  state data2 = state data /\
  shutdown data2 = shutdown data /\
  ops data2 = ops data /\
  edid_reads data2 = edid_reads data /\
  forallb is_benign (trace data2) = forallb is_benign (trace data) /\
  (pending_hpd_evt data <> 0 -> pending_hpd_evt started <> 0).
Proof.
  intros Hq. cbv zeta.
  destruct (notified_frame early (set_dwork None data))
    as (A1 & A2 & A3 & A4 & A5 & A6).
  destruct (notified_frame late
              (set_pending_hpd_evt 0 (notified early (set_dwork None data))))
    as (B1 & B2 & B3 & B4 & B5 & _).
  fields in A1. fields in A2. fields in A3. fields in A4. fields in A5.
  fields in A6. fields in B1. fields in B2. fields in B3. fields in B4.
  fields in B5.
  rewrite B1, B2, B3, B4, B5, A1, A2, A3, A4, A5, A6.
  repeat split. destruct early; [intros H; exact H | intros _; discriminate].
Qed.

Lemma no_handler_states (st : Z) :
  valid_state st ->
  nth (Z.to_nat st) (state_machine_dispatch D) None = None ->
  st <> STATE_INIT_FROM_BOOTLOADER ->
  terminal_state st = true.
Proof.
  intros Hv Hn Hi.
  destruct (valid_state_cases _ Hv) as [E | [E | [E | [E | [E | [E | [E | E]]]]]]];
    subst st; try discriminate Hn; try reflexivity.
  exfalso. apply Hi. reflexivity.
Qed.

Lemma invariant_worker data data' (ms : Z) (early late : nat) :
  invariant data ->
  dwork data = Some ms ->
  hpd_worker_body
    (pending_hpd_evt (notified early (set_dwork None data)))
    (notified late
       (set_pending_hpd_evt 0 (notified early (set_dwork None data))))
  = Done data' ->
  invariant data'.
Proof.
  intros (I1 & I2 & I3 & I4 & I5 & I6) Hq Hrun.
  destruct (worker_start early late data ms Hq) as (S1 & _ & S3 & S4 & S5 & S6).
  set (started := notified early (set_dwork None data)) in *.
  set (data2 := notified late (set_pending_hpd_evt 0 started)) in *.
  assert (Hv2 : valid_state (state data2)) by (rewrite S1; exact I1).
  pose proof (hpd_worker_body_sound (pending_hpd_evt started) data2 Hv2) as Hsound.
  rewrite Hrun in Hsound.
  destruct Hsound as [data1 target delay Hp Harc | data1 Hp Hpe Hst Hrd
                      | data1 Hp Hpe Hnone Hrd];
    pose proof (progressed_counts _ _ Hp) as (_ & _ & Hb);
    destruct Hp as (P1 & _ & _ & _ & P5 & _).
  - rewrite S1, S4 in Harc.
    destruct (arc_invariant _ _ _ _ _ _ Harc I3 I4) as (A1 & A2 & A3 & A4).
    destruct (committed_frame data1 target delay) as (C1 & _ & _ & _ & C5 & C6).
    split_invariant;
      rewrite ?C1, ?C5, ?C6, ?P5, ?S3, ?committed_benign, ?Hb, ?S5;
      try assumption.
    intros Ht. exfalso. exact (A2 Ht).
  - split_invariant; rewrite ?P1, ?P5, ?S1, ?S3, ?Hrd, ?S4, ?Hb, ?S5;
      try assumption.
    rewrite S1 in Hst. rewrite Hst. intros H. discriminate H.
  - rewrite S1 in Hnone.
    assert (Hni : state data <> STATE_INIT_FROM_BOOTLOADER).
    { intros Hi. apply (S6 (I6 Hi ltac:(rewrite Hq; discriminate))). exact Hpe. }
    pose proof (no_handler_states _ I1 Hnone Hni) as Hterm.
    split_invariant; fields;
      rewrite ?P1, ?P5, ?S1, ?S3, ?Hrd, ?S4; try assumption.
    + rewrite forallb_app, Hb, S5, I5. cbn. rewrite Hterm. reflexivity.
    + intros Hi. exfalso. exact (Hni Hi).
Qed.

Lemma across_shutdown_frame (hook_first : bool) data :
  state (hpd_set_pending_evt_across_shutdown hook_first data) = state data /\
  shutdown (hpd_set_pending_evt_across_shutdown hook_first data) = 1 /\
  pending_hpd_evt (hpd_set_pending_evt_across_shutdown hook_first data) = 1 /\
  dwork (hpd_set_pending_evt_across_shutdown hook_first data) = Some 0 /\
  ops (hpd_set_pending_evt_across_shutdown hook_first data) = ops data /\
  edid_reads (hpd_set_pending_evt_across_shutdown hook_first data)
  = edid_reads data /\
  drv_data (hpd_set_pending_evt_across_shutdown hook_first data)
  = match shutdown_op (ops data) with
    | Some f => f (drv_data data)
    | None => drv_data data
    end.
Proof.
  unfold hpd_set_pending_evt_across_shutdown, call_if_present,
    cancel_delayed_work_sync, cancel_delayed_work, schedule_delayed_work.
  cbv zeta. fields.
  destruct hook_first, (shutdown_op (ops data)); fields; repeat split.
Qed.

Lemma across_shutdown_trace (hook_first : bool) data :
  trace (hpd_set_pending_evt_across_shutdown hook_first data)
  = trace data ++
      CancelWork :: CancelWorkSync ::
      match shutdown_op (ops data) with
      | Some _ =>
          if hook_first then [Call OpShutdown; ScheduleWork 0]
          else [ScheduleWork 0; Call OpShutdown]
      | None => [ScheduleWork 0]
      end.
Proof.
  unfold hpd_set_pending_evt_across_shutdown, call_if_present,
    cancel_delayed_work_sync, cancel_delayed_work, schedule_delayed_work.
  cbv zeta. fields.
  destruct hook_first, (shutdown_op (ops data)); fields;
    rewrite <- ?app_assoc; reflexivity.
Qed.

Lemma invariant_notify_across_shutdown (hook_first : bool) data :
  invariant data ->
  invariant (hpd_set_pending_evt_across_shutdown hook_first data).
Proof.
  intros (I1 & I2 & I3 & I4 & I5 & I6).
  destruct (across_shutdown_frame hook_first data)
    as (F1 & _ & F3 & _ & F5 & F6 & _).
  split_invariant; rewrite ?F1, ?F5, ?F6; try assumption.
  - rewrite across_shutdown_trace, forallb_app, I5.
    destruct hook_first, (shutdown_op (ops data)); reflexivity.
  - intros _ _. rewrite F3. discriminate.
Qed.

Lemma invariant_step data data' :
  invariant data -> step data data' -> invariant data'.
Proof.
  intros Hinv Hstep. revert Hinv.
  destruct Hstep
    as [d | d d' ms early late Hq Hrun | d | d Hsh | d hook_first Hclear];
    intros Hinv.
  - apply invariant_notify, Hinv.
  - eapply invariant_worker; eassumption.
  - apply invariant_shutdown_flag, Hinv.
  - apply invariant_shutdown_quiesce, Hinv.
  - apply invariant_notify_across_shutdown, Hinv.
Qed.

Lemma invariant_steps data data' :
  invariant data -> steps data data' -> invariant data'.
Proof.
  intros Hinv Hsteps. induction Hsteps as [d | d mid d' _ IH Hstep].
  - exact Hinv.
  - eapply invariant_step; [apply IH, Hinv | exact Hstep].
Qed.

Lemma steps_trans data mid data' :
  steps data mid -> steps mid data' -> steps data data'.
Proof.
  intros H1 H2. induction H2 as [d | d m d' _ IH Hstep].
  - exact H1.
  - eapply steps_snoc; [apply IH, H1 | exact Hstep].
Qed.

Lemma act_step (a : action) data data' :
  act a data = Some data' -> step data data'.
Proof.
  destruct a as [ | early late | | | hook_first]; cbn [act]; intros H.
  - inversion H. apply step_notify.
  - destruct (dwork data) as [ms | ] eqn:Hq; [ | discriminate H].
    destruct (hpd_worker_body _ _) as [d | f] eqn:Hrun; [ | discriminate H].
    inversion H; subst d.
    eapply step_worker; eassumption.
  - inversion H. apply step_shutdown_flag.
  - destruct (Z.eqb_spec (shutdown data) 0) as [E | E]; [discriminate H | ].
    inversion H. apply step_shutdown_quiesce. exact E.
  - destruct (Z.eqb_spec (shutdown data) 0) as [E | E]; [ | discriminate H].
    inversion H. apply step_notify_across_shutdown. exact E.
Qed.

Lemma play_steps (script : list action) :
  forall data data', play script data = Some data' -> steps data data'.
Proof.
  induction script as [ | a rest IH]; intros data data' H; cbn [play] in H.
  - inversion H. apply steps_refl.
  - destruct (act a data) as [mid | ] eqn:Ha; [ | discriminate H].
    eapply steps_trans; [ | apply IH; exact H].
    eapply steps_snoc; [apply steps_refl | apply (act_step a); exact Ha].
Qed.

Lemma reachable_invariant data : reachable data -> invariant data.
Proof.
  intros (mem & drv & o & data0 & Ht & Hinit & Hsteps).
  eapply invariant_steps; [ | exact Hsteps].
  eapply invariant_init; eassumption.
Qed.

Lemma mandatory_not_absent o (c : collab) :
  missing_mandatory o = false -> absent c o -> False.
Proof.
  unfold missing_mandatory, absent.
  destruct (get_hpd_state o), (edid_read o), (edid_ready o), (edid_recheck o);
    try discriminate; intros _; destruct c; intros H; try discriminate H;
    exact H.
Qed.

(** With the mandatory operations there, the body of the worker returns
    from any of the eight states. *)
Lemma hpd_worker_body_returns (pending : Z) data :
  valid_state (state data) ->
  missing_mandatory (ops data) = false ->
  exists data', hpd_worker_body pending data = Done data'.
Proof.
  intros Hv Hm.
  pose proof (hpd_worker_body_sound pending data Hv) as Hsound.
  destruct (hpd_worker_body pending data) as [data' | flt].
  - exists data'. reflexivity.
  - destruct Hsound as (c & _ & Habs).
    exfalso. exact (mandatory_not_absent _ _ Hm Habs).
Qed.

(** C10. Every context reachable from a successful [hpd_init], through
    notifications, runs of the queued worker (with notifications landing
    while it runs) and shutdown, has its state among the eight constants of
    the enum, 0 to 7.  No run on the way printed the warning of an
    unexpected state, nor the warning of a NULL handler in a state other
    than the two terminal ones; in INIT_FROM_BOOTLOADER the worker is queued
    only with an event pending; and whenever the worker is queued its run
    returns, with the same guarantees. *)
Theorem reachable_state_declared data :
  reachable data ->
  0 <= state data <= 7 /\
  forallb is_benign (trace data) = true /\
  (state data = STATE_INIT_FROM_BOOTLOADER ->
   dwork data <> None -> pending_hpd_evt data <> 0) /\
  (forall (ms : Z) (early late : nat),
     dwork data = Some ms ->
     exists data',
       hpd_worker_body
         (pending_hpd_evt (notified early (set_dwork None data)))
         (notified late
            (set_pending_hpd_evt 0 (notified early (set_dwork None data))))
       = Done data' /\
       0 <= state data' <= 7 /\
       forallb is_benign (trace data') = true).
Proof.
  intros Hreach. pose proof (reachable_invariant _ Hreach) as Hinv.
  pose proof Hinv as (I1 & I2 & I3 & I4 & I5 & I6).
  split; [unfold valid_state, HPD_STATE_COUNT in I1; lia | ].
  split; [exact I5 | ]. split; [exact I6 | ].
  intros ms early late Hq.
  destruct (worker_start early late data ms Hq) as (S1 & _ & S3 & _).
  destruct (hpd_worker_body_returns
              (pending_hpd_evt (notified early (set_dwork None data)))
              (notified late
                 (set_pending_hpd_evt 0 (notified early (set_dwork None data)))))
    as (data' & Hrun).
  { rewrite S1. exact I1. }
  { rewrite S3. exact I2. }
  exists data'. split; [exact Hrun | ].
  destruct (invariant_worker data data' ms early late Hinv Hq Hrun)
    as (J1 & _ & _ & _ & J5 & _).
  split; [unfold valid_state, HPD_STATE_COUNT in J1; lia | exact J5].
Qed.




(** ** Shutdown *)

(** A queued run in a context that is shutting down, with an event pending:
    it returns, samples the signal, calls nothing else and leaves nothing
    queued. *)
Lemma run_queued_event_shutting_down data (g : D -> bool * D) :
  get_hpd_state (ops data) = Some g ->
  valid_state (state data) ->
  pending_hpd_evt data <> 0 ->
  shutdown data <> 0 ->
  dwork data <> None ->
  exists data',
    run_queued_work data = Done data' /\
    dwork data' = None /\
    shutdown data' = shutdown data /\
    calls (trace data') = calls (trace data) ++ [Call OpGetHpdState].
Proof.
  intros Hg Hs Hp Hsh Hq.
  unfold run_queued_work. destruct (dwork data) as [ms | ]; [ | congruence].
  rewrite (hpd_worker_pending (set_dwork None data) g Hg Hs Hp),
    handle_hpd_evt_table, b2z_asserted.
  unfold sampled. fields.
  destruct (spec_evt_table (state data) (fst (g (drv_data data))))
    as [ | target delay zero] eqn:Etab.
  - eexists. split; [reflexivity | ]. fields. filter_trace. repeat split.
  - destruct (spec_evt_table_target _ _ _ _ _ Etab) as (Ht & _).
    rewrite set_hpd_state_valid; [ | destruct zero; fields; exact Hs | exact Ht].
    eexists. split; [reflexivity | ].
    match goal with |- context [committed ?d ?t ?dl] =>
      destruct (committed_frame d t dl) as (_ & C2 & _);
      rewrite C2, committed_dwork, committed_calls end.
    unfold queued_after.
    destruct zero; fields;
      (destruct (Z.eqb_spec (shutdown data) 0) as [E | _]; [congruence | ]);
      filter_trace; destruct (delay >=? 0); repeat split.
Qed.

(** C5. A pass through the scheduling step that finds the shutdown flag set
    cancels and queues nothing, whatever delay it is asked for; so does a
    notification, which goes through it with delay 0, and so does a
    transition committed from any of the eight states to any of them, which
    returns as usual.  [hpd_shutdown] sets the flag and leaves nothing
    queued.

    But no new callback after the flag is set is more than the code gives:
    the flag is written without the mutex under which it is tested.  When
    the whole of [hpd_shutdown] runs between the test of the flag and
    [schedule_delayed_work] of a notification that found the flag clear,
    the notification queues the worker with the flag set, after the
    shutdown has cancelled the queue; the queued run then returns, samples
    the signal after the client's shutdown operation was called, and leaves
    nothing queued. *)
Theorem shutdown_suppresses_scheduling data :
  (shutdown data <> 0 ->
   (forall resched_time,
      dwork (sched_hpd_work data resched_time) = None /\
      shutdown (sched_hpd_work data resched_time) = shutdown data /\
      trace (sched_hpd_work data resched_time) = trace data ++ [CancelWork]) /\
   (dwork (hpd_set_pending_evt data) = None /\
    shutdown (hpd_set_pending_evt data) = shutdown data /\
    pending_hpd_evt (hpd_set_pending_evt data) = 1 /\
    trace (hpd_set_pending_evt data) = trace data ++ [CancelWork]) /\
   (forall target_state resched_time,
      valid_state (state data) -> valid_state target_state ->
      exists data',
        set_hpd_state data target_state resched_time = Done data' /\
        state data' = target_state /\
        shutdown data' = shutdown data /\
        scheduled (trace data') = scheduled (trace data) /\
        (dwork data' = None \/ dwork data' = dwork data))) /\
  (shutdown (hpd_shutdown data) <> 0 /\ dwork (hpd_shutdown data) = None) /\
  (shutdown data = 0 ->
   forall hook_first : bool,
     let data' := hpd_set_pending_evt_across_shutdown hook_first data in
     step data data' /\
     shutdown data' = 1 /\
     pending_hpd_evt data' = 1 /\
     dwork data' = Some 0 /\
     state data' = state data /\
     timer_events (trace data')
     = timer_events (trace data) ++
         [CancelWork; CancelWorkSync; ScheduleWork 0] /\
     scheduled (trace data') = S (scheduled (trace data)) /\
     calls (trace data')
     = calls (trace data) ++
         match shutdown_op (ops data) with
         | Some _ => [Call OpShutdown]
         | None => []
         end /\
     forall g : D -> bool * D,
       get_hpd_state (ops data) = Some g ->
       valid_state (state data) ->
       exists data'',
         run_queued_work data' = Done data'' /\
         dwork data'' = None /\
         calls (trace data'') = calls (trace data') ++ [Call OpGetHpdState]).
Proof.
  split; [ | split].
  - intros Hsh.
    assert (Hsh' : (shutdown data =? 0) = false) by (apply Z.eqb_neq; exact Hsh).
    assert (Hq : forall r (d : hpd_data D),
               shutdown d = shutdown data -> queued_after d r = None).
    { intros r d Hd. unfold queued_after. rewrite Hd, Hsh'.
      destruct (r >=? 0); reflexivity. }
    split; [ | split].
    + intros r. destruct (sched_hpd_work_frame data r) as (F1 & _).
      rewrite sched_hpd_work_dwork, sched_hpd_work_trace, (Hq r data eq_refl).
      repeat split. exact F1.
    + unfold hpd_set_pending_evt.
      destruct (sched_hpd_work_frame (set_pending_hpd_evt 1 data) 0)
        as (F1 & _ & F3 & _).
      rewrite sched_hpd_work_dwork, sched_hpd_work_trace, F1, F3,
        (Hq 0 (set_pending_hpd_evt 1 data) eq_refl).
      repeat split.
    + intros t r Hs Ht. exists (committed data t r).
      split; [apply set_hpd_state_valid; assumption | ].
      destruct (committed_frame data t r) as (C1 & C2 & _).
      rewrite C1, C2, committed_scheduled, committed_dwork, (Hq r data eq_refl).
      repeat split.
      * destruct (pending_hpd_evt data =? 0); lia.
      * destruct (pending_hpd_evt data =? 0); [left | right]; reflexivity.
  - unfold hpd_shutdown, call_if_present, cancel_delayed_work_sync.
    fields. destruct (shutdown_op (ops data)); fields;
      (split; [discriminate | reflexivity]).
  - intros Hclear hook_first. cbv zeta.
    destruct (across_shutdown_frame hook_first data)
      as (F1 & F2 & F3 & F4 & F5 & _).
    pose proof (across_shutdown_trace hook_first data) as Ft.
    split; [apply step_notify_across_shutdown; exact Hclear | ].
    split; [exact F2 | ]. split; [exact F3 | ]. split; [exact F4 | ].
    split; [exact F1 | ].
    split.
    { rewrite Ft. unfold timer_events. rewrite filter_app.
      destruct hook_first, (shutdown_op (ops data)); reflexivity. }
    split.
    { rewrite Ft. unfold scheduled. rewrite filter_app, length_app.
      destruct hook_first, (shutdown_op (ops data)); cbn; lia. }
    split.
    { rewrite Ft. unfold calls. rewrite filter_app.
      destruct hook_first, (shutdown_op (ops data)); reflexivity. }
    intros g Hg Hv.
    destruct (run_queued_event_shutting_down
                (hpd_set_pending_evt_across_shutdown hook_first data) g)
      as (data'' & Hrun & Hq & _ & Hcalls).
    + rewrite F5. exact Hg.
    + rewrite F1. exact Hv.
    + rewrite F3. discriminate.
    + rewrite F2. discriminate.
    + rewrite F4. discriminate.
    + exists data''. split; [exact Hrun | ]. split; [exact Hq | exact Hcalls].
Qed.

(** ** Initialisation *)

(** C9, amended. [hpd_init] aborts, by [BUG_ON], exactly when the context
    pointer is null, the pointer to the operations is null, or one of the
    four mandatory operations (get_hpd_state, edid_read, edid_ready,
    edid_recheck) is missing; otherwise it returns, having called the init
    operation if the client has one, and leaves the state at
    INIT_FROM_BOOTLOADER, the retry counter, the pending flag and the
    shutdown flag at 0 and nothing queued. *)
Theorem hpd_init_aborts_iff (data : option (hpd_data D)) (drv : D)
    (o : option (hpd_ops D)) :
  ((exists f, hpd_init data drv o = Fault f) <->
   (data = None \/ o = None \/
    exists o', o = Some o' /\
      (get_hpd_state o' = None \/ edid_read o' = None \/
       edid_ready o' = None \/ edid_recheck o' = None))) /\
  (forall f, hpd_init data drv o = Fault f -> f = BugOn) /\
  (forall mem o',
     data = Some mem -> o = Some o' -> mandatory_present o' ->
     exists data',
       hpd_init data drv o = Done data' /\
       state data' = STATE_INIT_FROM_BOOTLOADER /\
       edid_reads data' = 0 /\
       pending_hpd_evt data' = 0 /\
       shutdown data' = 0 /\
       dwork data' = None /\
       ops data' = o' /\
       drv_data data' = match init o' with Some g => g drv | None => drv end /\
       trace data'
       = trace mem ++ match init o' with Some _ => [Call OpInit] | None => [] end).
Proof.
  split; [ | split].
  - unfold hpd_init, missing_mandatory. split.
    + intros (f & H).
      destruct data as [mem | ]; [ | left; reflexivity].
      destruct o as [o' | ]; [ | right; left; reflexivity].
      right. right. exists o'. split; [reflexivity | ].
      destruct (get_hpd_state o'); [ | left; reflexivity].
      destruct (edid_read o'); [ | right; left; reflexivity].
      destruct (edid_ready o'); [ | right; right; left; reflexivity].
      destruct (edid_recheck o'); [discriminate H | right; right; right; reflexivity].
    + intros [H | [H | (o' & H & Hm)]]; subst.
      * exists BugOn. reflexivity.
      * exists BugOn. destruct data; reflexivity.
      * exists BugOn. destruct data; [ | reflexivity].
        destruct Hm as [H | [H | [H | H]]]; rewrite H;
          destruct (get_hpd_state o'), (edid_read o'), (edid_ready o');
          reflexivity.
  - intros f H. unfold hpd_init in H.
    destruct data as [mem | ]; [ | congruence].
    destruct o as [o' | ]; [ | congruence].
    destruct (missing_mandatory o'); congruence.
  - intros mem o' -> -> (M1 & M2 & M3 & M4).
    unfold hpd_init, missing_mandatory.
    destruct (get_hpd_state o'); [ | congruence].
    destruct (edid_read o'); [ | congruence].
    destruct (edid_ready o'); [ | congruence].
    destruct (edid_recheck o'); [ | congruence].
    eexists. split; [reflexivity | ]. fields. repeat split.
Qed.

(** ** Single runs of the queued worker *)

Lemma count_calls_calls (c : collab) (t : list event) :
  count_calls c (calls t) = count_calls c t.
Proof.
  unfold count_calls, calls. induction t as [ | e t IH]; [reflexivity | ].
  destruct e as [c0 | | | | | ]; cbn [filter is_call]; try exact IH.
  cbn [filter]. destruct (is_call_of c (Call c0)); cbn [List.length]; congruence.
Qed.

Lemma committed_ran data data1 (t r reads : Z) (x : D) (new_calls : list event) :
  shutdown data1 = shutdown data ->
  pending_hpd_evt data1 = 0 ->
  ops data1 = ops data ->
  edid_reads data1 = reads ->
  drv_data data1 = x ->
  calls (trace data1) = calls (trace data) ++ new_calls ->
  ran data (committed data1 t r) t r reads x new_calls.
Proof.
  intros Hsh Hp Hops Hrd Hx Hc.
  destruct (committed_frame data1 t r) as (C1 & C2 & C3 & C4 & C5 & C6).
  unfold ran.
  rewrite C1, C2, C3, C4, C5, C6, committed_dwork, committed_calls, Hp.
  cbn [Z.eqb]. unfold queued_after. rewrite Hsh.
  repeat split; assumption.
Qed.

(** Opens a run of the queued worker that finds no pending event in the
    state [st], whose handler is [h]. *)
Ltac open_run Hg Hst Hp st h :=
  unfold run_queued_work;
  match goal with
  | |- context [dwork ?d] =>
      let ms := fresh "ms" in
      destruct (dwork d) as [ms | ]; [ | congruence]
  end;
  match goal with
  | |- context [hpd_worker (set_dwork None ?d)] =>
      let Hs := fresh "Hs" in
      assert (Hs : valid_state (state (set_dwork None d)))
        by (fields; rewrite Hst; valid_const);
      rewrite (hpd_worker_dispatch (set_dwork None d) _ Hg Hs Hp);
      fields; rewrite Hst;
      change (nth (Z.to_nat st) (state_machine_dispatch D) None) with (Some h);
      cbv beta zeta iota; unfold sampled; fields
  end.

(** Closes it once the handler has come to its call of [set_hpd_state]. *)
Ltac close_run Hst :=
  rewrite set_hpd_state_valid; [ | fields; rewrite ?Hst; valid_const | valid_const];
  eexists; split; [reflexivity | ];
  apply committed_ran; fields; try reflexivity;
  filter_trace; reflexivity.

Lemma run_reset data (g : D -> bool * D) :
  get_hpd_state (ops data) = Some g ->
  state data = STATE_HPD_RESET ->
  pending_hpd_evt data = 0 ->
  dwork data <> None ->
  exists data',
    run_queued_work data = Done data' /\
    ran data data' STATE_PLUG CHECK_PLUG_STATE_DELAY_MS (edid_reads data)
      (disabled (ops data) (snd (g (drv_data data))))
      (Call OpGetHpdState :: disable_calls (ops data)).
Proof.
  intros Hg Hst Hp Hq.
  open_run Hg Hst Hp STATE_HPD_RESET (@hpd_reset_state D).
  unfold hpd_reset_state, hpd_disable, call_if_present, disabled, disable_calls.
  fields. destruct (disable (ops data)); close_run Hst.
Qed.

Lemma run_plug_unplugged data (g : D -> bool * D) :
  get_hpd_state (ops data) = Some g ->
  state data = STATE_PLUG ->
  pending_hpd_evt data = 0 ->
  dwork data <> None ->
  fst (g (snd (g (drv_data data)))) = false ->
  exists data',
    run_queued_work data = Done data' /\
    ran data data' STATE_DONE_DISABLED (-1) (edid_reads data)
      (disabled (ops data) (snd (g (snd (g (drv_data data))))))
      (Call OpGetHpdState :: Call OpGetHpdState :: disable_calls (ops data)).
Proof.
  intros Hg Hst Hp Hq Hb.
  open_run Hg Hst Hp STATE_PLUG (@hpd_plug_state D).
  unfold hpd_plug_state, call_result, hpd_disable, call_if_present, disabled,
    disable_calls.
  fields. rewrite Hg.
  destruct (g (snd (g (drv_data data)))) as [b x2]. cbn [fst snd] in *. subst b.
  cbn [bind]. fields. destruct (disable (ops data)); close_run Hst.
Qed.

Lemma run_plug_asserted data (g : D -> bool * D) :
  get_hpd_state (ops data) = Some g ->
  state data = STATE_PLUG ->
  pending_hpd_evt data = 0 ->
  dwork data <> None ->
  fst (g (snd (g (drv_data data)))) = true ->
  exists data',
    run_queued_work data = Done data' /\
    ran data data' STATE_CHECK_EDID CHECK_EDID_DELAY_MS 0
      (snd (g (snd (g (drv_data data)))))
      [Call OpGetHpdState; Call OpGetHpdState].
Proof.
  intros Hg Hst Hp Hq Hb.
  open_run Hg Hst Hp STATE_PLUG (@hpd_plug_state D).
  unfold hpd_plug_state, call_result.
  fields. rewrite Hg.
  destruct (g (snd (g (drv_data data)))) as [b x2]. cbn [fst snd] in *. subst b.
  cbn [bind]. close_run Hst.
Qed.

Lemma run_check_ready data (g r : D -> bool * D) :
  get_hpd_state (ops data) = Some g ->
  edid_read (ops data) = Some r ->
  state data = STATE_CHECK_EDID ->
  pending_hpd_evt data = 0 ->
  dwork data <> None ->
  fst (g (snd (g (drv_data data)))) = true ->
  fst (r (snd (g (snd (g (drv_data data)))))) = true ->
  exists data',
    run_queued_work data = Done data' /\
    ran data data' STATE_DONE_ENABLED (-1) (edid_reads data)
      (readied (ops data) (snd (r (snd (g (snd (g (drv_data data))))))))
      (Call OpGetHpdState :: Call OpGetHpdState :: Call OpEdidRead ::
       ready_calls (ops data)).
Proof.
  intros Hg Hr Hst Hp Hq Hb Hok.
  open_run Hg Hst Hp STATE_CHECK_EDID (@edid_check_state D).
  unfold edid_check_state, call_result, call_if_present, readied, ready_calls.
  fields. rewrite Hg.
  destruct (g (snd (g (drv_data data)))) as [b x2]. cbn [fst snd] in *. subst b.
  cbn [bind negb]. fields. rewrite Hr.
  destruct (r x2) as [ok x3]. cbn [fst snd] in *. subst ok.
  cbn [bind negb]. fields. destruct (edid_ready (ops data)); close_run Hst.
Qed.

Lemma run_wait_expired data (g : D -> bool * D) :
  get_hpd_state (ops data) = Some g ->
  state data = STATE_WAIT_FOR_HPD_REASSERT ->
  pending_hpd_evt data = 0 ->
  dwork data <> None ->
  exists data',
    run_queued_work data = Done data' /\
    ran data data' STATE_HPD_RESET 0 (edid_reads data)
      (snd (g (drv_data data))) [Call OpGetHpdState].
Proof.
  intros Hg Hst Hp Hq.
  open_run Hg Hst Hp STATE_WAIT_FOR_HPD_REASSERT (@wait_for_hpd_reassert_state D).
  unfold wait_for_hpd_reassert_state. close_run Hst.
Qed.

Lemma run_recheck_unchanged data (g : D -> bool * D) (k : D -> Z * D) :
  get_hpd_state (ops data) = Some g ->
  edid_recheck (ops data) = Some k ->
  state data = STATE_RECHECK_EDID ->
  pending_hpd_evt data = 0 ->
  dwork data <> None ->
  fst (k (snd (g (drv_data data)))) = 0 ->
  exists data',
    run_queued_work data = Done data' /\
    ran data data' STATE_DONE_ENABLED (-1) (edid_reads data)
      (snd (k (snd (g (drv_data data)))))
      [Call OpGetHpdState; Call OpEdidRecheck].
Proof.
  intros Hg Hk Hst Hp Hq Hsame.
  open_run Hg Hst Hp STATE_RECHECK_EDID (@edid_recheck_state D).
  unfold edid_recheck_state, call_result.
  fields. rewrite Hk.
  destruct (k (snd (g (drv_data data)))) as [status x2].
  cbn [fst snd] in *. subst status.
  cbn [bind Z.eqb]. close_run Hst.
Qed.

Lemma run_event data (g : D -> bool * D) (target delay : Z) (zero : bool) :
  get_hpd_state (ops data) = Some g ->
  valid_state (state data) ->
  pending_hpd_evt data <> 0 ->
  dwork data <> None ->
  spec_evt_table (state data) (fst (g (drv_data data))) = Goto target delay zero ->
  exists data',
    run_queued_work data = Done data' /\
    ran data data' target delay (if zero then 0 else edid_reads data)
      (snd (g (drv_data data))) [Call OpGetHpdState].
Proof.
  intros Hg Hs Hp Hq Etab.
  unfold run_queued_work. destruct (dwork data) as [ms | ]; [ | congruence].
  rewrite (hpd_worker_pending (set_dwork None data) g Hg Hs Hp),
    handle_hpd_evt_table, b2z_asserted.
  unfold sampled. fields. rewrite Etab.
  destruct (spec_evt_table_target _ _ _ _ _ Etab) as (Ht & _).
  rewrite set_hpd_state_valid; [ | destruct zero; fields; exact Hs | exact Ht].
  eexists. split; [reflexivity | ].
  destruct zero; apply committed_ran; fields; try reflexivity;
    filter_trace; reflexivity.
Qed.

Lemma notify_facts data :
  shutdown data = 0 ->
  state (hpd_set_pending_evt data) = state data /\
  pending_hpd_evt (hpd_set_pending_evt data) = 1 /\
  shutdown (hpd_set_pending_evt data) = 0 /\
  dwork (hpd_set_pending_evt data) = Some 0 /\
  edid_reads (hpd_set_pending_evt data) = edid_reads data /\
  ops (hpd_set_pending_evt data) = ops data /\
  drv_data (hpd_set_pending_evt data) = drv_data data /\
  calls (trace (hpd_set_pending_evt data)) = calls (trace data).
Proof.
  intros Hsh. unfold hpd_set_pending_evt.
  destruct (sched_hpd_work_frame (set_pending_hpd_evt 1 data) 0)
    as (F1 & F2 & F3 & F4 & F5 & F6).
  rewrite F1, F2, F3, F4, F5, F6, sched_hpd_work_dwork, sched_hpd_work_trace.
  unfold queued_after. fields. rewrite Hsh. cbn [Z.geb Z.compare Z.eqb].
  unfold calls. rewrite filter_app. cbn. rewrite app_nil_r. repeat split.
Qed.

(** X1. A run of the queued worker in RESET with no event pending samples
    the signal, calls disable if the client has it and nothing else, and
    goes to PLUG, queued again after 10 ms (not queued if the context is
    shutting down); the retry counter is left alone. *)
Theorem reset_run_disables_then_checks_plug data (g : D -> bool * D) :
  get_hpd_state (ops data) = Some g ->
  state data = STATE_HPD_RESET ->
  pending_hpd_evt data = 0 ->
  dwork data <> None ->
  exists data',
    run_queued_work data = Done data' /\
    state data' = STATE_PLUG /\
    dwork data' = (if shutdown data =? 0 then Some 10 else None) /\
    edid_reads data' = edid_reads data /\
    calls (trace data')
    = calls (trace data) ++ Call OpGetHpdState :: disable_calls (ops data) /\
    count_calls OpDisable (trace data')
    = (count_calls OpDisable (trace data)
       + match disable (ops data) with Some _ => 1 | None => 0 end)%nat.
Proof.
  intros Hg Hst Hp Hq.
  destruct (run_reset data g Hg Hst Hp Hq)
    as (data' & Hrun & R1 & _ & _ & R4 & R5 & _ & _ & R8).
  exists data'. split; [exact Hrun | ]. split; [exact R1 | ].
  split; [rewrite R4; reflexivity | ]. split; [exact R5 | ].
  split; [exact R8 | ].
  rewrite <- (count_calls_calls OpDisable (trace data')), R8.
  rewrite <- (count_calls_calls OpDisable (trace data)).
  unfold count_calls, disable_calls. rewrite filter_app, length_app.
  destruct (disable (ops data)); reflexivity.
Qed.

(** X2. A run of the queued worker in PLUG with no event pending whose
    handler samples the signal low ends in DONE_DISABLED with nothing
    queued: disable is called once (if the client has it), the EDID is not
    read, and the retry counter is left alone. *)
Theorem plug_run_unplugged_disables data (g : D -> bool * D) :
  get_hpd_state (ops data) = Some g ->
  state data = STATE_PLUG ->
  pending_hpd_evt data = 0 ->
  dwork data <> None ->
  fst (g (snd (g (drv_data data)))) = false ->
  exists data',
    run_queued_work data = Done data' /\
    state data' = STATE_DONE_DISABLED /\
    dwork data' = None /\
    edid_reads data' = edid_reads data /\
    calls (trace data')
    = calls (trace data) ++
        Call OpGetHpdState :: Call OpGetHpdState :: disable_calls (ops data) /\
    count_calls OpEdidRead (trace data') = count_calls OpEdidRead (trace data).
Proof.
  intros Hg Hst Hp Hq Hb.
  destruct (run_plug_unplugged data g Hg Hst Hp Hq Hb)
    as (data' & Hrun & R1 & _ & _ & R4 & R5 & _ & _ & R8).
  exists data'. split; [exact Hrun | ]. split; [exact R1 | ].
  split; [rewrite R4; reflexivity | ]. split; [exact R5 | ].
  split; [exact R8 | ].
  rewrite <- (count_calls_calls OpEdidRead (trace data')), R8.
  rewrite <- (count_calls_calls OpEdidRead (trace data)).
  unfold count_calls, disable_calls. rewrite filter_app, length_app.
  destruct (disable (ops data)); cbn; lia.
Qed.

(** X3. A run of the queued worker in CHECK_EDID with no event pending whose
    handler samples the signal high and whose read succeeds ends in
    DONE_ENABLED with nothing queued: the EDID is read once, edid_ready is
    called once (if the pointer is not NULL), disable is not called, and the
    retry counter is left alone. *)
Theorem check_run_ready_enables data (g r : D -> bool * D) :
  get_hpd_state (ops data) = Some g ->
  edid_read (ops data) = Some r ->
  state data = STATE_CHECK_EDID ->
  pending_hpd_evt data = 0 ->
  dwork data <> None ->
  fst (g (snd (g (drv_data data)))) = true ->
  fst (r (snd (g (snd (g (drv_data data)))))) = true ->
  exists data',
    run_queued_work data = Done data' /\
    state data' = STATE_DONE_ENABLED /\
    dwork data' = None /\
    edid_reads data' = edid_reads data /\
    calls (trace data')
    = calls (trace data) ++
        Call OpGetHpdState :: Call OpGetHpdState :: Call OpEdidRead ::
        ready_calls (ops data) /\
    count_calls OpDisable (trace data') = count_calls OpDisable (trace data).
Proof.
  intros Hg Hr Hst Hp Hq Hb Hok.
  destruct (run_check_ready data g r Hg Hr Hst Hp Hq Hb Hok)
    as (data' & Hrun & R1 & _ & _ & R4 & R5 & _ & _ & R8).
  exists data'. split; [exact Hrun | ]. split; [exact R1 | ].
  split; [rewrite R4; reflexivity | ]. split; [exact R5 | ].
  split; [exact R8 | ].
  rewrite <- (count_calls_calls OpDisable (trace data')), R8.
  rewrite <- (count_calls_calls OpDisable (trace data)).
  unfold count_calls, ready_calls. rewrite filter_app, length_app.
  destruct (edid_ready (ops data)); cbn; lia.
Qed.

(** X4. A run of the worker that finds an event pending calls no client
    operation but the one sample of the signal, whatever the state and the
    signal: admitting an event by itself never disables the output, reads
    the EDID or rechecks it.  The run leaves the pending flag clear. *)
Theorem event_run_samples_only data (g : D -> bool * D) :
  get_hpd_state (ops data) = Some g ->
  valid_state (state data) ->
  pending_hpd_evt data <> 0 ->
  exists data',
    hpd_worker data = Done data' /\
    calls (trace data') = calls (trace data) ++ [Call OpGetHpdState] /\
    drv_data data' = snd (g (drv_data data)) /\
    ops data' = ops data /\
    shutdown data' = shutdown data /\
    pending_hpd_evt data' = 0.
Proof.
  intros Hg Hs Hp.
  rewrite (hpd_worker_pending data g Hg Hs Hp), handle_hpd_evt_table, b2z_asserted.
  unfold sampled. fields.
  destruct (spec_evt_table (state data) (fst (g (drv_data data))))
    as [ | target delay zero] eqn:Etab.
  - eexists. split; [reflexivity | ]. fields. filter_trace. repeat split.
  - destruct (spec_evt_table_target _ _ _ _ _ Etab) as (Ht & _).
    rewrite set_hpd_state_valid; [ | destruct zero; fields; exact Hs | exact Ht].
    eexists. split; [reflexivity | ].
    match goal with |- context [committed ?d ?t ?dl] =>
      destruct (committed_frame d t dl) as (_ & C2 & C3 & C4 & C5 & _);
      rewrite C2, C3, C4, C5, committed_calls end.
    destruct zero; fields; filter_trace; repeat split.
Qed.

(** X5. A run of the worker that finds no event pending in a state whose
    dispatch entry is NULL (DONE_DISABLED, DONE_ENABLED,
    INIT_FROM_BOOTLOADER) prints the warning and changes nothing: the state,
    the retry counter, the flags and the queue stay, no timer primitive is
    invoked, and the only client call is the sample of the signal. *)
Theorem idle_run_warns_and_keeps data (g : D -> bool * D) :
  get_hpd_state (ops data) = Some g ->
  state data = STATE_DONE_DISABLED \/ state data = STATE_DONE_ENABLED \/
  state data = STATE_INIT_FROM_BOOTLOADER ->
  pending_hpd_evt data = 0 ->
  exists data',
    hpd_worker data = Done data' /\
    state data' = state data /\
    edid_reads data' = edid_reads data /\
    dwork data' = dwork data /\
    shutdown data' = shutdown data /\
    pending_hpd_evt data' = 0 /\
    timer_events (trace data') = timer_events (trace data) /\
    calls (trace data') = calls (trace data) ++ [Call OpGetHpdState] /\
    last (trace data') (Info MsgBounce) = Warn (MsgNullHandler (state data)).
Proof.
  intros Hg Hst Hp.
  assert (Hs : valid_state (state data))
    by (destruct Hst as [E | [E | E]]; rewrite E; valid_const).
  rewrite (hpd_worker_dispatch data g Hg Hs Hp). cbv zeta.
  assert (Hn : nth (Z.to_nat (state data)) (state_machine_dispatch D) None = None)
    by (destruct Hst as [E | [E | E]]; rewrite E; reflexivity).
  rewrite Hn. eexists. split; [reflexivity | ].
  unfold sampled. fields. filter_trace.
  repeat split.
  match goal with |- last (?t ++ [?a; ?b; ?c]) _ = _ =>
    change (t ++ [a; b; c]) with (t ++ ([a; b] ++ [c]));
    rewrite app_assoc; apply last_last end.
Qed.

Lemma notified_more (n : nat) data :
  drv_data (notified n data) = drv_data data /\
  calls (trace (notified n data)) = calls (trace data) /\
  (dwork (notified (S n) data)
   = if shutdown data =? 0 then Some 0 else None).
Proof.
  destruct (notified_frame n data) as (_ & N2 & _).
  split; [ | split].
  - induction n as [ | n IH]; [reflexivity | ].
    cbn [notified]. unfold hpd_set_pending_evt.
    destruct (sched_hpd_work_frame (set_pending_hpd_evt 1 (notified n data)) 0)
      as (_ & _ & _ & F4 & _). rewrite F4. fields. apply IH.
    destruct (notified_frame n data) as (_ & M2 & _). exact M2.
  - induction n as [ | n IH]; [reflexivity | ].
    cbn [notified]. unfold hpd_set_pending_evt.
    rewrite sched_hpd_work_trace. fields. unfold calls in *.
    rewrite filter_app, IH.
    + destruct (queued_after (set_pending_hpd_evt 1 (notified n data)) 0);
        cbn; apply app_nil_r.
    + destruct (notified_frame n data) as (_ & M2 & _). exact M2.
  - cbn [notified]. unfold hpd_set_pending_evt.
    rewrite sched_hpd_work_dwork. unfold queued_after. fields. rewrite N2.
    reflexivity.
Qed.

(** An atomic run of the worker that returns leaves the pending flag
    clear. *)
Lemma hpd_worker_clears_pending data data' :
  hpd_worker data = Done data' -> pending_hpd_evt data' = 0.
Proof.
  intros Hrun. unfold hpd_worker in Hrun.
  destruct (hpd_worker_body_done_valid _ _ _ Hrun) as (Hv & _).
  pose proof (hpd_worker_body_sound (pending_hpd_evt data)
                (set_pending_hpd_evt 0 data) Hv) as Hsound.
  cbv zeta in Hrun. rewrite Hrun in Hsound.
  destruct Hsound as [data1 target delay Hp _ | data1 Hp _ _ _ | data1 Hp _ _ _];
    destruct Hp as (_ & _ & P3 & _); fields in P3.
  - destruct (committed_frame data1 target delay) as (_ & _ & C3 & _).
    rewrite C3. exact P3.
  - exact P3.
  - fields. exact P3.
Qed.

(** X6. Notifications coalesce: any number of them in a row, one or more,
    leaves what one leaves.  The pending flag is 1 and the worker is queued
    with delay 0 (not queued if the context is shutting down), whatever was
    queued before; the state, the retry counter and the client's data are
    untouched and no client operation is called.  The run of the worker
    that follows clears the flag, so the burst is handled once. *)
Theorem notifications_coalesce (n : nat) data :
  state (notified (S n) data) = state data /\
  edid_reads (notified (S n) data) = edid_reads data /\
  shutdown (notified (S n) data) = shutdown data /\
  ops (notified (S n) data) = ops data /\
  drv_data (notified (S n) data) = drv_data data /\
  calls (trace (notified (S n) data)) = calls (trace data) /\
  pending_hpd_evt (notified (S n) data) = 1 /\
  dwork (notified (S n) data) = dwork (hpd_set_pending_evt data) /\
  dwork (notified (S n) data) = (if shutdown data =? 0 then Some 0 else None) /\
  (forall data',
     hpd_worker (set_dwork None (notified (S n) data)) = Done data' ->
     pending_hpd_evt data' = 0).
Proof.
  destruct (notified_frame (S n) data) as (N1 & N2 & N3 & N4 & _ & N6).
  destruct (notified_more (S n) data) as (M1 & M2 & _).
  destruct (notified_more n data) as (_ & _ & M3).
  destruct (notified_more 0 data) as (_ & _ & M0).
  repeat split; try assumption.
  - rewrite M3. symmetry. exact M0.
  - intros data' Hrun. exact (hpd_worker_clears_pending _ _ Hrun).
Qed.

(** ** Sequences of runs *)

Lemma run_next (n : nat) data data1 :
  run_queued_work data = Done data1 -> run (S n) data = run n data1.
Proof. intros H. cbn [run bind]. rewrite H. reflexivity. Qed.

(** What a run leaves, told from the context before it, when that context
    is not shutting down. *)
Lemma ran_live data data' (st delay reads : Z) (x : D) (l : list event) :
  ran data data' st delay reads x l ->
  shutdown data = 0 ->
  state data' = st /\ pending_hpd_evt data' = 0 /\ shutdown data' = 0 /\
  dwork data' = (if delay >=? 0 then Some delay else None) /\
  edid_reads data' = reads /\ ops data' = ops data /\ drv_data data' = x /\
  calls (trace data') = calls (trace data) ++ l.
Proof.
  intros (R1 & R2 & R3 & R4 & R5 & R6 & R7 & R8) Hsh.
  unfold queued_after in R4. rewrite Hsh in R4. cbn [Z.eqb] in R4.
  rewrite Hsh in R3. repeat split; assumption.
Qed.

Lemma count_calls_of (c : collab) (t l : list event) :
  calls t = l -> count_calls c t = count_calls c l.
Proof.
  intros H. rewrite <- (count_calls_calls c t), H. reflexivity.
Qed.

Lemma count_calls_app (c : collab) (t l : list event) :
  count_calls c (t ++ l) = (count_calls c t + count_calls c l)%nat.
Proof. unfold count_calls. rewrite filter_app. apply length_app. Qed.

(** X9. Taking over from the bootloader.  A context in
    INIT_FROM_BOOTLOADER that is notified while the signal is asserted, and
    keeps sampling it asserted, reaches DONE_ENABLED in three runs of the
    worker when the first read of the EDID succeeds: through PLUG and
    CHECK_EDID, with nothing queued at the end, one read, one call of
    edid_ready (if the pointer is not NULL) and no call of disable, so the
    output the bootloader lit stays on. *)
Theorem bootloader_takeover_keeps_output data (g r : D -> bool * D)
    (x1 x2 x3 x4 x5 x6 : D) :
  get_hpd_state (ops data) = Some g ->
  edid_read (ops data) = Some r ->
  state data = STATE_INIT_FROM_BOOTLOADER ->
  shutdown data = 0 ->
  g (drv_data data) = (true, x1) ->
  g x1 = (true, x2) -> g x2 = (true, x3) ->
  g x3 = (true, x4) -> g x4 = (true, x5) ->
  r x5 = (true, x6) ->
  exists data1 data2 data3,
    run 1 (hpd_set_pending_evt data) = Done data1 /\
    state data1 = STATE_PLUG /\ dwork data1 = Some 40 /\
    run 2 (hpd_set_pending_evt data) = Done data2 /\
    state data2 = STATE_CHECK_EDID /\ dwork data2 = Some 60 /\
    edid_reads data2 = 0 /\
    run 3 (hpd_set_pending_evt data) = Done data3 /\
    state data3 = STATE_DONE_ENABLED /\ dwork data3 = None /\
    drv_data data3 = readied (ops data) x6 /\
    calls (trace data3)
    = calls (trace data) ++
        [Call OpGetHpdState; Call OpGetHpdState; Call OpGetHpdState;
         Call OpGetHpdState; Call OpGetHpdState; Call OpEdidRead] ++
        ready_calls (ops data) /\
    count_calls OpDisable (trace data3) = count_calls OpDisable (trace data).
Proof.
  intros Hg Hr Hst Hsh G1 G2 G3 G4 G5 R6.
  destruct (notify_facts data Hsh) as (N1 & N2 & N3 & N4 & N5 & N6 & N7 & N8).
  set (data0 := hpd_set_pending_evt data) in *.
  destruct (run_event data0 g STATE_PLUG 40 false) as (data1 & Hrun1 & Hran1).
  { rewrite N6. exact Hg. }
  { rewrite N1, Hst. valid_const. }
  { rewrite N2. discriminate. }
  { rewrite N4. discriminate. }
  { rewrite N1, Hst, N7, G1. reflexivity. }
  destruct (ran_live _ _ _ _ _ _ _ Hran1 N3) as (A1 & A2 & A3 & A4 & A5 & A6 & A7 & A8).
  rewrite N7, G1 in A7. cbn [snd] in A7. cbn in A4.
  rewrite N6 in A6. rewrite N8 in A8.
  destruct (run_plug_asserted data1 g) as (data2 & Hrun2 & Hran2).
  { rewrite A6. exact Hg. }
  { exact A1. }
  { exact A2. }
  { rewrite A4. discriminate. }
  { rewrite A7, G2. cbn [snd]. rewrite G3. reflexivity. }
  destruct (ran_live _ _ _ _ _ _ _ Hran2 A3) as (B1 & B2 & B3 & B4 & B5 & B6 & B7 & B8).
  rewrite A7, G2 in B7. cbn [snd] in B7. rewrite G3 in B7. cbn [snd] in B7.
  cbn in B4. rewrite A6 in B6. rewrite A8, <- app_assoc in B8.
  destruct (run_check_ready data2 g r) as (data3 & Hrun3 & Hran3).
  { rewrite B6. exact Hg. }
  { rewrite B6. exact Hr. }
  { exact B1. }
  { exact B2. }
  { rewrite B4. discriminate. }
  { rewrite B7, G4. cbn [snd]. rewrite G5. reflexivity. }
  { rewrite B7, G4. cbn [snd]. rewrite G5. cbn [snd]. rewrite R6. reflexivity. }
  destruct (ran_live _ _ _ _ _ _ _ Hran3 B3) as (C1 & C2 & C3 & C4 & C5 & C6 & C7 & C8).
  rewrite B7, G4 in C7. cbn [snd] in C7. rewrite G5 in C7. cbn [snd] in C7.
  rewrite R6 in C7. cbn [snd] in C7.
  cbn in C4. rewrite B6 in C7, C8. rewrite B8, <- app_assoc in C8.
  exists data1, data2, data3.
  split; [rewrite (run_next 0 data0 _ Hrun1); reflexivity | ].
  split; [exact A1 | ]. split; [exact A4 | ].
  split; [rewrite (run_next 1 data0 _ Hrun1), (run_next 0 data1 _ Hrun2);
          reflexivity | ].
  split; [exact B1 | ]. split; [exact B4 | ]. split; [exact B5 | ].
  split; [rewrite (run_next 2 data0 _ Hrun1), (run_next 1 data1 _ Hrun2),
            (run_next 0 data2 _ Hrun3); reflexivity | ].
  split; [exact C1 | ]. split; [exact C4 | ]. split; [exact C7 | ].
  split; [exact C8 | ].
  rewrite (count_calls_of OpDisable _ _ C8), count_calls_app,
    (count_calls_calls OpDisable).
  unfold ready_calls. destruct (edid_ready (ops data)); cbn; lia.
Qed.

(** X7. The drop timeout.  A context in DONE_ENABLED that is notified while
    the signal is low waits for the signal in WAIT_FOR_HPD_REASSERT with
    the worker queued after 1500 ms.  If no notification comes before the
    worker runs, that run goes to RESET with delay 0, and the next run
    calls disable (if the client has it) and goes to PLUG after 10 ms,
    whatever the signal reads in these two runs: without a notification a
    signal that came back is not seen.  The output is not disabled before
    the third run. *)
Theorem drop_timeout_disables data (g : D -> bool * D) (x1 : D) :
  get_hpd_state (ops data) = Some g ->
  state data = STATE_DONE_ENABLED ->
  shutdown data = 0 ->
  g (drv_data data) = (false, x1) ->
  exists data1 data2 data3,
    run 1 (hpd_set_pending_evt data) = Done data1 /\
    state data1 = STATE_WAIT_FOR_HPD_REASSERT /\ dwork data1 = Some 1500 /\
    run 2 (hpd_set_pending_evt data) = Done data2 /\
    state data2 = STATE_HPD_RESET /\ dwork data2 = Some 0 /\
    calls (trace data2)
    = calls (trace data) ++ [Call OpGetHpdState; Call OpGetHpdState] /\
    run 3 (hpd_set_pending_evt data) = Done data3 /\
    state data3 = STATE_PLUG /\ dwork data3 = Some 10 /\
    edid_reads data3 = edid_reads data /\
    drv_data data3 = disabled (ops data) (snd (g (snd (g x1)))) /\
    calls (trace data3)
    = calls (trace data) ++
        [Call OpGetHpdState; Call OpGetHpdState; Call OpGetHpdState] ++
        disable_calls (ops data).
Proof.
  intros Hg Hst Hsh G1.
  destruct (notify_facts data Hsh) as (N1 & N2 & N3 & N4 & N5 & N6 & N7 & N8).
  set (data0 := hpd_set_pending_evt data) in *.
  destruct (run_event data0 g STATE_WAIT_FOR_HPD_REASSERT 1500 false)
    as (data1 & Hrun1 & Hran1).
  { rewrite N6. exact Hg. }
  { rewrite N1, Hst. valid_const. }
  { rewrite N2. discriminate. }
  { rewrite N4. discriminate. }
  { rewrite N1, Hst, N7, G1. reflexivity. }
  destruct (ran_live _ _ _ _ _ _ _ Hran1 N3)
    as (A1 & A2 & A3 & A4 & A5 & A6 & A7 & A8).
  rewrite N7, G1 in A7. cbn [snd] in A7. cbn in A4.
  rewrite N6 in A6. rewrite N8 in A8. rewrite N5 in A5.
  destruct (run_wait_expired data1 g) as (data2 & Hrun2 & Hran2).
  { rewrite A6. exact Hg. }
  { exact A1. }
  { exact A2. }
  { rewrite A4. discriminate. }
  destruct (ran_live _ _ _ _ _ _ _ Hran2 A3)
    as (B1 & B2 & B3 & B4 & B5 & B6 & B7 & B8).
  rewrite A7 in B7. cbn in B4. rewrite A6 in B6. rewrite A5 in B5.
  rewrite A8, <- app_assoc in B8.
  destruct (run_reset data2 g) as (data3 & Hrun3 & Hran3).
  { rewrite B6. exact Hg. }
  { exact B1. }
  { exact B2. }
  { rewrite B4. discriminate. }
  destruct (ran_live _ _ _ _ _ _ _ Hran3 B3)
    as (C1 & C2 & C3 & C4 & C5 & C6 & C7 & C8).
  rewrite B7, B6 in C7. cbn in C4. rewrite B5 in C5.
  rewrite B6 in C8. rewrite B8, <- app_assoc in C8.
  exists data1, data2, data3.
  split; [rewrite (run_next 0 data0 _ Hrun1); reflexivity | ].
  split; [exact A1 | ]. split; [exact A4 | ].
  split; [rewrite (run_next 1 data0 _ Hrun1), (run_next 0 data1 _ Hrun2);
          reflexivity | ].
  split; [exact B1 | ]. split; [exact B4 | ]. split; [exact B8 | ].
  split; [rewrite (run_next 2 data0 _ Hrun1), (run_next 1 data1 _ Hrun2),
            (run_next 0 data2 _ Hrun3); reflexivity | ].
  split; [exact C1 | ]. split; [exact C4 | ]. split; [exact C5 | ].
  split; [exact C7 | ]. exact C8.
Qed.

(** X8. A drop that ends in time.  A context in DONE_ENABLED that is
    notified while the signal is low, and notified again while the signal is
    asserted before the drop timeout has run, rechecks the EDID: the second
    notification replaces the queued timeout, its run goes to RECHECK_EDID
    with the retry counter at 0, and when the recheck finds the EDID
    unchanged the machine is back in DONE_ENABLED with nothing queued.
    Over the whole episode disable, edid_read and edid_ready are not
    called. *)
Theorem drop_reassert_unchanged_keeps_output data (g : D -> bool * D)
    (k : D -> Z * D) (x1 x2 x4 : D) :
  get_hpd_state (ops data) = Some g ->
  edid_recheck (ops data) = Some k ->
  state data = STATE_DONE_ENABLED ->
  shutdown data = 0 ->
  g (drv_data data) = (false, x1) ->
  g x1 = (true, x2) ->
  k (snd (g x2)) = (0, x4) ->
  exists data1 data2 data3,
    run 1 (hpd_set_pending_evt data) = Done data1 /\
    state data1 = STATE_WAIT_FOR_HPD_REASSERT /\ dwork data1 = Some 1500 /\
    dwork (hpd_set_pending_evt data1) = Some 0 /\
    run 1 (hpd_set_pending_evt data1) = Done data2 /\
    state data2 = STATE_RECHECK_EDID /\ dwork data2 = Some 60 /\
    edid_reads data2 = 0 /\
    run 2 (hpd_set_pending_evt data1) = Done data3 /\
    state data3 = STATE_DONE_ENABLED /\ dwork data3 = None /\
    drv_data data3 = x4 /\
    calls (trace data3)
    = calls (trace data) ++
        [Call OpGetHpdState; Call OpGetHpdState; Call OpGetHpdState;
         Call OpEdidRecheck].
Proof.
  intros Hg Hk Hst Hsh G1 G2 K4.
  destruct (notify_facts data Hsh) as (N1 & N2 & N3 & N4 & N5 & N6 & N7 & N8).
  set (data0 := hpd_set_pending_evt data) in *.
  destruct (run_event data0 g STATE_WAIT_FOR_HPD_REASSERT 1500 false)
    as (data1 & Hrun1 & Hran1).
  { rewrite N6. exact Hg. }
  { rewrite N1, Hst. valid_const. }
  { rewrite N2. discriminate. }
  { rewrite N4. discriminate. }
  { rewrite N1, Hst, N7, G1. reflexivity. }
  destruct (ran_live _ _ _ _ _ _ _ Hran1 N3)
    as (A1 & A2 & A3 & A4 & A5 & A6 & A7 & A8).
  rewrite N7, G1 in A7. cbn [snd] in A7. cbn in A4.
  rewrite N6 in A6. rewrite N8 in A8.
  destruct (notify_facts data1 A3) as (M1 & M2 & M3 & M4 & M5 & M6 & M7 & M8).
  set (data1' := hpd_set_pending_evt data1) in *.
  rewrite A1 in M1. rewrite A6 in M6. rewrite A7 in M7. rewrite A8 in M8.
  destruct (run_event data1' g STATE_RECHECK_EDID 60 true)
    as (data2 & Hrun2 & Hran2).
  { rewrite M6. exact Hg. }
  { rewrite M1. valid_const. }
  { rewrite M2. discriminate. }
  { rewrite M4. discriminate. }
  { rewrite M1, M7, G2. reflexivity. }
  destruct (ran_live _ _ _ _ _ _ _ Hran2 M3)
    as (B1 & B2 & B3 & B4 & B5 & B6 & B7 & B8).
  rewrite M7, G2 in B7. cbn [snd] in B7. cbn in B4. rewrite M6 in B6.
  rewrite M8, <- app_assoc in B8.
  destruct (run_recheck_unchanged data2 g k) as (data3 & Hrun3 & Hran3).
  { rewrite B6. exact Hg. }
  { rewrite B6. exact Hk. }
  { exact B1. }
  { exact B2. }
  { rewrite B4. discriminate. }
  { rewrite B7, K4. reflexivity. }
  destruct (ran_live _ _ _ _ _ _ _ Hran3 B3)
    as (C1 & C2 & C3 & C4 & C5 & C6 & C7 & C8).
  rewrite B7, K4 in C7. cbn [snd] in C7. cbn in C4.
  rewrite B8, <- app_assoc in C8.
  exists data1, data2, data3. fold data1'.
  split; [rewrite (run_next 0 data0 _ Hrun1); reflexivity | ].
  split; [exact A1 | ]. split; [exact A4 | ]. split; [exact M4 | ].
  split; [rewrite (run_next 0 data1' _ Hrun2); reflexivity | ].
  split; [exact B1 | ]. split; [exact B4 | ]. split; [exact B5 | ].
  split; [rewrite (run_next 1 data1' _ Hrun2), (run_next 0 data2 _ Hrun3);
          reflexivity | ].
  split; [exact C1 | ]. split; [exact C4 | ]. split; [exact C7 | ].
  exact C8.
Qed.

(** ** The diagram of the states *)

Lemma arc_edge (evt : bool) (st reads target delay reads' : Z) :
  arc evt st reads target delay reads' -> edge st target = true.
Proof.
  intros Harc.
  destruct Harc as [st reads asserted target delay zero Etab | | | | | | | | | | | | ];
    try reflexivity.
  unfold spec_evt_table in Etab.
  destruct (Z.eqb_spec st STATE_DONE_ENABLED) as [E1 | _].
  { destruct asserted; [discriminate | ]. inversion Etab. subst. reflexivity. }
  destruct (Z.eqb_spec st STATE_WAIT_FOR_HPD_REASSERT) as [E2 | _].
  { destruct asserted; inversion Etab; subst; reflexivity. }
  destruct (Z.eqb_spec st STATE_INIT_FROM_BOOTLOADER) as [E3 | _].
  { destruct asserted; inversion Etab; subst; reflexivity. }
  inversion Etab. reflexivity.
Qed.

(** The delays of the arcs: a negative delay leads to a terminal state, and
    no arc taken on an event has one. *)
Lemma arc_delay (evt : bool) (st reads target delay reads' : Z) :
  arc evt st reads target delay reads' ->
  delay < 0 ->
  terminal_state target = true /\ evt = false.
Proof.
  intros Harc Hd.
  destruct Harc as [st reads asserted target delay zero Etab | | | | | | | | | | | | ];
    try (split; reflexivity);
    try (exfalso; unfold CHECK_PLUG_STATE_DELAY_MS, CHECK_EDID_DELAY_MS in Hd; lia).
  exfalso. unfold spec_evt_table in Etab.
  destruct (st =? STATE_DONE_ENABLED), (st =? STATE_WAIT_FOR_HPD_REASSERT),
    (st =? STATE_INIT_FROM_BOOTLOADER), asserted;
    try discriminate; inversion Etab; subst; lia.
Qed.

Lemma rank_bounds (st reads : Z) :
  0 <= reads <= MAX_EDID_READ_ATTEMPTS -> 0 <= rank st reads <= 13.
Proof.
  unfold rank, MAX_EDID_READ_ATTEMPTS. intros Hr.
  destruct (st =? STATE_CHECK_EDID), (st =? STATE_PLUG),
    (st =? STATE_HPD_RESET), (st =? STATE_WAIT_FOR_HPD_REASSERT),
    (st =? STATE_RECHECK_EDID); lia.
Qed.

Lemma rank_check (reads : Z) :
  rank STATE_CHECK_EDID reads = MAX_EDID_READ_ATTEMPTS - reads.
Proof. reflexivity. Qed.

Lemma rank_recheck (reads : Z) :
  rank STATE_RECHECK_EDID reads = 8 + (MAX_EDID_READ_ATTEMPTS - reads).
Proof. reflexivity. Qed.

(** An arc taken without an event and with a delay goes down in rank. *)
Lemma arc_rank (st reads target delay reads' : Z) :
  arc false st reads target delay reads' ->
  0 <= reads <= MAX_EDID_READ_ATTEMPTS ->
  0 <= delay ->
  rank target reads' < rank st reads.
Proof.
  intros Harc Hr Hd.
  inversion Harc; subst;
    rewrite ?rank_check, ?rank_recheck, ?(int_incr_counter reads Hr);
    try (change (rank STATE_PLUG reads') with 6);
    try (change (rank STATE_HPD_RESET reads') with 7);
    try (change (rank STATE_HPD_RESET reads) with 7);
    try (change (rank STATE_HPD_RESET (reads + 1)) with 7);
    try (change (rank STATE_PLUG reads) with 6);
    try (change (rank STATE_WAIT_FOR_HPD_REASSERT reads') with 8);
    try (change (rank STATE_WAIT_FOR_HPD_REASSERT reads) with 8);
    unfold MAX_EDID_READ_ATTEMPTS in *; try lia.
Qed.

Lemma runs_left_bounds data :
  0 <= edid_reads data <= MAX_EDID_READ_ATTEMPTS ->
  0 <= runs_left data <= 15 /\
  (dwork data <> None -> 1 <= runs_left data) /\
  (runs_left data <= 0 -> dwork data = None).
Proof.
  intros Hr. pose proof (rank_bounds (state data) _ Hr) as Hb.
  unfold runs_left.
  destruct (dwork data) as [ms | ];
    [destruct (pending_hpd_evt data =? 0) | ];
    (split; [lia | split; [intros; try lia; congruence | intros; try lia; reflexivity]]).
Qed.

(** One run of the queued worker, no notification racing with it: it
    returns, keeps the invariant, and leaves fewer runs to come; when it
    leaves nothing queued in a context that is not shutting down, the state
    is terminal. *)
Lemma run_decreases data :
  invariant data ->
  dwork data <> None ->
  exists data',
    run_queued_work data = Done data' /\
    invariant data' /\
    shutdown data' = shutdown data /\
    runs_left data' < runs_left data /\
    (shutdown data = 0 -> dwork data' = None ->
     terminal_state (state data') = true).
Proof.
  intros Hinv Hq.
  pose proof Hinv as (Hv & Hm & Hr & _ & _ & Hinit).
  destruct (runs_left_bounds data Hr) as (_ & Hpos & _).
  specialize (Hpos Hq).
  unfold run_queued_work.
  destruct (dwork data) as [ms | ] eqn:Edw; [clear Hq | congruence].
  unfold hpd_worker. cbv zeta.
  set (data0 := set_pending_hpd_evt 0 (set_dwork None data)).
  change (pending_hpd_evt (set_dwork None data)) with (pending_hpd_evt data).
  assert (Hv0 : valid_state (state data0)) by exact Hv.
  destruct (hpd_worker_body_returns (pending_hpd_evt data) data0 Hv0 Hm)
    as (data' & Hrun).
  exists data'. split; [exact Hrun | ].
  assert (Hinv' : invariant data')
    by exact (invariant_worker data data' ms 0 0 Hinv Edw Hrun).
  split; [exact Hinv' | ].
  pose proof Hinv' as (_ & _ & Hr' & _).
  pose proof (rank_bounds (state data') _ Hr') as Hb'.
  pose proof (hpd_worker_body_sound (pending_hpd_evt data) data0 Hv0) as Hsound.
  rewrite Hrun in Hsound.
  assert (Hleft : runs_left data
                  = if pending_hpd_evt data =? 0
                    then 1 + rank (state data) (edid_reads data) else 15)
    by (unfold runs_left; rewrite Edw; reflexivity).
  destruct Hsound
    as [data1 target delay Hp Harc | data1 Hp Hpend Hst Hreads
        | data1 Hp Hpend Hnull Hreads];
    destruct Hp as (P1 & P2 & P3 & P4 & _).
  - destruct (committed_frame data1 target delay) as (C1 & C2 & C3 & _ & _ & C6).
    pose proof (committed_dwork data1 target delay) as C7.
    rewrite P3 in C7. cbn [data0 pending_hpd_evt set_pending_hpd_evt Z.eqb] in C7.
    unfold queued_after in C7. rewrite P2 in C7.
    change (shutdown data0) with (shutdown data) in C7, P2.
    change (state data0) with (state data) in Harc.
    change (edid_reads data0) with (edid_reads data) in Harc.
    assert (P3' : pending_hpd_evt data1 = 0) by (rewrite P3; reflexivity).
    split; [rewrite C2; exact P2 | ].
    split.
    + unfold runs_left at 1. rewrite C7, C1, C3, C6, Hleft.
      rewrite C1, C6 in Hb'.
      destruct (Z.geb_spec delay 0) as [Hd | Hd].
      * destruct (Z.eqb_spec (pending_hpd_evt data) 0) as [E | E].
        -- pose proof (arc_rank _ _ _ _ _ Harc Hr ltac:(lia)) as Hlt.
           destruct (shutdown data =? 0); rewrite ?P3';
             change (0 =? 0) with true; cbv beta iota; lia.
        -- destruct (shutdown data =? 0); rewrite ?P3';
             change (0 =? 0) with true; cbv beta iota; lia.
      * lia.
    + intros Hsh Hnone. rewrite C7, Hsh in Hnone. cbn [Z.eqb] in Hnone.
      rewrite C1.
      destruct (Z.geb_spec delay 0) as [Hd | Hd]; [discriminate | ].
      apply (arc_delay _ _ _ _ _ _ Harc Hd).
  - change (dwork data0) with (@None Z) in P4.
    split; [exact P2 | ]. split.
    + unfold runs_left at 1. rewrite P4. lia.
    + intros _ _. rewrite P1, Hst. reflexivity.
  - split; [exact P2 | ]. split.
    + unfold runs_left at 1. fields. rewrite P4. cbn. lia.
    + intros _ _. fields. rewrite P1.
      apply (no_handler_states _ Hv Hnull).
      intros E. apply (Hinit E); [congruence | exact Hpend].
Qed.

Lemma run_settles (n : nat) :
  forall data,
    invariant data ->
    runs_left data <= Z.of_nat n ->
    exists data',
      run n data = Done data' /\
      dwork data' = None /\
      shutdown data' = shutdown data /\
      (shutdown data = 0 -> dwork data <> None ->
       terminal_state (state data') = true).
Proof.
  induction n as [ | n IH]; intros data Hinv Hleft.
  - pose proof Hinv as (_ & _ & Hr & _).
    destruct (runs_left_bounds data Hr) as (_ & _ & Hnone).
    exists data. split; [reflexivity | ].
    split; [apply Hnone; lia | ]. split; [reflexivity | ].
    intros _ Hq. exfalso. apply Hq, Hnone. lia.
  - destruct (dwork data) as [ms | ] eqn:Edw.
    + destruct (run_decreases data Hinv) as (data1 & Hrun & Hinv1 & Hsh1 & Hlt & Hterm);
        [congruence | ].
      destruct (IH data1 Hinv1 ltac:(lia)) as (data' & Hrun' & Hq' & Hsh' & Hterm').
      exists data'. split; [rewrite (run_next n data data1 Hrun); exact Hrun' | ].
      split; [exact Hq' | ]. split; [congruence | ].
      intros Hsh _.
      destruct (dwork data1) as [ms1 | ] eqn:Edw1.
      * apply Hterm'; congruence.
      * rewrite (run_rest n data1 Edw1) in Hrun'. inversion Hrun'. subst data'.
        apply Hterm; [exact Hsh | reflexivity].
    + exists data. split; [apply run_rest; exact Edw | ].
      split; [exact Edw | ]. split; [reflexivity | ].
      intros _ Hq. congruence.
Qed.

(** X10. The machine settles.  From any context the driver can reach, if no
    further event is notified the queued worker runs at most 15 times: every
    run returns, and after 15 runs (or more) nothing is queued.  If the
    context was not shutting down and the worker was queued, the machine has
    come to rest in DONE_DISABLED or DONE_ENABLED. *)
Theorem machine_settles data (n : nat) :
  reachable data ->
  (15 <= n)%nat ->
  exists data',
    run n data = Done data' /\
    dwork data' = None /\
    (shutdown data = 0 -> dwork data <> None ->
     state data' = STATE_DONE_DISABLED \/ state data' = STATE_DONE_ENABLED).
Proof.
  intros Hreach Hn.
  pose proof (reachable_invariant data Hreach) as Hinv.
  pose proof Hinv as (_ & _ & Hr & _).
  destruct (runs_left_bounds data Hr) as (Hb & _).
  destruct (run_settles n data Hinv ltac:(lia)) as (data' & Hrun & Hq & _ & Hterm).
  exists data'. split; [exact Hrun | ]. split; [exact Hq | ].
  intros Hsh Hqueued. specialize (Hterm Hsh Hqueued).
  unfold terminal_state in Hterm.
  apply orb_true_iff in Hterm. destruct Hterm as [E | E];
    apply Z.eqb_eq in E; [left | right]; exact E.
Qed.

(** X12. The diagram of the states.  A step of a context's life (a
    notification, a run of the worker with any notifications racing with
    it, a step of the shutdown) keeps the state or follows an edge of the
    diagram: RESET is entered from every state; PLUG from RESET and
    INIT_FROM_BOOTLOADER; CHECK_EDID from PLUG and itself; DONE_DISABLED
    from PLUG and CHECK_EDID; DONE_ENABLED from CHECK_EDID and
    RECHECK_EDID; WAIT_FOR_HPD_REASSERT from DONE_ENABLED; RECHECK_EDID
    from WAIT_FOR_HPD_REASSERT and itself; nothing enters
    INIT_FROM_BOOTLOADER. *)
Theorem step_follows_diagram data data' :
  step data data' ->
  state data' = state data \/ edge (state data) (state data') = true.
Proof.
  intros Hstep.
  destruct Hstep
    as [d | d d' ms early late Hq Hrun | d | d _ | d hook_first _].
  - left. destruct (notified_frame 1 d) as (N1 & _). exact N1.
  - destruct (worker_start early late d ms Hq) as (S1 & _).
    set (started := notified early (set_dwork None d)) in *.
    set (data2 := notified late (set_pending_hpd_evt 0 started)) in *.
    destruct (hpd_worker_body_done_valid _ _ _ Hrun) as (Hv & _).
    pose proof (hpd_worker_body_sound (pending_hpd_evt started) data2 Hv)
      as Hsound.
    rewrite Hrun in Hsound.
    destruct Hsound
      as [data1 target delay Hp Harc | data1 Hp _ _ _ | data1 Hp _ _ _];
      destruct Hp as (P1 & _).
    + right. destruct (committed_frame data1 target delay) as (C1 & _).
      rewrite C1, <- S1. exact (arc_edge _ _ _ _ _ _ Harc).
    + left. congruence.
    + left. fields. congruence.
  - left. reflexivity.
  - left. unfold call_if_present, cancel_delayed_work_sync.
    destruct (shutdown_op (ops d)); reflexivity.
  - left. destruct (across_shutdown_frame hook_first d) as (F1 & _). exact F1.
Qed.

(** X13. A boot without a display.  A context in INIT_FROM_BOOTLOADER that
    is notified while the signal is low, and samples it low again in PLUG,
    reaches DONE_DISABLED in three runs of the worker, through RESET and
    PLUG, and calls disable twice on the way (if the client has it): once
    leaving RESET and once leaving PLUG.  The EDID is not read. *)
Theorem unplugged_boot_disables_twice data (g : D -> bool * D) (x1 x5 : D) :
  get_hpd_state (ops data) = Some g ->
  state data = STATE_INIT_FROM_BOOTLOADER ->
  shutdown data = 0 ->
  g (drv_data data) = (false, x1) ->
  g (snd (g (disabled (ops data) (snd (g x1))))) = (false, x5) ->
  exists data1 data2 data3,
    run 1 (hpd_set_pending_evt data) = Done data1 /\
    state data1 = STATE_HPD_RESET /\ dwork data1 = Some 40 /\
    run 2 (hpd_set_pending_evt data) = Done data2 /\
    state data2 = STATE_PLUG /\ dwork data2 = Some 10 /\
    run 3 (hpd_set_pending_evt data) = Done data3 /\
    state data3 = STATE_DONE_DISABLED /\ dwork data3 = None /\
    drv_data data3 = disabled (ops data) x5 /\
    calls (trace data3)
    = calls (trace data) ++
        [Call OpGetHpdState; Call OpGetHpdState] ++ disable_calls (ops data) ++
        [Call OpGetHpdState; Call OpGetHpdState] ++ disable_calls (ops data) /\
    count_calls OpDisable (trace data3)
    = (count_calls OpDisable (trace data)
       + match disable (ops data) with Some _ => 2 | None => 0 end)%nat.
Proof.
  intros Hg Hst Hsh G1 G5.
  destruct (notify_facts data Hsh) as (N1 & N2 & N3 & N4 & N5 & N6 & N7 & N8).
  set (data0 := hpd_set_pending_evt data) in *.
  destruct (run_event data0 g STATE_HPD_RESET 40 false) as (data1 & Hrun1 & Hran1).
  { rewrite N6. exact Hg. }
  { rewrite N1, Hst. valid_const. }
  { rewrite N2. discriminate. }
  { rewrite N4. discriminate. }
  { rewrite N1, Hst, N7, G1. reflexivity. }
  destruct (ran_live _ _ _ _ _ _ _ Hran1 N3)
    as (A1 & A2 & A3 & A4 & A5 & A6 & A7 & A8).
  rewrite N7, G1 in A7. cbn [snd] in A7. cbn in A4.
  rewrite N6 in A6. rewrite N8 in A8.
  destruct (run_reset data1 g) as (data2 & Hrun2 & Hran2).
  { rewrite A6. exact Hg. }
  { exact A1. }
  { exact A2. }
  { rewrite A4. discriminate. }
  destruct (ran_live _ _ _ _ _ _ _ Hran2 A3)
    as (B1 & B2 & B3 & B4 & B5 & B6 & B7 & B8).
  rewrite A7, A6 in B7. cbn in B4. rewrite A6 in B8. rewrite A6 in B6.
  rewrite A8, <- app_assoc in B8.
  destruct (run_plug_unplugged data2 g) as (data3 & Hrun3 & Hran3).
  { rewrite B6. exact Hg. }
  { exact B1. }
  { exact B2. }
  { rewrite B4. discriminate. }
  { rewrite B7, G5. reflexivity. }
  destruct (ran_live _ _ _ _ _ _ _ Hran3 B3)
    as (C1 & C2 & C3 & C4 & C5 & C6 & C7 & C8).
  rewrite B7, G5, B6 in C7. cbn [snd] in C7. cbn in C4.
  rewrite B6 in C8. rewrite B8, <- app_assoc in C8.
  exists data1, data2, data3.
  split; [rewrite (run_next 0 data0 _ Hrun1); reflexivity | ].
  split; [exact A1 | ]. split; [exact A4 | ].
  split; [rewrite (run_next 1 data0 _ Hrun1), (run_next 0 data1 _ Hrun2);
          reflexivity | ].
  split; [exact B1 | ]. split; [exact B4 | ].
  split; [rewrite (run_next 2 data0 _ Hrun1), (run_next 1 data1 _ Hrun2),
            (run_next 0 data2 _ Hrun3); reflexivity | ].
  split; [exact C1 | ]. split; [exact C4 | ]. split; [exact C7 | ].
  assert (Hcalls :
    calls (trace data3)
    = calls (trace data) ++
        [Call OpGetHpdState; Call OpGetHpdState] ++ disable_calls (ops data) ++
        [Call OpGetHpdState; Call OpGetHpdState] ++ disable_calls (ops data)).
  { rewrite C8. cbn [app]. reflexivity. }
  split; [exact Hcalls | ].
  rewrite (count_calls_of OpDisable _ _ Hcalls), count_calls_app,
    (count_calls_calls OpDisable).
  unfold disable_calls. destruct (disable (ops data)); cbn; lia.
Qed.

(** ** No notification is lost *)

Lemma initial_pending (mem : hpd_data D) (drv : D) (o : hpd_ops D) data :
  hpd_init (Some mem) drv (Some o) = Done data -> pending_hpd_evt data = 0.
Proof.
  unfold hpd_init. destruct (missing_mandatory o); [discriminate | ].
  intros H. inversion H. reflexivity.
Qed.

Lemma pending_queued_step data data' :
  step data data' ->
  shutdown data' = 0 ->
  pending_hpd_evt data' <> 0 ->
  pending_hpd_evt data' = 1 /\ dwork data' = Some 0.
Proof.
  intros Hstep.
  destruct Hstep
    as [d | d d' ms early late Hq Hrun | d | d Hdown | d hook_first _];
    intros Hsh Hp.
  - destruct (notified_frame 1 d) as (_ & N2 & _). cbn [notified] in N2.
    rewrite N2 in Hsh.
    destruct (notify_facts d Hsh) as (_ & F2 & _ & F4 & _).
    split; assumption.
  - destruct (worker_start early late d ms Hq) as (_ & S2 & _).
    set (started := notified early (set_dwork None d)) in *.
    set (base := set_pending_hpd_evt 0 started) in *.
    destruct (hpd_worker_body_done_valid _ _ _ Hrun) as (Hv & _).
    pose proof (hpd_worker_body_sound (pending_hpd_evt started)
                  (notified late base) Hv) as Hsound.
    rewrite Hrun in Hsound.
    destruct (body_result_frame _ _ _ Hsound) as (W1 & _).
    rewrite W1 in Hsh.
    assert (Hin : pending_hpd_evt (notified late base) <> 0 ->
                  pending_hpd_evt (notified late base) = 1 /\
                  dwork (notified late base) = Some 0).
    { destruct late as [ | late]; [intros H; exfalso; apply H; reflexivity | ].
      intros _.
      destruct (notified_frame (S late) base) as (_ & N2 & _ & _ & _ & N6).
      destruct (notified_more late base) as (_ & _ & M3).
      rewrite N2 in Hsh. rewrite Hsh in M3. split; assumption. }
    destruct Hsound
      as [data1 target delay Pr _ | data1 Pr _ _ _ | data1 Pr _ _ _];
      destruct Pr as (_ & _ & P3 & P4 & _).
    + destruct (committed_frame data1 target delay) as (_ & _ & C3 & _).
      rewrite C3, P3 in Hp. destruct (Hin Hp) as (I1 & I2).
      rewrite C3, committed_dwork, P3, P4, I1, I2. split; reflexivity.
    + rewrite P3 in Hp. destruct (Hin Hp) as (I1 & I2).
      rewrite P3, P4. split; assumption.
    + fields in Hp. rewrite P3 in Hp. destruct (Hin Hp) as (I1 & I2).
      fields. rewrite P3, P4. split; assumption.
  - discriminate.
  - exfalso. apply Hdown. rewrite <- Hsh.
    unfold call_if_present, cancel_delayed_work_sync.
    destruct (shutdown_op (ops d)); reflexivity.
  - destruct (across_shutdown_frame hook_first d) as (_ & F2 & _).
    rewrite F2 in Hsh. discriminate.
Qed.

(** X14. No notification is lost.  In every context the driver can reach
    that is not shutting down, a pending event has the worker queued with
    delay 0: whenever the flag is set (it is 1 then), also by a notification
    that landed while the worker was running, a run of the worker is still
    to come. *)
Theorem pending_event_is_queued data :
  reachable data ->
  shutdown data = 0 ->
  pending_hpd_evt data <> 0 ->
  pending_hpd_evt data = 1 /\ dwork data = Some 0.
Proof.
  intros (mem & drv & o & data0 & _ & Hinit & Hsteps) Hsh Hp.
  destruct Hsteps as [d | d mid d' _ Hstep].
  - exfalso. apply Hp. exact (initial_pending mem drv o d Hinit).
  - exact (pending_queued_step mid d' Hstep Hsh Hp).
Qed.

(** ** Which state calls which operation *)

Lemma set_hpd_state_calls data data' (t r : Z) :
  set_hpd_state data t r = Done data' ->
  calls (trace data') = calls (trace data).
Proof.
  unfold set_hpd_state.
  destruct (state_name (state data)) as [from | ]; [ | discriminate].
  destruct (state_name t) as [to | ]; [ | discriminate].
  cbn [bind]. intros H. inversion H; subst data'; clear H. fields.
  destruct (pending_hpd_evt data =? 0).
  - rewrite sched_hpd_work_trace. fields.
    match goal with |- context [queued_after ?d ?r] =>
      destruct (queued_after d r) end;
      unfold calls; rewrite <- ?app_assoc, !filter_app; cbn;
      rewrite ?app_nil_r; reflexivity.
  - fields. unfold calls. rewrite filter_app. cbn. apply app_nil_r.
Qed.

Ltac commit_calls H :=
  rewrite (set_hpd_state_calls _ _ _ _ H); fields;
  unfold calls; rewrite <- ?app_assoc, ?filter_app;
  cbn [filter is_call app]; rewrite ?app_nil_r;
  eexists; split; [reflexivity | reflexivity].

(** The calls of one run of the body of the worker. *)
Lemma hpd_worker_body_calls (pending : Z) data data' :
  hpd_worker_body pending data = Done data' ->
  exists l,
    calls (trace data') = calls (trace data) ++ l /\
    forallb (called_in (state data)) l = true.
Proof.
  intros Hrun.
  destruct (hpd_worker_body_done_valid _ _ _ Hrun) as (Hv & Hget).
  destruct (get_hpd_state (ops data)) as [g | ] eqn:Hg; [clear Hget | congruence].
  destruct (Z.eq_dec pending 0) as [E0 | Hp].
  - subst pending.
    rewrite (hpd_worker_body_dispatch data g Hg Hv) in Hrun. cbv zeta in Hrun.
    unfold sampled_at in Hrun.
    destruct (g (drv_data data)) as [b x]. cbn [fst snd] in Hrun.
    destruct (valid_state_cases _ Hv)
      as [E | [E | [E | [E | [E | [E | [E | E]]]]]]];
      rewrite E in Hrun |- *.
    + change (nth (Z.to_nat 0) (state_machine_dispatch D) None)
        with (Some (@hpd_reset_state D)) in Hrun;
        cbv beta iota in Hrun.
      unfold hpd_reset_state, hpd_disable, call_if_present in Hrun.
      fields in Hrun.
      destruct (disable (ops data)); commit_calls Hrun.
    + change (nth (Z.to_nat 1) (state_machine_dispatch D) None)
        with (Some (@hpd_plug_state D)) in Hrun;
        cbv beta iota in Hrun.
      unfold hpd_plug_state, call_result, hpd_disable, call_if_present in Hrun.
      fields in Hrun. rewrite Hg in Hrun.
      destruct (g x) as [b2 x2]. cbn [bind] in Hrun. fields in Hrun.
      destruct b2; [commit_calls Hrun | ].
      destruct (disable (ops data)); commit_calls Hrun.
    + change (nth (Z.to_nat 2) (state_machine_dispatch D) None)
        with (Some (@edid_check_state D)) in Hrun;
        cbv beta iota in Hrun.
      unfold edid_check_state, end_disabled, call_result, hpd_disable,
        call_if_present in Hrun.
      fields in Hrun. rewrite Hg in Hrun.
      destruct (g x) as [b2 x2]. cbn [bind] in Hrun. fields in Hrun.
      destruct b2; cbn [negb] in Hrun.
      * destruct (edid_read (ops data)) as [r | ]; [ | discriminate].
        destruct (r x2) as [ok x3]. cbn [bind] in Hrun. fields in Hrun.
        destruct ok; cbn [negb] in Hrun.
        -- destruct (edid_ready (ops data)); commit_calls Hrun.
        -- match type of Hrun with context [?a >=? ?b] =>
             destruct (a >=? b) end;
             [destruct (disable (ops data)) | ]; commit_calls Hrun.
      * destruct (disable (ops data)); commit_calls Hrun.
    + change (nth (Z.to_nat 3) (state_machine_dispatch D) None)
        with (@None (dispatch_func_t D)) in Hrun;
        cbv beta iota in Hrun.
      inversion Hrun; subst data'; clear Hrun. fields.
      unfold calls; rewrite <- ?app_assoc, ?filter_app;
        cbn [filter is_call app]; rewrite ?app_nil_r.
      eexists; split; reflexivity.
    + change (nth (Z.to_nat 4) (state_machine_dispatch D) None)
        with (@None (dispatch_func_t D)) in Hrun;
        cbv beta iota in Hrun.
      inversion Hrun; subst data'; clear Hrun. fields.
      unfold calls; rewrite <- ?app_assoc, ?filter_app;
        cbn [filter is_call app]; rewrite ?app_nil_r.
      eexists; split; reflexivity.
    + change (nth (Z.to_nat 5) (state_machine_dispatch D) None)
        with (Some (@wait_for_hpd_reassert_state D)) in Hrun;
        cbv beta iota in Hrun.
      unfold wait_for_hpd_reassert_state in Hrun. commit_calls Hrun.
    + change (nth (Z.to_nat 6) (state_machine_dispatch D) None)
        with (Some (@edid_recheck_state D)) in Hrun;
        cbv beta iota in Hrun.
      unfold edid_recheck_state, call_result in Hrun. fields in Hrun.
      cbv zeta in Hrun.
      destruct (edid_recheck (ops data)) as [k | ]; [ | discriminate].
      destruct (k x) as [status x2]. cbn [bind] in Hrun. fields in Hrun.
      destruct (status =? -1).
      * match type of Hrun with context [?a >=? ?b] =>
          destruct (a >=? b) end; commit_calls Hrun.
      * destruct (status =? 0); commit_calls Hrun.
    + change (nth (Z.to_nat 7) (state_machine_dispatch D) None)
        with (@None (dispatch_func_t D)) in Hrun;
        cbv beta iota in Hrun.
      inversion Hrun; subst data'; clear Hrun. fields.
      unfold calls; rewrite <- ?app_assoc, ?filter_app;
        cbn [filter is_call app]; rewrite ?app_nil_r.
      eexists; split; reflexivity.
  - rewrite (hpd_worker_body_pending pending data g Hg Hv Hp),
      handle_hpd_evt_table in Hrun.
    unfold sampled_at in Hrun.
    destruct (g (drv_data data)) as [b x]. cbn [fst snd] in Hrun.
    fields in Hrun.
    destruct (spec_evt_table (state data) (negb (Z.b2z b =? 0)))
      as [ | target delay zero].
    + inversion Hrun; subst data'; clear Hrun. fields.
      unfold calls; rewrite <- ?app_assoc, ?filter_app;
        cbn [filter is_call app]; rewrite ?app_nil_r.
      eexists; split; reflexivity.
    + destruct zero; commit_calls Hrun.
Qed.

(** X15. Which state calls which operation.  The calls a step of a context's
    life makes (a notification, a run of the worker with any notifications
    racing with it, a step of the shutdown) are added to the history, and
    each is allowed in the state the step starts in: disable is called from
    RESET, PLUG and CHECK_EDID only, the read of the EDID and edid_ready
    from CHECK_EDID only, the recheck from RECHECK_EDID only, init never.
    A step that starts in DONE_ENABLED, WAIT_FOR_HPD_REASSERT or
    RECHECK_EDID does not disable the output. *)
Theorem step_calls_by_state data data' :
  step data data' ->
  (exists l,
     calls (trace data') = calls (trace data) ++ l /\
     forallb (called_in (state data)) l = true) /\
  (forall c,
     may_call c (state data) = false ->
     count_calls c (trace data') = count_calls c (trace data)).
Proof.
  intros Hstep.
  assert (Hl : exists l,
             calls (trace data') = calls (trace data) ++ l /\
             forallb (called_in (state data)) l = true).
  { destruct Hstep
      as [d | d d' ms early late Hq Hrun | d | d _ | d hook_first _].
    - destruct (notified_more 1 d) as (_ & M2 & _). cbn [notified] in M2.
      exists []. rewrite M2, app_nil_r. split; reflexivity.
    - destruct (worker_start early late d ms Hq) as (S1 & _).
      set (started := notified early (set_dwork None d)) in *.
      set (base := set_pending_hpd_evt 0 started) in *.
      destruct (hpd_worker_body_calls _ _ _ Hrun) as (l & Hcalls & Hall).
      destruct (notified_more late base) as (_ & M2 & _).
      destruct (notified_more early (set_dwork None d)) as (_ & M3 & _).
      exists l. rewrite Hcalls, M2, <- S1. split; [ | exact Hall].
      unfold base. fields. unfold started. rewrite M3. reflexivity.
    - exists []. fields. rewrite app_nil_r. split; reflexivity.
    - unfold call_if_present, cancel_delayed_work_sync.
      destruct (shutdown_op (ops d)); fields;
        unfold calls; rewrite <- ?app_assoc, ?filter_app;
        cbn [filter is_call app];
        eexists; split; reflexivity.
    - rewrite across_shutdown_trace. unfold calls. rewrite filter_app.
      destruct hook_first, (shutdown_op (ops d)); cbn [filter is_call];
        eexists; split; reflexivity. }
  split; [exact Hl | ].
  destruct Hl as (l & Hcalls & Hall).
  intros c Hmay.
  rewrite (count_calls_of c _ _ Hcalls), count_calls_app, count_calls_calls.
  assert (Hzero : count_calls c l = 0%nat).
  { clear Hcalls. induction l as [ | e l IH]; [reflexivity | ].
    cbn [forallb] in Hall. apply andb_true_iff in Hall. destruct Hall as (He & Hrest).
    unfold count_calls in *. cbn [filter].
    destruct e as [c' | | | | | ]; cbn [is_call_of]; try (apply IH; exact Hrest).
    cbn [called_in] in He.
    destruct c', c; try (apply IH; exact Hrest); congruence. }
  rewrite Hzero. lia.
Qed.

(** ** After the shutdown *)

Lemma after_sync_none (t : list event) :
  filter is_sync t = [] -> after_sync t = [].
Proof.
  induction t as [ | e t IH]; [reflexivity | ].
  destruct e; cbn [filter is_sync after_sync]; try exact IH. discriminate.
Qed.

Lemma after_sync_app_none (t l : list event) :
  filter is_sync t = [] -> after_sync (t ++ l) = after_sync l.
Proof.
  induction t as [ | e t IH]; [reflexivity | ].
  destruct e; cbn [filter is_sync after_sync app]; try exact IH. discriminate.
Qed.

Lemma after_sync_schedules (l : list event) :
  filter is_schedule l = [] -> filter is_schedule (after_sync l) = [].
Proof.
  induction l as [ | e l IH]; [reflexivity | ].
  destruct e; cbn [filter is_schedule after_sync]; try exact IH.
  - intros H. exact H.
  - discriminate.
Qed.

Lemma after_sync_app_quiet (t l : list event) :
  filter is_schedule l = [] ->
  filter is_schedule (after_sync (t ++ l)) = filter is_schedule (after_sync t).
Proof.
  intros Hl. induction t as [ | e t IH].
  - apply after_sync_schedules, Hl.
  - destruct e; cbn [after_sync app]; try exact IH.
    rewrite filter_app, Hl. apply app_nil_r.
Qed.

Lemma quiet_no_sync (l : list event) :
  forallb is_quiet l = true -> filter is_sync l = [].
Proof.
  induction l as [ | e l IH]; [reflexivity | ].
  cbn [forallb]. intros H. apply andb_prop in H. destruct H as [He Hl].
  destruct e; try discriminate He; cbn [filter is_sync]; exact (IH Hl).
Qed.

(** What a notification, and the commit of a transition, add to the
    history: no [cancel_delayed_work_sync], and no [schedule_delayed_work]
    in a context that is shutting down. *)
Lemma sched_hpd_work_extends data (r : Z) :
  exists l,
    trace (sched_hpd_work data r) = trace data ++ l /\
    filter is_sync l = [] /\
    (shutdown data <> 0 -> filter is_schedule l = []).
Proof.
  eexists. split; [apply sched_hpd_work_trace | ].
  unfold queued_after.
  destruct (r >=? 0), (Z.eqb_spec (shutdown data) 0);
    (split; [reflexivity | intros H; try reflexivity; congruence]).
Qed.

Lemma notified_extends (n : nat) data :
  exists l,
    trace (notified n data) = trace data ++ l /\
    filter is_sync l = [] /\
    (shutdown data <> 0 -> filter is_schedule l = []).
Proof.
  induction n as [ | n (l & I1 & I2 & I3)].
  - exists []. rewrite app_nil_r. repeat split.
  - cbn [notified]. unfold hpd_set_pending_evt.
    destruct (sched_hpd_work_extends (set_pending_hpd_evt 1 (notified n data)) 0)
      as (l' & E1 & E2 & E3).
    destruct (notified_frame n data) as (_ & N2 & _).
    fields in E1. fields in E3. rewrite N2 in E3.
    exists (l ++ l'). rewrite E1, I1, <- app_assoc.
    split; [reflexivity | ].
    rewrite !filter_app, I2, E2.
    split; [reflexivity | ].
    intros Hsh. rewrite (I3 Hsh), (E3 Hsh). reflexivity.
Qed.

Lemma body_result_extends (pending : Z) data data' :
  body_result pending data data' ->
  exists l,
    trace data' = trace data ++ l /\
    filter is_sync l = [] /\
    (shutdown data <> 0 -> filter is_schedule l = []).
Proof.
  intros [data1 target delay Hp _ | data1 Hp _ _ _ | data1 Hp _ _ _];
    destruct Hp as (_ & P2 & _ & _ & _ & l & Hl & Hquiet);
    destruct (quiet_filters l Hquiet) as (Q1 & _);
    pose proof (quiet_no_sync l Hquiet) as Q2.
  - rewrite committed_trace, Hl, <- app_assoc. eexists.
    split; [reflexivity | ].
    rewrite !filter_app, Q1, Q2. unfold queued_after. rewrite P2.
    destruct (pending_hpd_evt data1 =? 0), (delay >=? 0),
      (Z.eqb_spec (shutdown data) 0);
      (split; [reflexivity | intros H; try reflexivity; congruence]).
  - exists l. split; [exact Hl | ]. split; [exact Q2 | intros _; exact Q1].
  - fields. rewrite Hl, <- app_assoc. eexists. split; [reflexivity | ].
    rewrite !filter_app, Q1, Q2. split; [reflexivity | intros _; reflexivity].
Qed.

(** A run of the worker in a context that is shutting down leaves nothing
    queued, whatever notifications race with it. *)
Lemma worker_step_shutting_down data data' (ms : Z) (early late : nat) :
  shutdown data <> 0 ->
  dwork data = Some ms ->
  hpd_worker_body
    (pending_hpd_evt (notified early (set_dwork None data)))
    (notified late
       (set_pending_hpd_evt 0 (notified early (set_dwork None data))))
  = Done data' ->
  dwork data' = None /\ shutdown data' <> 0.
Proof.
  intros Hsh Hq Hrun.
  destruct (worker_start early late data ms Hq) as (_ & S2 & _).
  set (started := notified early (set_dwork None data)) in *.
  set (data2 := notified late (set_pending_hpd_evt 0 started)) in *.
  destruct (hpd_worker_body_done_valid _ _ _ Hrun) as (Hv & _).
  pose proof (hpd_worker_body_sound (pending_hpd_evt started) data2 Hv)
    as Hsound.
  rewrite Hrun in Hsound.
  assert (Hsh2 : shutdown data2 <> 0) by (rewrite S2; exact Hsh).
  destruct (body_result_frame _ _ _ Hsound) as (W1 & _ & _ & W4).
  assert (Hs1 : shutdown started <> 0).
  { unfold started.
    destruct (notified_frame early (set_dwork None data)) as (_ & N2 & _).
    rewrite N2. exact Hsh. }
  assert (Hq1 : dwork started = None).
  { destruct (notified_shutdown early (set_dwork None data) Hsh) as (_ & M). 
    apply M. reflexivity. }
  assert (Hq2 : dwork data2 = None).
  { destruct (notified_shutdown late (set_pending_hpd_evt 0 started) Hs1)
      as (_ & M).
    apply M. exact Hq1. }
  split; [ | rewrite W1; exact Hsh2].
  destruct (W4 Hsh2) as [E | E]; [exact E | rewrite E; exact Hq2].
Qed.

(** What a step adds to the history after the shutdown's cancel. *)
Lemma after_sync_step data data' :
  step data data' ->
  (shutdown data = 0 -> filter is_sync (trace data) = []) ->
  (shutdown data' = 0 -> filter is_sync (trace data') = []) /\
  (filter is_schedule (after_sync (trace data'))
   = filter is_schedule (after_sync (trace data)) \/
   filter is_schedule (after_sync (trace data)) = [] /\
   filter is_schedule (after_sync (trace data')) = [ScheduleWork 0]).
Proof.
  intros Hstep Hclean.
  assert (Hplain : forall l,
            trace data' = trace data ++ l ->
            filter is_sync l = [] ->
            (shutdown data <> 0 -> filter is_schedule l = []) ->
            (shutdown data <> 0 -> shutdown data' <> 0) ->
            (shutdown data' = 0 -> filter is_sync (trace data') = []) /\
            (filter is_schedule (after_sync (trace data'))
             = filter is_schedule (after_sync (trace data)) \/
             filter is_schedule (after_sync (trace data)) = [] /\
             filter is_schedule (after_sync (trace data')) = [ScheduleWork 0])).
  { intros l Hl Hsync Hsched Hkeep.
    destruct (Z.eq_dec (shutdown data) 0) as [E | E].
    - pose proof (Hclean E) as Hc.
      assert (Hc' : filter is_sync (trace data') = [])
        by (rewrite Hl, filter_app, Hc, Hsync; reflexivity).
      split; [intros _; exact Hc' | ].
      left. rewrite (after_sync_none _ Hc'), (after_sync_none _ Hc).
      reflexivity.
    - split; [intros E'; exfalso; exact (Hkeep E E') | ].
      left. rewrite Hl. apply after_sync_app_quiet, Hsched, E. }
  revert Hclean Hplain.
  destruct Hstep
    as [d | d d' ms early late Hq Hrun | d | d Hdown | d hook_first Hclear];
    intros Hclean Hplain.
  - destruct (notified_extends 1 d) as (l & E1 & E2 & E3).
    destruct (notified_frame 1 d) as (_ & N2 & _).
    cbn [notified] in E1, N2.
    apply (Hplain l E1 E2 E3). rewrite N2. intros H; exact H.
  - destruct (worker_start early late d ms Hq) as (_ & S2 & _).
    set (started := notified early (set_dwork None d)) in *.
    set (data2 := notified late (set_pending_hpd_evt 0 started)) in *.
    destruct (hpd_worker_body_done_valid _ _ _ Hrun) as (Hv & _).
    pose proof (hpd_worker_body_sound (pending_hpd_evt started) data2 Hv)
      as Hsound.
    rewrite Hrun in Hsound.
    destruct (body_result_frame _ _ _ Hsound) as (W1 & _).
    destruct (body_result_extends _ _ _ Hsound) as (l3 & B1 & B2 & B3).
    destruct (notified_extends late (set_pending_hpd_evt 0 started))
      as (l2 & L1 & L2 & L3).
    destruct (notified_extends early (set_dwork None d)) as (l1 & A1 & A2 & A3).
    destruct (notified_frame early (set_dwork None d)) as (_ & N2 & _).
    fold started in A1, N2. fold data2 in L1.
    fields in L1. fields in L3. fields in A1. fields in A3. fields in N2.
    rewrite N2 in L3. rewrite S2 in B3.
    apply (Hplain (l1 ++ l2 ++ l3)).
    + rewrite B1, L1, A1, <- !app_assoc. reflexivity.
    + rewrite !filter_app, A2, L2, B2. reflexivity.
    + intros Hsh. rewrite !filter_app, (A3 Hsh), (L3 Hsh), (B3 Hsh). reflexivity.
    + rewrite W1, S2. intros H; exact H.
  - apply (Hplain []); fields; try reflexivity.
    + symmetry. apply app_nil_r.
    + intros _. discriminate.
  - split.
    + intros E. exfalso. apply Hdown. rewrite <- E.
      unfold call_if_present, cancel_delayed_work_sync.
      destruct (shutdown_op (ops d)); reflexivity.
    + left.
      assert (Ht : exists l,
                trace (call_if_present OpShutdown (shutdown_op (ops d))
                         (cancel_delayed_work_sync d))
                = trace d ++ l /\ filter is_schedule l = []).
      { unfold call_if_present, cancel_delayed_work_sync.
        destruct (shutdown_op (ops d)); fields; rewrite <- ?app_assoc;
          eexists; split; reflexivity. }
      destruct Ht as (l & Hl & Hs). rewrite Hl.
      apply after_sync_app_quiet, Hs.
  - destruct (across_shutdown_frame hook_first d) as (_ & F2 & _).
    split; [rewrite F2; discriminate | ].
    right. pose proof (Hclean Hclear) as Hc.
    split; [rewrite (after_sync_none _ Hc); reflexivity | ].
    rewrite across_shutdown_trace, (after_sync_app_none _ _ Hc).
    destruct hook_first, (shutdown_op (ops d)); reflexivity.
Qed.

Lemma after_sync_steps data data' :
  steps data data' ->
  (shutdown data = 0 -> filter is_sync (trace data) = []) ->
  filter is_schedule (after_sync (trace data)) = [] ->
  (shutdown data' = 0 -> filter is_sync (trace data') = []) /\
  (filter is_schedule (after_sync (trace data')) = [] \/
   filter is_schedule (after_sync (trace data')) = [ScheduleWork 0]).
Proof.
  intros Hsteps Hclean Hnone.
  induction Hsteps as [d | d mid d' _ IH Hstep].
  - split; [exact Hclean | left; exact Hnone].
  - destruct (IH Hclean Hnone) as (I1 & I2).
    destruct (after_sync_step mid d' Hstep I1) as (J1 & J2).
    split; [exact J1 | ].
    destruct J2 as [E | (_ & E)]; [rewrite E; exact I2 | right; exact E].
Qed.

(** X11. The shutdown's cancel is followed by one call of
    [schedule_delayed_work] at most.  In the history of every context the
    driver can reach, what follows the return of the first
    [cancel_delayed_work_sync] holds no call of [schedule_delayed_work], or
    exactly one, with delay 0:
    that of a notification which found the shutdown flag clear before
    [hpd_shutdown] ran.  Once the cancel is in the history the flag is set;
    and with the flag set a run of the worker, whatever notifications race
    with it, leaves nothing queued: the worker queued by that notification
    runs once. *)
Theorem one_schedule_after_shutdown_at_most data :
  reachable data ->
  (filter is_schedule (after_sync (trace data)) = [] \/
   filter is_schedule (after_sync (trace data)) = [ScheduleWork 0]) /\
  (scheduled (after_sync (trace data)) <= 1)%nat /\
  (In CancelWorkSync (trace data) -> shutdown data <> 0) /\
  (shutdown data <> 0 ->
   forall data' (ms : Z) (early late : nat),
     dwork data = Some ms ->
     hpd_worker_body
       (pending_hpd_evt (notified early (set_dwork None data)))
       (notified late
          (set_pending_hpd_evt 0 (notified early (set_dwork None data))))
     = Done data' ->
     dwork data' = None /\ shutdown data' <> 0).
Proof.
  intros (mem & drv & o & data0 & Hmem & Hinit & Hsteps).
  assert (H0 : filter is_sync (trace data0) = [] /\
               filter is_schedule (after_sync (trace data0)) = []).
  { unfold hpd_init in Hinit.
    destruct (missing_mandatory o); [discriminate | ].
    inversion Hinit; subst data0; clear Hinit. fields. rewrite Hmem.
    destruct (init o); split; reflexivity. }
  destruct H0 as (Hs0 & Ha0).
  destruct (after_sync_steps data0 data Hsteps (fun _ => Hs0) Ha0) as (K1 & K2).
  split; [exact K2 | ].
  split; [unfold scheduled; destruct K2 as [E | E]; rewrite E; cbn; lia | ].
  split.
  - intros Hin Hclear.
    pose proof (K1 Hclear) as Hnone.
    assert (Hin' : In CancelWorkSync (filter is_sync (trace data)))
      by (apply filter_In; split; [exact Hin | reflexivity]).
    rewrite Hnone in Hin'. exact Hin'.
  - intros Hsh data' ms early late Hq Hrun.
    exact (worker_step_shutting_down data data' ms early late Hsh Hq Hrun).
Qed.

End Facts.








(** ** The properties on the sample client *)

Lemma hpd_worker_event_table_witness :
  let data := sample_data 0 STATE_WAIT_FOR_HPD_REASSERT 1 3 None in
  get_hpd_state (ops data) = Some (fun n => (true, S n)) /\
  valid_state (state data) /\
  pending_hpd_evt data <> 0 /\
  exists data',
    hpd_worker data = Done data' /\
    state data' = STATE_RECHECK_EDID /\
    edid_reads data' = 0 /\
    dwork data' = Some 60.
Proof.
  cbv zeta.
  assert (Hv : valid_state (state (sample_data 0 STATE_WAIT_FOR_HPD_REASSERT 1 3 None)))
    by (vm_compute; split; congruence).
  assert (Hp : pending_hpd_evt (sample_data 0 STATE_WAIT_FOR_HPD_REASSERT 1 3 None) <> 0)
    by (vm_compute; congruence).
  split; [reflexivity | ]. split; [exact Hv | ]. split; [exact Hp | ].
  destruct (hpd_worker_event_table nat
              (sample_data 0 STATE_WAIT_FOR_HPD_REASSERT 1 3 None)
              (fun n => (true, S n)) eq_refl Hv Hp)
    as (data' & Hrun & _ & Htab).
  exists data'. split; [exact Hrun | ].
  cbn in Htab. destruct Htab as (_ & H1 & H2 & H3 & _).
  repeat split; assumption.
Defined.

Lemma set_hpd_state_pending_rule_witness :
  let data := sample_data 0 STATE_CHECK_EDID 1 0 (Some 0) in
  valid_state (state data) /\
  valid_state STATE_DONE_ENABLED /\
  exists data',
    set_hpd_state data STATE_DONE_ENABLED (-1) = Done data' /\
    state data' = STATE_DONE_ENABLED /\
    dwork data' = Some 0.
Proof.
  cbv zeta.
  assert (Hv : valid_state (state (sample_data 0 STATE_CHECK_EDID 1 0 (Some 0))))
    by (vm_compute; split; congruence).
  assert (Ht : valid_state STATE_DONE_ENABLED) by (vm_compute; split; congruence).
  split; [exact Hv | ]. split; [exact Ht | ].
  destruct (set_hpd_state_pending_rule nat
              (sample_data 0 STATE_CHECK_EDID 1 0 (Some 0))
              STATE_DONE_ENABLED (-1) Hv Ht)
    as ((data' & Hset & Hst & Hskip & _) & _).
  exists data'. split; [exact Hset | ]. split; [exact Hst | ].
  apply Hskip. vm_compute. congruence.
Defined.

Lemma edid_check_state_retries_witness :
  let data := sample_data 0 STATE_CHECK_EDID 0 0 (Some 60) in
  get_hpd_state (ops data) = Some (fun n => (true, S n)) /\
  edid_read (ops data) = Some (fun n => (false, S n)) /\
  valid_state (state data) /\
  exists data5,
    run 5 data = Done data5 /\
    state data5 = STATE_DONE_DISABLED /\
    dwork data5 = None /\
    count_calls OpEdidRead (trace data5) = 5%nat /\
    count_calls OpDisable (trace data5) = 1%nat.
Proof.
  cbv zeta.
  assert (Hv : valid_state (state (sample_data 0 STATE_CHECK_EDID 0 0 (Some 60))))
    by (vm_compute; split; congruence).
  split; [reflexivity | ]. split; [reflexivity | ]. split; [exact Hv | ].
  destruct (edid_check_state_retries nat
              (sample_data 0 STATE_CHECK_EDID 0 0 (Some 60))
              (fun n => (true, S n)) (fun n => (false, S n)) eq_refl eq_refl Hv)
    as (_ & _ & Hfive).
  destruct Hfive as (data5 & Hrun & _ & Hst & Hq & _ & Hreads & Hdis & _).
  - reflexivity.
  - reflexivity.
  - reflexivity.
  - reflexivity.
  - vm_compute. congruence.
  - vm_compute. repeat split.
  - exists data5. repeat split; assumption.
Defined.

Lemma edid_recheck_state_table_witness :
  let first := sample_data 0 STATE_RECHECK_EDID 0 0 None in
  let fifth := sample_data 0 STATE_RECHECK_EDID 0 4 None in
  edid_recheck (ops first) = Some (fun n => (-1, S n)) /\
  edid_recheck (ops fifth) = Some (fun n => (-1, S n)) /\
  valid_state (state first) /\
  valid_state (state fifth) /\
  (exists data',
     edid_recheck_state first = Done data' /\
     edid_reads data' = 1 /\
     state data' = STATE_RECHECK_EDID /\
     dwork data' = Some 60) /\
  (exists data',
     edid_recheck_state fifth = Done data' /\
     edid_reads data' = 5 /\
     state data' = STATE_HPD_RESET /\
     dwork data' = Some 0).
Proof.
  cbv zeta.
  assert (Hv0 : valid_state (state (sample_data 0 STATE_RECHECK_EDID 0 0 None)))
    by (vm_compute; split; congruence).
  assert (Hv4 : valid_state (state (sample_data 0 STATE_RECHECK_EDID 0 4 None)))
    by (vm_compute; split; congruence).
  split; [reflexivity | ]. split; [reflexivity | ].
  split; [exact Hv0 | ]. split; [exact Hv4 | ].
  split.
  - destruct (edid_recheck_state_table nat
                (sample_data 0 STATE_RECHECK_EDID 0 0 None)
                (fun n => (-1, S n)) eq_refl Hv0)
      as ((data' & Hrun & _ & _ & _ & Hfail & _) & _).
    destruct (Hfail eq_refl) as (Hreads & Hretry & _).
    destruct Hretry as ((Hst & _) & Hq); [vm_compute; split; congruence | ].
    exists data'. split; [exact Hrun | ].
    split; [apply Hreads; vm_compute; split; congruence | ].
    split; [exact Hst | apply Hq; reflexivity].
  - destruct (edid_recheck_state_table nat
                (sample_data 0 STATE_RECHECK_EDID 0 4 None)
                (fun n => (-1, S n)) eq_refl Hv4)
      as ((data' & Hrun & _ & _ & _ & Hfail & _) & _).
    destruct (Hfail eq_refl) as (Hreads & _ & Hup & _).
    destruct Hup as ((Hst & _) & Hq); [vm_compute; split; congruence | ].
    exists data'. split; [exact Hrun | ].
    split; [apply Hreads; vm_compute; split; congruence | ].
    split; [exact Hst | apply Hq; reflexivity].
Defined.

Lemma shutdown_suppresses_scheduling_witness :
  let down := sample_data 1 STATE_CHECK_EDID 0 2 (Some 60) in
  shutdown down <> 0 /\
  dwork (sched_hpd_work down 60) = None /\
  dwork (hpd_set_pending_evt down) = None /\
  shutdown booted = 0 /\
  step booted (hpd_set_pending_evt_across_shutdown true booted) /\
  shutdown (hpd_set_pending_evt_across_shutdown true booted) = 1 /\
  dwork (hpd_set_pending_evt_across_shutdown true booted) = Some 0 /\
  timer_events (trace (hpd_set_pending_evt_across_shutdown true booted))
  = [CancelWork; CancelWorkSync; ScheduleWork 0] /\
  exists data'',
    run_queued_work (hpd_set_pending_evt_across_shutdown true booted)
    = Done data'' /\
    dwork data'' = None /\
    calls (trace data'')
    = [Call OpInit; Call OpShutdown; Call OpGetHpdState].
Proof.
  cbv zeta.
  assert (Hsh : shutdown (sample_data 1 STATE_CHECK_EDID 0 2 (Some 60)) <> 0)
    by (vm_compute; congruence).
  assert (Hv : valid_state (state booted)) by (vm_compute; split; congruence).
  split; [exact Hsh | ].
  destruct (shutdown_suppresses_scheduling nat
              (sample_data 1 STATE_CHECK_EDID 0 2 (Some 60)))
    as (Hpass & _).
  destruct (Hpass Hsh) as (Hsched & (Hnotify & _) & _).
  split; [apply (Hsched 60) | ]. split; [exact Hnotify | ].
  split; [reflexivity | ].
  destruct (shutdown_suppresses_scheduling nat booted) as (_ & _ & Hrace).
  destruct (Hrace eq_refl true)
    as (Hstep & Hflag & _ & Hq & _ & Htimer & _ & Hcalls & Hstray).
  split; [exact Hstep | ]. split; [exact Hflag | ]. split; [exact Hq | ].
  split; [exact Htimer | ].
  destruct (Hstray (fun n => (true, S n)) eq_refl Hv)
    as (data'' & Hrun & Hq' & Hcalls').
  exists data''. split; [exact Hrun | ]. split; [exact Hq' | ].
  rewrite Hcalls', Hcalls. reflexivity.
Defined.

Lemma hpd_worker_bounce_ignored_witness :
  let data := sample_data 0 STATE_DONE_ENABLED 1 0 None in
  get_hpd_state (ops data) = Some (fun n => (true, S n)) /\
  state data = STATE_DONE_ENABLED /\
  pending_hpd_evt data <> 0 /\
  exists data',
    hpd_worker data = Done data' /\
    state data' = STATE_DONE_ENABLED /\
    dwork data' = None /\
    calls (trace data') = [Call OpGetHpdState].
Proof.
  cbv zeta.
  assert (Hp : pending_hpd_evt (sample_data 0 STATE_DONE_ENABLED 1 0 None) <> 0)
    by (vm_compute; congruence).
  split; [reflexivity | ]. split; [reflexivity | ]. split; [exact Hp | ].
  destruct (hpd_worker_bounce_ignored nat
              (sample_data 0 STATE_DONE_ENABLED 1 0 None)
              (fun n => (true, S n)) eq_refl eq_refl Hp eq_refl)
    as (data' & Hrun & Hst & Hq & _ & Hcalls & _).
  exists data'. repeat split; assumption.
Defined.


Lemma reachable_state_declared_witness :
  reachable first_event_handled /\
  0 <= state first_event_handled <= 7 /\
  forallb is_benign (trace first_event_handled) = true.
Proof.
  assert (Hreach : reachable first_event_handled).
  { exists (sample_data 0 0 0 0 None), 0%nat, counting_ops, booted.
    split; [ | split].
    - reflexivity.
    - reflexivity.
    - eapply steps_snoc; [eapply steps_snoc; [apply steps_refl | apply step_notify] | ].
      eapply step_worker with (ms := 0) (early := 0%nat) (late := 0%nat);
        vm_compute; reflexivity. }
  split; [exact Hreach | ].
  destruct (reachable_state_declared nat first_event_handled Hreach)
    as (Hst & Hw & _).
  split; assumption.
Defined.

Lemma reset_run_disables_then_checks_plug_witness :
  let data := sample_data 0 STATE_HPD_RESET 0 2 (Some 0) in
  get_hpd_state (ops data) = Some (fun n => (true, S n)) /\
  state data = STATE_HPD_RESET /\
  pending_hpd_evt data = 0 /\
  dwork data <> None /\
  exists data',
    run_queued_work data = Done data' /\
    state data' = STATE_PLUG /\
    dwork data' = Some 10 /\
    edid_reads data' = 2 /\
    count_calls OpDisable (trace data') = 1%nat.
Proof.
  cbv zeta.
  assert (Hq : dwork (sample_data 0 STATE_HPD_RESET 0 2 (Some 0)) <> None)
    by (vm_compute; congruence).
  split; [reflexivity | ]. split; [reflexivity | ]. split; [reflexivity | ].
  split; [exact Hq | ].
  destruct (reset_run_disables_then_checks_plug nat
              (sample_data 0 STATE_HPD_RESET 0 2 (Some 0))
              (fun n => (true, S n)) eq_refl eq_refl eq_refl Hq)
    as (data' & Hrun & Hst & Hdw & Hreads & _ & Hcount).
  exists data'. split; [exact Hrun | ]. split; [exact Hst | ].
  split; [exact Hdw | ]. split; [exact Hreads | exact Hcount].
Defined.

Lemma plug_run_unplugged_disables_witness :
  let data := client_data unplugged_ops STATE_PLUG 0 0 (Some 10) in
  get_hpd_state (ops data) = Some (fun n => (false, S n)) /\
  state data = STATE_PLUG /\
  pending_hpd_evt data = 0 /\
  dwork data <> None /\
  exists data',
    run_queued_work data = Done data' /\
    state data' = STATE_DONE_DISABLED /\
    dwork data' = None /\
    calls (trace data')
    = [Call OpGetHpdState; Call OpGetHpdState; Call OpDisable] /\
    count_calls OpEdidRead (trace data') = 0%nat.
Proof.
  cbv zeta.
  assert (Hq : dwork (client_data unplugged_ops STATE_PLUG 0 0 (Some 10)) <> None)
    by (vm_compute; congruence).
  split; [reflexivity | ]. split; [reflexivity | ]. split; [reflexivity | ].
  split; [exact Hq | ].
  destruct (plug_run_unplugged_disables nat
              (client_data unplugged_ops STATE_PLUG 0 0 (Some 10))
              (fun n => (false, S n)) eq_refl eq_refl eq_refl Hq eq_refl)
    as (data' & Hrun & Hst & Hdw & _ & Hcalls & Hcount).
  exists data'. split; [exact Hrun | ]. split; [exact Hst | ].
  split; [exact Hdw | ]. split; [exact Hcalls | exact Hcount].
Defined.

Lemma check_run_ready_enables_witness :
  let data := client_data steady_ops STATE_CHECK_EDID 0 3 (Some 60) in
  get_hpd_state (ops data) = Some (fun n => (true, n)) /\
  edid_read (ops data) = Some (fun n => (true, n)) /\
  state data = STATE_CHECK_EDID /\
  pending_hpd_evt data = 0 /\
  dwork data <> None /\
  exists data',
    run_queued_work data = Done data' /\
    state data' = STATE_DONE_ENABLED /\
    dwork data' = None /\
    edid_reads data' = 3 /\
    calls (trace data')
    = [Call OpGetHpdState; Call OpGetHpdState; Call OpEdidRead;
       Call OpEdidReady] /\
    count_calls OpDisable (trace data') = 0%nat.
Proof.
  cbv zeta.
  assert (Hq : dwork (client_data steady_ops STATE_CHECK_EDID 0 3 (Some 60))
               <> None)
    by (vm_compute; congruence).
  split; [reflexivity | ]. split; [reflexivity | ]. split; [reflexivity | ].
  split; [reflexivity | ]. split; [exact Hq | ].
  destruct (check_run_ready_enables nat
              (client_data steady_ops STATE_CHECK_EDID 0 3 (Some 60))
              (fun n => (true, n)) (fun n => (true, n))
              eq_refl eq_refl eq_refl eq_refl Hq eq_refl eq_refl)
    as (data' & Hrun & Hst & Hdw & Hreads & Hcalls & Hcount).
  exists data'. split; [exact Hrun | ]. split; [exact Hst | ].
  split; [exact Hdw | ]. split; [exact Hreads | ].
  split; [exact Hcalls | exact Hcount].
Defined.

Lemma event_run_samples_only_witness :
  let data := sample_data 0 STATE_CHECK_EDID 1 2 None in
  get_hpd_state (ops data) = Some (fun n => (true, S n)) /\
  valid_state (state data) /\
  pending_hpd_evt data <> 0 /\
  exists data',
    hpd_worker data = Done data' /\
    calls (trace data') = [Call OpGetHpdState] /\
    drv_data data' = 1%nat /\
    pending_hpd_evt data' = 0.
Proof.
  cbv zeta.
  assert (Hv : valid_state (state (sample_data 0 STATE_CHECK_EDID 1 2 None)))
    by (vm_compute; split; congruence).
  assert (Hp : pending_hpd_evt (sample_data 0 STATE_CHECK_EDID 1 2 None) <> 0)
    by (vm_compute; congruence).
  split; [reflexivity | ]. split; [exact Hv | ]. split; [exact Hp | ].
  destruct (event_run_samples_only nat
              (sample_data 0 STATE_CHECK_EDID 1 2 None)
              (fun n => (true, S n)) eq_refl Hv Hp)
    as (data' & Hrun & Hcalls & Hdrv & _ & _ & Hpend).
  exists data'. split; [exact Hrun | ]. split; [exact Hcalls | ].
  split; [exact Hdrv | exact Hpend].
Defined.

Lemma idle_run_warns_and_keeps_witness :
  let data := sample_data 0 STATE_DONE_DISABLED 0 5 None in
  get_hpd_state (ops data) = Some (fun n => (true, S n)) /\
  state data = STATE_DONE_DISABLED /\
  pending_hpd_evt data = 0 /\
  exists data',
    hpd_worker data = Done data' /\
    state data' = STATE_DONE_DISABLED /\
    edid_reads data' = 5 /\
    dwork data' = None /\
    timer_events (trace data') = [] /\
    calls (trace data') = [Call OpGetHpdState].
Proof.
  cbv zeta.
  split; [reflexivity | ]. split; [reflexivity | ]. split; [reflexivity | ].
  destruct (idle_run_warns_and_keeps nat
              (sample_data 0 STATE_DONE_DISABLED 0 5 None)
              (fun n => (true, S n)) eq_refl (or_introl eq_refl) eq_refl)
    as (data' & Hrun & Hst & Hreads & Hdw & _ & _ & Htimer & Hcalls & _).
  exists data'. split; [exact Hrun | ]. split; [exact Hst | ].
  split; [exact Hreads | ]. split; [exact Hdw | ].
  split; [exact Htimer | exact Hcalls].
Defined.

Lemma drop_timeout_disables_witness :
  let data := client_data unplugged_ops STATE_DONE_ENABLED 0 0 None in
  get_hpd_state (ops data) = Some (fun n => (false, S n)) /\
  state data = STATE_DONE_ENABLED /\
  shutdown data = 0 /\
  exists data3,
    run 3 (hpd_set_pending_evt data) = Done data3 /\
    state data3 = STATE_PLUG /\
    dwork data3 = Some 10 /\
    calls (trace data3)
    = [Call OpGetHpdState; Call OpGetHpdState; Call OpGetHpdState;
       Call OpDisable].
Proof.
  cbv zeta.
  split; [reflexivity | ]. split; [reflexivity | ]. split; [reflexivity | ].
  destruct (drop_timeout_disables nat
              (client_data unplugged_ops STATE_DONE_ENABLED 0 0 None)
              (fun n => (false, S n)) 1%nat eq_refl eq_refl eq_refl eq_refl)
    as (data1 & data2 & data3 & _ & _ & _ & _ & _ & _ & _ & Hrun & Hst & Hdw
        & _ & _ & Hcalls).
  exists data3. split; [exact Hrun | ]. split; [exact Hst | ].
  split; [exact Hdw | exact Hcalls].
Defined.

Lemma drop_reassert_unchanged_keeps_output_witness :
  let data := client_data flapping_ops STATE_DONE_ENABLED 0 0 None in
  get_hpd_state (ops data) = Some (fun n => ((0 <? n)%nat, S n)) /\
  edid_recheck (ops data) = Some (fun n => (0, S n)) /\
  state data = STATE_DONE_ENABLED /\
  shutdown data = 0 /\
  exists data1 data3,
    run 1 (hpd_set_pending_evt data) = Done data1 /\
    state data1 = STATE_WAIT_FOR_HPD_REASSERT /\
    run 2 (hpd_set_pending_evt data1) = Done data3 /\
    state data3 = STATE_DONE_ENABLED /\
    dwork data3 = None /\
    calls (trace data3)
    = [Call OpGetHpdState; Call OpGetHpdState; Call OpGetHpdState;
       Call OpEdidRecheck].
Proof.
  cbv zeta.
  split; [reflexivity | ]. split; [reflexivity | ]. split; [reflexivity | ].
  split; [reflexivity | ].
  destruct (drop_reassert_unchanged_keeps_output nat
              (client_data flapping_ops STATE_DONE_ENABLED 0 0 None)
              (fun n => ((0 <? n)%nat, S n)) (fun n => (0, S n))
              1%nat 2%nat 4%nat
              eq_refl eq_refl eq_refl eq_refl eq_refl eq_refl eq_refl)
    as (data1 & data2 & data3 & Hrun1 & Hst1 & _ & _ & _ & _ & _ & _ & Hrun3
        & Hst3 & Hdw3 & _ & Hcalls).
  exists data1, data3. split; [exact Hrun1 | ]. split; [exact Hst1 | ].
  split; [exact Hrun3 | ]. split; [exact Hst3 | ].
  split; [exact Hdw3 | exact Hcalls].
Defined.

Lemma bootloader_takeover_keeps_output_witness :
  let data := client_data steady_ops STATE_INIT_FROM_BOOTLOADER 0 0 None in
  get_hpd_state (ops data) = Some (fun n => (true, n)) /\
  edid_read (ops data) = Some (fun n => (true, n)) /\
  state data = STATE_INIT_FROM_BOOTLOADER /\
  shutdown data = 0 /\
  exists data3,
    run 3 (hpd_set_pending_evt data) = Done data3 /\
    state data3 = STATE_DONE_ENABLED /\
    dwork data3 = None /\
    count_calls OpDisable (trace data3) = 0%nat.
Proof.
  cbv zeta.
  split; [reflexivity | ]. split; [reflexivity | ]. split; [reflexivity | ].
  split; [reflexivity | ].
  destruct (bootloader_takeover_keeps_output nat
              (client_data steady_ops STATE_INIT_FROM_BOOTLOADER 0 0 None)
              (fun n => (true, n)) (fun n => (true, n))
              0%nat 0%nat 0%nat 0%nat 0%nat 0%nat
              eq_refl eq_refl eq_refl eq_refl
              eq_refl eq_refl eq_refl eq_refl eq_refl eq_refl)
    as (data1 & data2 & data3 & _ & _ & _ & _ & _ & _ & _ & Hrun & Hst & Hdw
        & _ & _ & Hcount).
  exists data3. split; [exact Hrun | ]. split; [exact Hst | ].
  split; [exact Hdw | exact Hcount].
Defined.

Lemma machine_settles_witness :
  reachable first_event_handled /\
  (15 <= 15)%nat /\
  exists data',
    run 15 first_event_handled = Done data' /\
    dwork data' = None /\
    (state data' = STATE_DONE_DISABLED \/ state data' = STATE_DONE_ENABLED).
Proof.
  assert (Hreach : reachable first_event_handled).
  { exists (sample_data 0 0 0 0 None), 0%nat, counting_ops, booted.
    split; [ | split].
    - reflexivity.
    - reflexivity.
    - eapply steps_snoc; [eapply steps_snoc; [apply steps_refl | apply step_notify] | ].
      eapply step_worker with (ms := 0) (early := 0%nat) (late := 0%nat);
        vm_compute; reflexivity. }
  split; [exact Hreach | ]. split; [lia | ].
  destruct (machine_settles nat first_event_handled 15 Hreach (le_n 15))
    as (data' & Hrun & Hdw & Hterm).
  exists data'. split; [exact Hrun | ]. split; [exact Hdw | ].
  apply Hterm; [reflexivity | vm_compute; congruence].
Defined.

Lemma one_schedule_after_shutdown_at_most_witness :
  reachable (hpd_set_pending_evt_across_shutdown true booted) /\
  trace (hpd_set_pending_evt_across_shutdown true booted)
  = [Call OpInit; CancelWork; CancelWorkSync; Call OpShutdown;
     ScheduleWork 0] /\
  (scheduled
     (after_sync (trace (hpd_set_pending_evt_across_shutdown true booted)))
   <= 1)%nat /\
  shutdown (hpd_set_pending_evt_across_shutdown true booted) <> 0.
Proof.
  assert (Hreach : reachable (hpd_set_pending_evt_across_shutdown true booted)).
  { exists (sample_data 0 0 0 0 None), 0%nat, counting_ops, booted.
    split; [ | split].
    - reflexivity.
    - reflexivity.
    - eapply steps_snoc;
        [apply steps_refl | apply step_notify_across_shutdown; reflexivity]. }
  split; [exact Hreach | ]. split; [reflexivity | ].
  destruct (one_schedule_after_shutdown_at_most nat _ Hreach)
    as (_ & Hle & Hflag & _).
  split; [exact Hle | ].
  apply Hflag. vm_compute. do 2 right. left. reflexivity.
Defined.

Lemma step_follows_diagram_witness :
  step (hpd_set_pending_evt booted) first_event_handled /\
  (state first_event_handled = state (hpd_set_pending_evt booted) \/
   edge STATE_INIT_FROM_BOOTLOADER STATE_PLUG = true).
Proof.
  assert (Hstep : step (hpd_set_pending_evt booted) first_event_handled)
    by (eapply step_worker with (ms := 0) (early := 0%nat) (late := 0%nat);
        vm_compute; reflexivity).
  split; [exact Hstep | ].
  exact (step_follows_diagram nat _ _ Hstep).
Defined.

Lemma unplugged_boot_disables_twice_witness :
  let data := client_data unplugged_ops STATE_INIT_FROM_BOOTLOADER 0 0 None in
  get_hpd_state (ops data) = Some (fun n => (false, S n)) /\
  state data = STATE_INIT_FROM_BOOTLOADER /\
  shutdown data = 0 /\
  exists data3,
    run 3 (hpd_set_pending_evt data) = Done data3 /\
    state data3 = STATE_DONE_DISABLED /\
    dwork data3 = None /\
    count_calls OpDisable (trace data3) = 2%nat.
Proof.
  cbv zeta.
  split; [reflexivity | ]. split; [reflexivity | ]. split; [reflexivity | ].
  destruct (unplugged_boot_disables_twice nat
              (client_data unplugged_ops STATE_INIT_FROM_BOOTLOADER 0 0 None)
              (fun n => (false, S n)) 1%nat 5%nat
              eq_refl eq_refl eq_refl eq_refl eq_refl)
    as (data1 & data2 & data3 & _ & _ & _ & _ & _ & _ & Hrun & Hst & Hdw
        & _ & _ & Hcount).
  exists data3. split; [exact Hrun | ]. split; [exact Hst | ].
  split; [exact Hdw | exact Hcount].
Defined.

Lemma pending_event_is_queued_witness :
  reachable (hpd_set_pending_evt booted) /\
  shutdown (hpd_set_pending_evt booted) = 0 /\
  pending_hpd_evt (hpd_set_pending_evt booted) <> 0 /\
  pending_hpd_evt (hpd_set_pending_evt booted) = 1 /\
  dwork (hpd_set_pending_evt booted) = Some 0.
Proof.
  assert (Hreach : reachable (hpd_set_pending_evt booted)).
  { exists (sample_data 0 0 0 0 None), 0%nat, counting_ops, booted.
    split; [ | split].
    - reflexivity.
    - reflexivity.
    - eapply steps_snoc; [apply steps_refl | apply step_notify]. }
  assert (Hp : pending_hpd_evt (hpd_set_pending_evt booted) <> 0)
    by (vm_compute; congruence).
  split; [exact Hreach | ]. split; [reflexivity | ]. split; [exact Hp | ].
  exact (pending_event_is_queued nat _ Hreach eq_refl Hp).
Defined.

Lemma step_calls_by_state_witness :
  step (hpd_set_pending_evt booted) first_event_handled /\
  may_call OpDisable (state (hpd_set_pending_evt booted)) = false /\
  count_calls OpDisable (trace first_event_handled)
  = count_calls OpDisable (trace (hpd_set_pending_evt booted)).
Proof.
  assert (Hstep : step (hpd_set_pending_evt booted) first_event_handled)
    by (eapply step_worker with (ms := 0) (early := 0%nat) (late := 0%nat);
        vm_compute; reflexivity).
  split; [exact Hstep | ]. split; [reflexivity | ].
  destruct (step_calls_by_state nat _ _ Hstep) as (_ & Hcount).
  apply (Hcount OpDisable). reflexivity.
Defined.

(** The qualification of C10 is needed: in the terminal state DONE_ENABLED
    the branch for a NULL handler can be taken.  A notification that lands
    after the worker has left the queue and before it observes the pending
    flag queues the worker again; if the run in progress ignores the event
    as a bounce, it commits nothing, and the queued run finds no pending
    event and no handler. *)
Remark null_handler_reached_in_done_enabled :
  reachable after_bounce /\
  state after_bounce = STATE_DONE_ENABLED /\
  In (Warn (MsgNullHandler STATE_DONE_ENABLED)) (trace after_bounce).
Proof.
  split; [ | split].
  - exists steady_booted, 0%nat, steady_ops, steady_booted.
    split; [reflexivity | ]. split; [reflexivity | ].
    apply (play_steps nat bounce_script). vm_compute. reflexivity.
  - reflexivity.
  - vm_compute. do 29 right. left. reflexivity.
Qed.

(** ** Where the code departs from the specification *)

(** C9, as stated, fails: with a null context pointer [hpd_init] aborts
    although the operations passed to it lack no mandatory operation. *)
Lemma hpd_init_abort_not_only_missing :
  ~ ((exists f, hpd_init (D:=nat) None 0%nat (Some counting_ops) = Fault f)
     <-> missing_mandatory counting_ops = true).
Proof.
  intros [Hto _].
  assert (H : missing_mandatory counting_ops = true).
  { apply Hto. exists BugOn. reflexivity. }
  discriminate H.
Qed.


